(** * pptupload: the upload orchestration, embedded and verified

    The repository is a Next.js application with three upload handlers:

    - [Upload.POST]        the direct upload (client-supplied previews),
    - [UploadStream.POST]  server-side conversion with streamed progress,
    - [ProcessPpt.POST]    server-side conversion with AI classification
                           and a page-count threshold.

    Each handler is an [async] function that talks to the file system, a
    child process, an object store (R2), a relational store (Supabase) and,
    for the third one, a remote model.  The embedding is a state-and-exception
    monad [M] over a [World] that holds those collaborators' state together
    with a chronological log of the calls made; what the collaborators answer
    is read from an environment [Env] of oracles, so that every theorem
    quantifies over every behaviour of the outside world. *)

From Stdlib Require Import ZArith String Ascii DecimalString.
From stdpp Require Import gmap strings list.

Open Scope string_scope.
Open Scope Z_scope.
Open Scope list_scope.

(** ** JavaScript strings

    A JavaScript string is modelled by a Rocq [string], read as the UTF-8
    bytes of the text.  The helpers below are the [String.prototype] and
    [path] functions the handlers call; they work on [list ascii]. *)

Module Js.

Definition chars (s : string) : list ascii := list_ascii_of_string s.
Definition str (l : list ascii) : string := string_of_list_ascii l.

Definition utf8 (codes : list N) : list ascii := map ascii_of_N codes.

Definition LF : ascii := ascii_of_N 10.
Definition nl : string := String LF EmptyString.
Definition comma : ascii := ascii_of_N 44.
Definition dot : ascii := ascii_of_N 46.
Definition slash : ascii := ascii_of_N 47.

(** ECMAScript's WhiteSpace and LineTerminator code points, UTF-8 encoded:
    TAB, LF, VT, FF, CR, SP, U+00A0, U+1680, U+2000..U+200A, U+2028, U+2029,
    U+202F, U+205F, U+3000 and U+FEFF. *)
Definition white_space : list (list ascii) :=
  map utf8
    [ [9]; [10]; [11]; [12]; [13]; [32]; [194; 160]; [225; 154; 128];
      [226; 128; 128]; [226; 128; 129]; [226; 128; 130]; [226; 128; 131];
      [226; 128; 132]; [226; 128; 133]; [226; 128; 134]; [226; 128; 135];
      [226; 128; 136]; [226; 128; 137]; [226; 128; 138]; [226; 128; 168];
      [226; 128; 169]; [226; 128; 175]; [226; 129; 159]; [227; 128; 128];
      [239; 187; 191] ]%N.

(** [strip p l] removes the prefix [p] from [l] when it is one. *)
Fixpoint strip (p l : list ascii) : option (list ascii) :=
  match p, l with
  | [], _ => Some l
  | a :: p', b :: l' => if Ascii.eqb a b then strip p' l' else None
  | _ :: _, [] => None
  end.

Fixpoint strip_any (ps : list (list ascii)) (l : list ascii) : option (list ascii) :=
  match ps with
  | [] => None
  | p :: ps' =>
      match strip p l with
      | Some r => Some r
      | None => strip_any ps' l
      end
  end.

(** Drop leading occurrences of the patterns [ps]; each round removes at
    least one byte, so [length l] rounds are enough. *)
Fixpoint skip (ps : list (list ascii)) (fuel : nat) (l : list ascii) : list ascii :=
  match fuel with
  | O => l
  | S n =>
      match strip_any ps l with
      | Some r => skip ps n r
      | None => l
      end
  end.

Definition trimStart_l (l : list ascii) : list ascii :=
  skip white_space (length l) l.

Definition trimEnd_l (l : list ascii) : list ascii :=
  rev (skip (map (@rev ascii) white_space) (length l) (rev l)).

(** [String.prototype.trim] *)
Definition trim_l (l : list ascii) : list ascii := trimEnd_l (trimStart_l l).
Definition trim (s : string) : string := str (trim_l (chars s)).

(** [String.prototype.split] with a one-character separator: never empty,
    [split sep ""] is [[""]]. *)
Fixpoint split_l (sep : ascii) (l : list ascii) : list (list ascii) :=
  match l with
  | [] => [[]]
  | c :: l' =>
      if Ascii.eqb c sep then [] :: split_l sep l'
      else match split_l sep l' with
           | seg :: segs => (c :: seg) :: segs
           | [] => [[c]]
           end
  end.

Definition split (sep : ascii) (s : string) : list string :=
  map str (split_l sep (chars s)).

(** [a[a.length - 1]] (and [a.pop()]) of a [split]. *)
Definition last_of (segs : list (list ascii)) : list ascii := List.last segs [].

(** [const lines = s.trim().split('\n'); lines[lines.length - 1]] *)
Definition last_line (s : string) : string :=
  str (last_of (split_l LF (chars (trim s)))).

(** [String.prototype.toLowerCase] on the ASCII letters. *)
Definition lower_char (c : ascii) : ascii :=
  let n := N_of_ascii c in
  if ((65 <=? n) && (n <=? 90))%N then ascii_of_N (n + 32) else c.

Definition toLowerCase (s : string) : string := str (map lower_char (chars s)).

(** [`${n}`] for an integer. *)
Definition decimal (z : Z) : string := NilZero.string_of_int (Z.to_int z).

(** [Number.prototype.toString(36)] *)
Definition digit36 (d : N) : ascii :=
  if (d <? 10)%N then ascii_of_N (48 + d) else ascii_of_N (87 + d).

Fixpoint base36 (fuel : nat) (n : N) (acc : list ascii) : list ascii :=
  match fuel with
  | O => acc
  | S f =>
      let acc' := digit36 (n mod 36) :: acc in
      if (n / 36 =? 0)%N then acc' else base36 f (n / 36) acc'
  end.

Definition toString36 (z : Z) : string :=
  let n := Z.abs_N z in
  let digits := base36 (S (N.size_nat n)) n [] in
  str (if z <? 0 then ascii_of_N 45 :: digits else digits).

(** [s.slice(-k)] *)
Definition slice_last (k : nat) (s : string) : string :=
  let l := chars s in str (drop (length l - k) l).

(** [(size / 1024 / 1024).toFixed(2)]: the division by [2^20] is exact on
    doubles, and [toFixed] rounds half up. *)
Definition two_digits (n : Z) : string :=
  if n <? 10 then "0" +:+ decimal n else decimal n.

Definition MiB_toFixed2 (size : Z) : string :=
  let n := (200 * size + 1048576) / 2097152 in
  decimal (n / 100) +:+ "." +:+ two_digits (n mod 100).

(** POSIX [path.basename], [path.extname] and [path.join] (the latter on
    segments that need no normalisation). *)
Definition is_slash (c : ascii) : bool := Ascii.eqb c slash.

Fixpoint drop_slashes (l : list ascii) : list ascii :=
  match l with
  | c :: l' => if is_slash c then drop_slashes l' else l
  | [] => []
  end.

Definition basename_l (p : list ascii) : list ascii :=
  last_of (split_l slash (rev (drop_slashes (rev p)))).

Definition basename (p : string) : string := str (basename_l (chars p)).

Definition extname (p : string) : string :=
  let b := basename_l (chars p) in
  match split_l dot b with
  | [] | [_] => ""
  | segs =>
      let ext := last_of segs in
      if (length b - length ext =? 1)%nat then ""
      else if String.eqb (str b) ".." then ""
      else str (dot :: ext)
  end.

Definition join (a b : string) : string := a +:+ "/" +:+ b.

(** [s] between double quotes. *)
Definition quoted (s : string) : string :=
  String (ascii_of_N 34) s +:+ String (ascii_of_N 34) EmptyString.

End Js.

(** ** Data model *)

(** File contents are opaque: the handlers copy them and never look inside. *)
Definition Bytes := string.

(** A [File] of a multipart form: [file.name], [file.type], [file.size] and
    the bytes [file.arrayBuffer()] resolves to. *)
Record File := {
  f_name : string;
  f_type : string;
  f_size : Z;
  f_bytes : Bytes
}.

(** [request.formData()]: [formData.get(k)] is [null] for an absent field. *)
Record FormData := {
  fd_file : option File;
  fd_title : option string;
  fd_description : option string;
  fd_category : option string;
  fd_subcategory : option string;
  fd_tags : option string;
  fd_previews : option string;
  fd_thumbnails : option string
}.

(** What a JavaScript [throw] carries here: an [Error] (or [TypeError],
    [SyntaxError]) instance, or the error object of the database client. *)
Inductive Exn :=
  | JsError (name message : string)
  | PostgrestError (message : string).

Inductive Request :=
  | BadBody (e : Exn)          (* [request.formData()] rejects *)
  | Form (fd : FormData).

(** A row of [ppt_files]; a column the payload leaves out is [None]. *)
Record FileRow := {
  fr_id : option string;
  fr_title : option string;
  fr_slug : option string;
  fr_description : option string;
  fr_category : option string;
  fr_subcategory : option string;
  fr_tags : option (list string);
  fr_file_name : string;
  fr_file_size : Z;
  fr_file_type : string;
  fr_page_count : Z;
  fr_r2_file_key : option string;
  fr_r2_thumbnail_key : option string;
  fr_created_at : option string
}.

(** A row of [ppt_previews]. *)
Record PreviewRow := {
  pr_ppt_id : option string;
  pr_page_number : Z;
  pr_preview_url : string;
  pr_thumbnail_url : string
}.

(** JSON values, for response bodies. *)
#[warnings="-register-all"]
Inductive Json :=
  | JNull
  | JBool (b : bool)
  | JNum (n : Z)
  | JStr (s : string)
  | JArr (items : list Json)
  | JObj (fields : list (string * Json)).

Definition JOpt (o : option string) : Json :=
  match o with Some s => JStr s | None => JNull end.

(** [JSON.parse] is a host function.  Each call site reads its result at one
    shape, and the environment gives the parse at that shape: a syntax error,
    [null], a value of the shape, or any other value. *)
Inductive Shaped (A : Type) :=
  | Null
  | Other
  | Value (a : A).
Arguments Null {A}.
Arguments Other {A}.
Arguments Value {A} a.

Inductive Parsed (A : Type) :=
  | SyntaxErr (message : string)
  | Parses (v : Shaped A).
Arguments SyntaxErr {A} message.
Arguments Parses {A} v.

(** The converter's JSON result: [{ previews, thumbnails, page_count }],
    any of which may be absent. *)
Record ConversionOutput := {
  co_page_count : option Z;
  co_previews : option (list string);
  co_thumbnails : option (list string)
}.

(** The classifier's JSON result. *)
Record Metadata := {
  md_title : option string;
  md_slug : option string;
  md_description : option string;
  md_category : option string;
  md_subcategory : option string;
  md_tags : option (list string)
}.

(** A finished child process, or one that could not be started. *)
Inductive ProcessRun :=
  | SpawnFails (e : Exn)
  | Exits (code : option Z) (stdout stderr : string) (written : list (string * Bytes)).

Record HttpResponse := {
  http_ok : bool;
  http_body : string
}.

(** Progress events of the streamed pipeline. *)
Inductive Status := Info | Processing | Error | Done.

Record StreamEvent := {
  ev_status : Status;
  ev_message : string;
  ev_slug : option string
}.

Inductive Response :=
  | JsonResponse (status : Z) (body : Json)
  | EventStream.        (* 200, text/event-stream: the chunks are the stream's queue *)

(** Calls to the collaborators, as logged in the [World]. *)
Inductive Effect :=
  | FsMkdtemp (prefix : string)
  | FsMkdir (path : string)
  | FsWriteFile (path : string) (data : Bytes)
  | FsReadFile (path : string)
  | FsRm (path : string)
  | Spawn (script : string) (args : list string)
  | R2Put (key : string) (body : option Bytes) (content_type : option string)
  | DbInsertFile (row : FileRow)
  | DbInsertPreviews (rows : list PreviewRow)
  | DbUpdateFile (id : option string) (file_key thumbnail_key : option string)
  | Fetch (filename text : string).

Record Entry := {
  eff : Effect;
  ok : bool              (* the call succeeded *)
}.

Inductive StreamState := Readable | Closed | Errored.

(** The environment: configuration, host functions whose result the
    handlers only pass on, and the collaborators' answers. *)
Record Env := {
  R2_ACCOUNT_ID : option string;
  R2_ACCESS_KEY_ID : option string;
  R2_SECRET_ACCESS_KEY : option string;
  R2_BUCKET_NAME : option string;
  R2_PUBLIC_URL : option string;
  NEXT_PUBLIC_SUPABASE_URL : option string;
  NEXT_PUBLIC_SUPABASE_ANON_KEY : option string;
  DOUBAO_API_KEY : option string;
  Date_now : Z;
  uuidv4 : string;
  slugify : string -> string;
  os_tmpdir : string;
  mkdtemp_suffix : string;
  Buffer_from_base64 : string -> Bytes;
  sharp_thumbnail : Bytes -> Exn + Bytes;       (* resize(400, 225).webp({quality: 80}) *)
  sharp_webp : Z -> Bytes -> Exn + Bytes;       (* webp({quality}) *)
  JSON_parse_array : string -> Parsed (list string);
  JSON_parse_conversion : string -> Parsed ConversionOutput;
  JSON_parse_completion : string -> Parsed (option string);
  JSON_parse_metadata : string -> Parsed Metadata;
  PostgrestError_is_Error : bool;
  (** the [n]-th call to the file system, the stores or the network fails
      with this message *)
  fault : nat -> option string;
  spawn : string -> list string -> ProcessRun;
  db_new_id : string;
  db_created_at : string;
  fetch_completion : string -> string -> HttpResponse
}.

(** The state the handlers act on. *)
Record World := {
  w_calls : nat;                       (* calls made so far, the index into [fault] *)
  w_dirs : gset string;                (* directories on disk *)
  w_disk : gmap string Bytes;          (* files on disk *)
  w_r2 : gmap string Bytes;            (* the object store *)
  w_ppt_files : list FileRow;
  w_ppt_previews : list PreviewRow;
  w_trace : list Entry;                (* chronological *)
  w_stream : StreamState;              (* the response stream's controller *)
  w_queue : list StreamEvent           (* chunks enqueued on it *)
}.

(** ** The monad *)

Inductive Result (A : Type) :=
  | Val (a : A)
  | Exc (e : Exn).
Arguments Val {A} a.
Arguments Exc {A} e.

Definition M (A : Type) : Type := World -> Result A * World.

Definition ret {A} (a : A) : M A := fun w => (Val a, w).

Definition throw {A} (e : Exn) : M A := fun w => (Exc e, w).

Definition bind {A B} (m : M A) (k : A -> M B) : M B := fun w =>
  match m w with
  | (Val a, w') => k a w'
  | (Exc e, w') => (Exc e, w')
  end.

#[global] Instance M_ret : MRet M := @ret.
#[global] Instance M_bind : MBind M := fun A B k m => bind m k.

(** [try { m } catch (e) { h e }] *)
Definition try_catch {A} (m : M A) (h : Exn -> M A) : M A := fun w =>
  match m w with
  | (Val a, w') => (Val a, w')
  | (Exc e, w') => h e w'
  end.

(** [try { m } finally { c }]: [c] runs on every exit of [m]; the outcome of
    [m] stands unless [c] itself throws. *)
Definition finally {A} (m : M A) (c : M unit) : M A := fun w =>
  match m w with
  | (r, w') =>
      match c w' with
      | (Val _, w'') => (r, w'')
      | (Exc e, w'') => (Exc e, w'')
      end
  end.

Definition message_of (e : Exn) : string :=
  match e with
  | JsError _ m => m
  | PostgrestError m => m
  end.

(** [!s] for a string-or-null. *)
Definition falsy (o : option string) : bool :=
  match o with
  | None => true
  | Some s => String.eqb s ""
  end.

(** [`${v}`] for a string-or-undefined. *)
Definition show (o : option string) : string := default "undefined" o.

(** ** The collaborators *)

Definition set_calls (n : nat) (w : World) : World :=
  {| w_calls := n; w_dirs := w_dirs w; w_disk := w_disk w; w_r2 := w_r2 w;
     w_ppt_files := w_ppt_files w; w_ppt_previews := w_ppt_previews w;
     w_trace := w_trace w; w_stream := w_stream w; w_queue := w_queue w |}.

Definition set_fs (dirs : gset string) (disk : gmap string Bytes) (w : World) : World :=
  {| w_calls := w_calls w; w_dirs := dirs; w_disk := disk; w_r2 := w_r2 w;
     w_ppt_files := w_ppt_files w; w_ppt_previews := w_ppt_previews w;
     w_trace := w_trace w; w_stream := w_stream w; w_queue := w_queue w |}.

Definition set_r2 (r2 : gmap string Bytes) (w : World) : World :=
  {| w_calls := w_calls w; w_dirs := w_dirs w; w_disk := w_disk w; w_r2 := r2;
     w_ppt_files := w_ppt_files w; w_ppt_previews := w_ppt_previews w;
     w_trace := w_trace w; w_stream := w_stream w; w_queue := w_queue w |}.

Definition set_db (files : list FileRow) (previews : list PreviewRow) (w : World) : World :=
  {| w_calls := w_calls w; w_dirs := w_dirs w; w_disk := w_disk w; w_r2 := w_r2 w;
     w_ppt_files := files; w_ppt_previews := previews;
     w_trace := w_trace w; w_stream := w_stream w; w_queue := w_queue w |}.

Definition set_trace (tr : list Entry) (w : World) : World :=
  {| w_calls := w_calls w; w_dirs := w_dirs w; w_disk := w_disk w; w_r2 := w_r2 w;
     w_ppt_files := w_ppt_files w; w_ppt_previews := w_ppt_previews w;
     w_trace := tr; w_stream := w_stream w; w_queue := w_queue w |}.

Definition set_stream (st : StreamState) (q : list StreamEvent) (w : World) : World :=
  {| w_calls := w_calls w; w_dirs := w_dirs w; w_disk := w_disk w; w_r2 := w_r2 w;
     w_ppt_files := w_ppt_files w; w_ppt_previews := w_ppt_previews w;
     w_trace := w_trace w; w_stream := st; w_queue := q |}.

(** One more call made, logged with its outcome. *)
Definition logged (e : Effect) (b : bool) (w : World) : World :=
  set_trace (w_trace w ++ [{| eff := e; ok := b |}]) (set_calls (S (w_calls w)) w).

(** [under dir p]: [p] is [dir] or lies below it. *)
Definition under (dir p : string) : bool :=
  String.eqb p dir || String.prefix (dir +:+ "/") p.

Definition on_disk (p : string) (w : World) : bool :=
  bool_decide (p ∈ w_dirs w) || bool_decide (is_Some (w_disk w !! p)).

Definition remove_tree (dir : string) (w : World) : World :=
  set_fs (filter (λ d, under dir d = false) (w_dirs w))
         (filter (λ kv, under dir kv.1 = false) (w_disk w)) w.

Definition write_all (files : list (string * Bytes)) (disk : gmap string Bytes) : gmap string Bytes :=
  foldl (λ d kv, <[kv.1 := kv.2]> d) disk files.

Section Collaborators.

Variable env : Env.

(** A call that the environment may fail; [act] is what it does otherwise. *)
Definition external {A} (e : Effect) (act : World -> Exn + (A * World)) : M A := fun w =>
  match fault env (w_calls w) with
  | Some msg => (Exc (JsError "Error" msg), logged e false w)
  | None =>
      match act w with
      | inl err => (Exc err, logged e false w)
      | inr (a, w') => (Val a, logged e true w')
      end
  end.

(** [fs.mkdtemp(prefix)] *)
Definition fs_mkdtemp (prefix : string) : M string :=
  external (FsMkdtemp prefix) (fun w =>
    let dir := prefix +:+ mkdtemp_suffix env in
    if on_disk dir w then inl (JsError "Error" ("EEXIST: file already exists, mkdtemp " +:+ dir))
    else inr (dir, set_fs ({[dir]} ∪ w_dirs w) (w_disk w) w)).

(** [fs.mkdir(path, { recursive })] *)
Definition fs_mkdir (recursive : bool) (path : string) : M unit :=
  external (FsMkdir path) (fun w =>
    if on_disk path w && negb recursive
    then inl (JsError "Error" ("EEXIST: file already exists, mkdir " +:+ path))
    else inr (tt, set_fs ({[path]} ∪ w_dirs w) (w_disk w) w)).

(** [fs.writeFile(path, data)] *)
Definition fs_writeFile (path : string) (data : Bytes) : M unit :=
  external (FsWriteFile path data) (fun w =>
    inr (tt, set_fs (w_dirs w) (<[path := data]> (w_disk w)) w)).

(** [fs.readFile(path)] *)
Definition fs_readFile (path : string) : M Bytes :=
  external (FsReadFile path) (fun w =>
    match w_disk w !! path with
    | Some data => inr (data, w)
    | None => inl (JsError "Error" ("ENOENT: no such file or directory, open " +:+ path))
    end).

(** [fs.rm(path, { recursive: true, force: true })]: with [force], a path
    that does not exist is no error. *)
Definition fs_rm (path : string) : M unit := fun w =>
  if on_disk path w
  then external (FsRm path) (fun w' => inr (tt, remove_tree path w')) w
  else (Val tt, logged (FsRm path) true w).

(** [spawn('python', [script, ...args])], awaited to its ['close'] (or
    ['error']) event; the files the process wrote are on disk afterwards. *)
Definition spawn_python (script : string) (args : list string) : M ProcessRun := fun w =>
  let run := spawn env script args in
  match run with
  | SpawnFails _ => (Val run, logged (Spawn script args) false w)
  | Exits _ _ _ written =>
      (Val run, logged (Spawn script args) true
                  (set_fs (w_dirs w) (write_all written (w_disk w)) w))
  end.

(** [client.send(new PutObjectCommand({ Bucket, Key, Body, ContentType }))]:
    a put without [Body] stores an empty object. *)
Definition r2_send (key : string) (body : option Bytes) (content_type : option string) : M unit :=
  external (R2Put key body content_type) (fun w =>
    inr (tt, set_r2 (<[key := default "" body]> (w_r2 w)) w)).

(** The row as stored: the database fills in [id] and [created_at]. *)
Definition stored (payload : FileRow) : FileRow :=
  {| fr_id := Some (default (db_new_id env) (fr_id payload));
     fr_title := fr_title payload; fr_slug := fr_slug payload;
     fr_description := fr_description payload; fr_category := fr_category payload;
     fr_subcategory := fr_subcategory payload; fr_tags := fr_tags payload;
     fr_file_name := fr_file_name payload; fr_file_size := fr_file_size payload;
     fr_file_type := fr_file_type payload; fr_page_count := fr_page_count payload;
     fr_r2_file_key := fr_r2_file_key payload;
     fr_r2_thumbnail_key := fr_r2_thumbnail_key payload;
     fr_created_at := Some (default (db_created_at env) (fr_created_at payload)) |}.

(** The database client never throws: it resolves to [{ data, error }]. *)
Definition db_insert_file (payload : FileRow) : M (string + FileRow) := fun w =>
  match fault env (w_calls w) with
  | Some msg => (Val (inl msg), logged (DbInsertFile payload) false w)
  | None =>
      let row := stored payload in
      (Val (inr row),
       logged (DbInsertFile payload) true
         (set_db (w_ppt_files w ++ [row]) (w_ppt_previews w) w))
  end.

Definition db_insert_previews (rows : list PreviewRow) : M (option string) := fun w =>
  match fault env (w_calls w) with
  | Some msg => (Val (Some msg), logged (DbInsertPreviews rows) false w)
  | None =>
      (Val None,
       logged (DbInsertPreviews rows) true
         (set_db (w_ppt_files w) (w_ppt_previews w ++ rows) w))
  end.

Definition attach_keys (id file_key thumbnail_key : option string) (row : FileRow) : FileRow :=
  if bool_decide (fr_id row = id) then
    {| fr_id := fr_id row;
       fr_title := fr_title row; fr_slug := fr_slug row;
       fr_description := fr_description row; fr_category := fr_category row;
       fr_subcategory := fr_subcategory row; fr_tags := fr_tags row;
       fr_file_name := fr_file_name row; fr_file_size := fr_file_size row;
       fr_file_type := fr_file_type row; fr_page_count := fr_page_count row;
       fr_r2_file_key := file_key;
       fr_r2_thumbnail_key := thumbnail_key;
       fr_created_at := fr_created_at row |}
  else row.

(** [.update({ r2_file_key, r2_thumbnail_key }).eq('id', id)] *)
Definition db_update_file (id file_key thumbnail_key : option string) : M (option string) := fun w =>
  match fault env (w_calls w) with
  | Some msg => (Val (Some msg), logged (DbUpdateFile id file_key thumbnail_key) false w)
  | None =>
      (Val None,
       logged (DbUpdateFile id file_key thumbnail_key) true
         (set_db (map (attach_keys id file_key thumbnail_key) (w_ppt_files w))
                 (w_ppt_previews w) w))
  end.

(** [fetch(url, { method: 'POST', ... })] to the chat-completion endpoint.
    The prompt is a function of the file name and the first 3000 characters
    of the text; its wording is not modelled. *)
Definition fetch_ai (filename text : string) : M HttpResponse :=
  external (Fetch filename (String.substring 0 3000 text)) (fun w =>
    inr (fetch_completion env filename (String.substring 0 3000 text), w)).

(** [sharp(input)...toBuffer()]: a pure image transformation that may throw. *)
Definition lift_sum {A} (r : Exn + A) : M A :=
  match r with
  | inl e => throw e
  | inr a => ret a
  end.

(** The response stream's controller: [enqueue] and [close] throw a
    [TypeError] once the stream is no longer readable. *)
Definition not_readable : Exn :=
  JsError "TypeError" "Invalid state: Controller is already closed".

Definition sendEvent (data : StreamEvent) : M unit := fun w =>
  match w_stream w with
  | Readable => (Val tt, set_stream Readable (w_queue w ++ [data]) w)
  | _ => (Exc not_readable, w)
  end.

Definition close : M unit := fun w =>
  match w_stream w with
  | Readable => (Val tt, set_stream Closed (w_queue w) w)
  | _ => (Exc not_readable, w)
  end.

End Collaborators.

(** ** [app/api/upload/route.ts]: the direct upload *)

Module Upload.
Section Handler.

Variable env : Env.

Definition allowed : list string := ["ppt"; "pptx"].

(** [file.name.split('.').pop()?.toLowerCase()] *)
Definition fileType_of (file : File) : string :=
  Js.toLowerCase (Js.str (Js.last_of (Js.split_l Js.dot (Js.chars (f_name file))))).

(** [Buffer.from(dataUrl.split(',')[1], 'base64')] *)
Definition data_url_body (dataUrl : string) : M Bytes :=
  match Js.split Js.comma dataUrl !! 1%nat with
  | Some b64 => ret (Buffer_from_base64 env b64)
  | None =>
      throw (JsError "TypeError"
        "The first argument must be of type string or an instance of Buffer, ArrayBuffer, or Array or an Array-like Object. Received undefined")
  end.

Definition previewKey_of (timestamp : Z) (i : nat) : string :=
  "ppt-files/" +:+ Js.decimal timestamp +:+ "/previews/page-"
    +:+ Js.decimal (Z.of_nat i + 1) +:+ ".jpg".

Definition thumbnailKey_of (timestamp : Z) (i : nat) : string :=
  "ppt-files/" +:+ Js.decimal timestamp +:+ "/previews/page-"
    +:+ Js.decimal (Z.of_nat i + 1) +:+ "-thumb.jpg".

(** The body of [for (let i = 0; i < previews.length; i++)], from index [i]
    on; [rest] is [previews.slice(i)]. *)
Fixpoint upload_pages (timestamp : Z) (pptData : FileRow) (thumbnails : list string)
    (i : nat) (rest : list string) : M unit :=
  match rest with
  | [] => ret tt
  | preview :: rest' =>
      let previewKey := previewKey_of timestamp i in
      let thumbnailKey := thumbnailKey_of timestamp i in
      body ← data_url_body preview;
      r2_send env previewKey (Some body) (Some "image/jpeg");;
      match thumbnails !! i with
      | None =>
          throw (JsError "TypeError" "Cannot read properties of undefined (reading 'split')")
      | Some thumbnail =>
          body' ← data_url_body thumbnail;
          r2_send env thumbnailKey (Some body') (Some "image/jpeg");;
          (* the result of this insert is not looked at *)
          db_insert_previews env
            [ {| pr_ppt_id := fr_id pptData;
                 pr_page_number := Z.of_nat i + 1;
                 pr_preview_url := previewKey;
                 pr_thumbnail_url := thumbnailKey |} ];;
          upload_pages timestamp pptData thumbnails (S i) rest'
      end
  end.

Definition failure (message : string) : Json :=
  JObj [("success", JBool false); ("message", JStr message)].

Definition original_key (timestamp : Z) (file : File) : string :=
  "ppt-files/" +:+ Js.decimal timestamp +:+ "/original/" +:+ f_name file.

(** The row given to [supabase.from('ppt_files').insert]. *)
Definition file_row (formData : FormData) (file : File) (pptKey : string) (pageCount : Z)
    : FileRow :=
  {| fr_id := None;
     fr_title := fd_title formData;
     fr_slug := None;
     fr_description := None;
     fr_category := fd_category formData;
     fr_subcategory := fd_subcategory formData;
     fr_tags := None;
     fr_file_name := f_name file;
     fr_file_size := f_size file;
     fr_file_type :=
       if String.eqb (fileType_of file) "" then "pptx" else fileType_of file;
     fr_page_count := pageCount;
     fr_r2_file_key := Some pptKey;
     fr_r2_thumbnail_key := None;
     fr_created_at := None |}.

Definition POST (request : Request) : M Response :=
  try_catch
    (match request with
     | BadBody e => throw e
     | Form formData =>
         let title := fd_title formData in
         let category := fd_category formData in
         let subcategory := fd_subcategory formData in
         match fd_file formData with
         | None => ret (JsonResponse 400 (failure "No file provided"))
         | Some file =>
             if falsy title then ret (JsonResponse 400 (failure "Title is required"))
             else
               let fileType := fileType_of file in
               if String.eqb fileType "" || negb (bool_decide (fileType ∈ allowed))
               then ret (JsonResponse 400 (failure "Only PPT/PPTX files are allowed"))
               else
                 let timestamp := Date_now env in
                 let fileName := Js.decimal timestamp +:+ "-" +:+ f_name file in
                 let pptKey := original_key timestamp file in
                 r2_send env pptKey (Some (f_bytes file)) (Some (f_type file));;
                 let previewsRaw := fd_previews formData in
                 let thumbnailsRaw := fd_thumbnails formData in
                 if falsy previewsRaw || falsy thumbnailsRaw
                 then ret (JsonResponse 400
                             (JObj [("error", JStr "Missing previews or thumbnails data")]))
                 else
                   match JSON_parse_array env (default "" previewsRaw) with
                   | SyntaxErr m => throw (JsError "SyntaxError" m)
                   | Parses previews =>
                       match JSON_parse_array env (default "" thumbnailsRaw) with
                       | SyntaxErr m => throw (JsError "SyntaxError" m)
                       | Parses thumbnails =>
                           match previews, thumbnails with
                           | Value previews, Value thumbnails =>
                               let pageCount := Z.of_nat (length previews) in
                               inserted ← db_insert_file env
                                 (file_row formData file pptKey pageCount);
                               match inserted with
                               | inl pptError =>
                                   (* "delete the uploaded file if the database save fails" *)
                                   r2_send env pptKey None None;;
                                   throw (JsError "Error" ("Database error: " +:+ pptError))
                               | inr pptData =>
                                   upload_pages timestamp pptData thumbnails 0 previews;;
                                   ret (JsonResponse 200
                                     (JObj [("success", JBool true);
                                            ("message", JStr "File uploaded successfully");
                                            ("data", JObj
                                               [("id", JOpt (fr_id pptData));
                                                ("title", JOpt (fr_title pptData));
                                                ("fileName", JStr (fr_file_name pptData));
                                                ("fileUrl",
                                                 JStr (show (R2_PUBLIC_URL env) +:+ "/" +:+ fileName));
                                                ("fileSize", JNum (fr_file_size pptData));
                                                ("fileType", JStr (fr_file_type pptData));
                                                ("createdAt", JOpt (fr_created_at pptData))])]))
                               end
                           | _, _ =>
                               ret (JsonResponse 400
                                      (JObj [("error", JStr "Invalid previews or thumbnails data")]))
                           end
                       end
                   end
         end
     end)
    (fun error =>
       ret (JsonResponse 500
              (JObj [("success", JBool false);
                     ("message", JStr "Failed to upload file");
                     ("error", JStr (message_of error))]))).

End Handler.
End Upload.

(** ** Control-flow helpers shared by the two converting handlers *)

(** Run [m] and hand back how it ended (a settled promise). *)
Definition attempt {A} (m : M A) : M (Result A) := fun w =>
  match m w with
  | (r, w') => (Val r, w')
  end.

(** [await Promise.all([m1, m2])] for two calls: both are issued, and the
    first rejection is the outcome. *)
Definition both (m1 m2 : M unit) : M unit :=
  r1 ← attempt m1;
  r2 ← attempt m2;
  match r1, r2 with
  | Exc e, _ => throw e
  | _, Exc e => throw e
  | Val _, Val _ => ret tt
  end.

(** [let x = null; try { x = await init; body } catch (e) { handler }
    finally { cleanup }]: the [finally] block sees [x] as [null] when [init]
    did not complete. *)
Definition try_local {A B} (init : M A) (body : A -> M B) (handler : Exn -> M B)
    (cleanup : option A -> M unit) : M B := fun w =>
  match init w with
  | (Exc e, w') => finally (handler e) (cleanup None) w'
  | (Val x, w') => finally (try_catch (body x) handler) (cleanup (Some x)) w'
  end.

(** [error.toString()] *)
Definition toString_of (env : Env) (e : Exn) : string :=
  match e with
  | JsError name m => if String.eqb m "" then name else name +:+ ": " +:+ m
  | PostgrestError m =>
      if PostgrestError_is_Error env then
        if String.eqb m "" then "PostgrestError" else "PostgrestError: " +:+ m
      else "[object Object]"
  end.

(** [error instanceof Error] *)
Definition instanceof_Error (env : Env) (e : Exn) : bool :=
  match e with
  | JsError _ _ => true
  | PostgrestError _ => PostgrestError_is_Error env
  end.

(** [`${code}`] for an exit code, [null] when a signal ended the process. *)
Definition show_code (code : option Z) : string :=
  match code with
  | Some n => Js.decimal n
  | None => "null"
  end.

Definition maxSize : Z := 100 * 1024 * 1024.

(** ** [app/api/upload-stream/route.ts]: conversion with streamed progress *)

Module UploadStream.
Section Handler.

Variable env : Env.

Definition event (status : Status) (message : string) : StreamEvent :=
  {| ev_status := status; ev_message := message; ev_slug := None |}.

(** [createStreamResponse(cb)]: [start(controller)] runs [cb] on a fresh
    stream; a rejection of [start] errors the stream if it is still
    readable.  The response itself is returned in every case. *)
Definition createStreamResponse (cb : M unit) : M Response := fun w =>
  match
    try_catch cb
      (fun err => sendEvent (event Error (message_of err));; close)
      (set_stream Readable [] w)
  with
  | (Val _, w') => (Val EventStream, w')
  | (Exc _, w') =>
      (Val EventStream,
       match w_stream w' with
       | Readable => set_stream Errored (w_queue w') w'
       | _ => w'
       end)
  end.

Definition runPythonConverter (inputPath outputPath : string) : M (Shaped ConversionOutput) :=
  run ← spawn_python env "./convert.py" [inputPath; outputPath];
  match run with
  | SpawnFails err =>
      throw (JsError "Error" ("Failed to start Python script: " +:+ message_of err))
  | Exits code stdoutData stderrData _ =>
      if bool_decide (code = Some 0) then
        (* The last line of stdout should be our JSON *)
        let jsonOutput := Js.last_line stdoutData in
        match JSON_parse_conversion env jsonOutput with
        | Parses result => ret result
        | SyntaxErr _ =>
            throw (JsError "Error"
              ("Failed to parse Python script output. Raw stdout: " +:+ stdoutData
                 +:+ ". Stderr: " +:+ stderrData))
        end
      else
        throw (JsError "Error"
          ("Python script exited with code " +:+ show_code code
             +:+ ". Error: " +:+ stderrData))
  end.

(** [conversionResult.previews.map(async (previewPath, index) => ...)] under
    [Promise.all]; [rest] is [previews.slice(index)].  The page tasks are
    serialised in index order: each runs to its end before the next starts,
    and the first failure is the outcome of [Promise.all].  What the tasks
    still pending at that moment go on to do is not modelled. *)
Fixpoint upload_and_record (pptId : string) (thumbnails : list string)
    (index : nat) (rest : list string) : M (list PreviewRow) :=
  match rest with
  | [] => ret []
  | previewPath :: rest' =>
      match thumbnails !! index with
      | None =>
          throw (JsError "TypeError"
            ("The " +:+ Js.quoted "path"
               +:+ " argument must be of type string. Received undefined"))
      | Some thumbnailPath =>
          let previewFilename := Js.basename previewPath in
          let thumbnailFilename := Js.basename thumbnailPath in
          previewContent ← fs_readFile env previewPath;
          thumbnailContent ← fs_readFile env thumbnailPath;
          let previewKey := "ppt-files/" +:+ pptId +:+ "/previews/" +:+ previewFilename in
          let thumbnailKey := "ppt-files/" +:+ pptId +:+ "/previews/" +:+ thumbnailFilename in
          both (r2_send env previewKey (Some previewContent) (Some "image/jpeg"))
               (r2_send env thumbnailKey (Some thumbnailContent) (Some "image/jpeg"));;
          sendEvent (event Info
            ("已上传: " +:+ previewFilename +:+ " & " +:+ thumbnailFilename));;
          records ← upload_and_record pptId thumbnails (S index) rest';
          ret ({| pr_ppt_id := Some pptId;
                  pr_page_number := Z.of_nat index + 1;
                  pr_preview_url := previewKey;
                  pr_thumbnail_url := thumbnailKey |} :: records)
      end
  end.

(** The [finally] block. *)
Definition cleanup (tempDir : option string) : M unit :=
  match tempDir with
  | Some dir => try_catch (fs_rm env dir) (fun _ => ret tt)
  | None => ret tt
  end;;
  close.

Definition original_key (file : File) : string :=
  "ppt-files/" +:+ uuidv4 env +:+ "/original/" +:+ f_name file.

(** The row of step 7. *)
Definition file_row (file : File) (title : string)
    (description category subcategory : option string) (tags : string)
    (previewRecords : list PreviewRow) : FileRow :=
  {| fr_id := Some (uuidv4 env);
     fr_title := Some title;
     fr_slug := Some (slugify env title +:+ "-" +:+ Js.decimal (Date_now env));
     fr_description := description;
     fr_category := category;
     fr_subcategory := subcategory;
     fr_tags := Some (map Js.trim (Js.split Js.comma tags));
     fr_file_name := f_name file;
     fr_file_size := f_size file;
     fr_file_type := Js.str (drop 1 (Js.chars (Js.extname (f_name file))));
     fr_page_count := Z.of_nat (length previewRecords);
     fr_r2_file_key := Some (original_key file);
     fr_r2_thumbnail_key := pr_thumbnail_url <$> head previewRecords;
     fr_created_at := None |}.

(** Steps 4 to 8, once the conversion result has passed its check. *)
Definition persist (file : File) (title : string)
    (description category subcategory : option string) (tags : string)
    (previews thumbnails : list string) : M unit :=
  let pptId := uuidv4 env in
  let slug := slugify env title +:+ "-" +:+ Js.decimal (Date_now env) in
  sendEvent (event Processing "正在上传原始PPT文件到云存储...");;
  let originalFileKey := original_key file in
  r2_send env originalFileKey (Some (f_bytes file)) (Some (f_type file));;
  sendEvent (event Info "原始PPT文件上传完成。");;
  sendEvent (event Processing "正在上传预览图和缩略图...");;
  previewRecords ← upload_and_record pptId thumbnails 0 previews;
  sendEvent (event Info "所有图片上传完成。");;
  sendEvent (event Processing "正在将文件信息写入数据库...");;
  inserted ← db_insert_file env
    (file_row file title description category subcategory tags previewRecords);
  match inserted with
  | inl fileInsertError =>
      throw (JsError "Error" ("数据库(ppt_files)入库失败: " +:+ fileInsertError))
  | inr _ =>
      previewsInsertError ← db_insert_previews env previewRecords;
      match previewsInsertError with
      | Some m => throw (JsError "Error" ("数据库(ppt_previews)入库失败: " +:+ m))
      | None =>
          sendEvent (event Info "数据库写入成功！");;
          sendEvent {| ev_status := Done;
                       ev_message := "所有任务已成功完成！";
                       ev_slug := Some slug |}
      end
  end.

(** Steps 1 to 3 and the check of the conversion result, in [tempDir]. *)
Definition convert_and_persist (file : File) (title : string)
    (description category subcategory : option string) (tags : string)
    (tempDir : string) : M unit :=
  sendEvent (event Info ("创建临时目录: " +:+ Js.basename tempDir));;
  let tempFilePath := Js.join tempDir (f_name file) in
  let scriptOutputDir := Js.join tempDir "output" in
  fs_mkdir env false scriptOutputDir;;
  let fileBuffer := f_bytes file in
  fs_writeFile env tempFilePath fileBuffer;;
  sendEvent (event Info "PPT文件已保存到服务器。");;
  sendEvent (event Processing
    "正在调用Python脚本转换文件... (此步骤可能需要较长时间)");;
  conversionResult ← runPythonConverter tempFilePath scriptOutputDir;
  match conversionResult with
  | Value {| co_previews := Some previews; co_thumbnails := Some thumbnails |} =>
      if negb (length previews =? length thumbnails)%nat
      then throw (JsError "Error" "Python脚本未能成功转换或返回有效路径。")
      else
        sendEvent (event Info
          ("文件转换成功！共生成 " +:+ Js.decimal (Z.of_nat (length previews))
             +:+ " 页预览。"));;
        persist file title description category subcategory tags previews thumbnails
  | _ => throw (JsError "Error" "Python脚本未能成功转换或返回有效路径。")
  end.

(** The callback given to [createStreamResponse].  Its [catch] block
    rethrows ("this will be caught by the outer try/catch in
    createStreamResponse"). *)
Definition callback (formData : FormData) : M unit :=
  let rethrow : Exn -> M unit := throw in
  let title := fd_title formData in
  let description := fd_description formData in
  let category := fd_category formData in
  let subcategory := fd_subcategory formData in
  let tags := if falsy (fd_tags formData) then "" else default "" (fd_tags formData) in
  try_local
    (match fd_file formData with
     | None => throw (JsError "Error" "文件未上传。")
     | Some file =>
         if f_size file >? maxSize
         then throw (JsError "Error"
                ("文件大小超过限制。最大允许 100MB，当前文件大小: "
                   +:+ Js.MiB_toFixed2 (f_size file) +:+ "MB"))
         else if falsy title || falsy category
         then throw (JsError "Error" "标题和分类是必填项。")
         else
           sendEvent (event Info "数据校验完成，开始处理文件...");;
           tempDir ← fs_mkdtemp env (Js.join (os_tmpdir env) "ppt-upload-");
           ret (file, tempDir)
     end)
    (fun '(file, tempDir) =>
       convert_and_persist file (default "" title) description category subcategory tags tempDir)
    rethrow
    (fun staged => cleanup (snd <$> staged)).

Definition POST (request : Request) : M Response :=
  try_catch
    (match request with
     | BadBody e => throw e
     | Form formData => createStreamResponse (callback formData)
     end)
    (fun error =>
       ret (JsonResponse 500
              (JObj [("error", JStr "Upload failed");
                     ("message",
                      JStr (if String.eqb (message_of error) ""
                            then "An unknown error occurred" else message_of error));
                     ("details", JStr (toString_of env error))]))).

End Handler.
End UploadStream.

(** ** [app/api/process-ppt/route.ts]: conversion with AI classification *)

Module ProcessPpt.
Section Handler.

Variable env : Env.

Definition getSupabaseClient : M unit :=
  if falsy (NEXT_PUBLIC_SUPABASE_URL env) || falsy (NEXT_PUBLIC_SUPABASE_ANON_KEY env)
  then throw (JsError "Error" "Supabase URL or key not defined in environment variables.")
  else ret tt.

Definition getS3Client : M unit :=
  if falsy (R2_ACCOUNT_ID env) || falsy (R2_ACCESS_KEY_ID env)
     || falsy (R2_SECRET_ACCESS_KEY env)
  then throw (JsError "Error"
         "R2 environment variables not defined. Please check R2_ACCOUNT_ID, R2_ACCESS_KEY_ID, and R2_SECRET_ACCESS_KEY.")
  else ret tt.

Definition uploadToR2 (key : string) (body : Bytes) (contentType : string) : M string :=
  r2_send env key (Some body) (Some contentType);;
  ret key.

Definition runPythonScript (scriptPath : string) (args : list string) : M string :=
  run ← spawn_python env scriptPath args;
  match run with
  | SpawnFails err => throw err
  | Exits code stdout stderr _ =>
      if negb (bool_decide (code = Some 0)) then
        throw (JsError "Error"
          ("Python script " +:+ scriptPath +:+ " failed with code " +:+ show_code code
             +:+ ":" +:+ Js.nl +:+ stderr))
      else ret stdout
  end.

Definition getAiMetadata (text filename : string) : M (Shaped Metadata) :=
  if falsy (DOUBAO_API_KEY env)
  then throw (JsError "Error" "DOUBAO_API_KEY environment variable not set.")
  else
    response ← fetch_ai env filename text;
    if negb (http_ok response)
    then throw (JsError "Error" ("Doubao API request failed: " +:+ http_body response))
    else
      (* [result.choices?.[0]?.message?.content] *)
      match JSON_parse_completion env (http_body response) with
      | SyntaxErr m => throw (JsError "SyntaxError" m)
      | Parses Null =>
          throw (JsError "TypeError" "Cannot read properties of null (reading 'choices')")
      | Parses (Value (Some content)) =>
          if String.eqb content ""
          then throw (JsError "Error" "Could not parse content from Doubao API response.")
          else
            match JSON_parse_metadata env content with
            | SyntaxErr m => throw (JsError "SyntaxError" m)
            | Parses metadata => ret metadata
            end
      | Parses _ =>
          throw (JsError "Error" "Could not parse content from Doubao API response.")
      end.

(** A field of the classifier's answer; a value that is no object has none. *)
Definition field {A} (f : Metadata -> option A) (metadata : Shaped Metadata) : option A :=
  match metadata with
  | Value m => f m
  | _ => None
  end.

(** [{ ...metadata }] *)
Definition spread (metadata : Shaped Metadata) : list (string * Json) :=
  omap (fun '(k, v) => pair k <$> v)
    [ ("title", JStr <$> field md_title metadata);
      ("slug", JStr <$> field md_slug metadata);
      ("description", JStr <$> field md_description metadata);
      ("category", JStr <$> field md_category metadata);
      ("subcategory", JStr <$> field md_subcategory metadata);
      ("tags", (fun l => JArr (map JStr l)) <$> field md_tags metadata) ].

Definition page_key (pptId : string) (pageNum : Z) : string :=
  "ppt-files/" +:+ pptId +:+ "/previews/page-" +:+ Js.decimal pageNum +:+ ".webp".

Definition page_thumb_key (pptId : string) (pageNum : Z) : string :=
  "ppt-files/" +:+ pptId +:+ "/previews/page-" +:+ Js.decimal pageNum +:+ "-thumb.webp".

(** Step 9: [for (let i = 0; i < previewData.previews.length; i++)], from
    index [i] on; the result is what was pushed on [previewRecords]. *)
Fixpoint upload_pages (pptId : string) (thumbnails : option (list string))
    (i : nat) (rest : list string) : M (list PreviewRow) :=
  match rest with
  | [] => ret []
  | previewPath :: rest' =>
      let pageNum := Z.of_nat i + 1 in
      previewBuffer ← fs_readFile env previewPath;
      previewWebpBuffer ← lift_sum (sharp_webp env 90 previewBuffer);
      previewKey ← uploadToR2 (page_key pptId pageNum) previewWebpBuffer "image/webp";
      match thumbnails with
      | None =>
          throw (JsError "TypeError"
            ("Cannot read properties of undefined (reading '"
               +:+ Js.decimal (Z.of_nat i) +:+ "')"))
      | Some paths =>
          match paths !! i with
          | None =>
              throw (JsError "TypeError"
                ("The " +:+ Js.quoted "path"
                   +:+ " argument must be of type string. Received undefined"))
          | Some thumbnailPath =>
              thumbnailBuffer ← fs_readFile env thumbnailPath;
              thumbnailWebpBuffer ← lift_sum (sharp_webp env 85 thumbnailBuffer);
              pageThumbnailKey ←
                uploadToR2 (page_thumb_key pptId pageNum) thumbnailWebpBuffer "image/webp";
              records ← upload_pages pptId thumbnails (S i) rest';
              ret ({| pr_ppt_id := Some pptId;
                      pr_page_number := pageNum;
                      pr_preview_url := previewKey;
                      pr_thumbnail_url := pageThumbnailKey |} :: records)
          end
      end
  end.

(** Steps 7 to 11: upload the assets under the row's id, record the pages,
    attach the keys to the row. *)
Definition upload_and_finalize (file : File) (tempDir tempFilePath : string)
    (metadata : Shaped Metadata) (pptFileData : FileRow)
    (previews : list string) (thumbnails : option (list string)) : M Response :=
  let pptId := show (fr_id pptFileData) in
  (* 7. Upload original PPT to R2 *)
  original ← fs_readFile env tempFilePath;
  originalFileKey ←
    uploadToR2 ("ppt-files/" +:+ pptId +:+ "/original/" +:+ f_name file)
      original (f_type file);
  (* 8. Create and upload thumbnail *)
  let firstPreviewPath := default "" (head previews) in
  firstPreview ← fs_readFile env firstPreviewPath;
  thumbnailBuffer ← lift_sum (sharp_thumbnail env firstPreview);
  thumbnailKey ←
    uploadToR2 ("ppt-files/" +:+ pptId +:+ "/previews/thumbnail.webp")
      thumbnailBuffer "image/webp";
  (* 9. Upload all preview & thumbnail images and record them to DB *)
  previewRecords ← upload_pages pptId thumbnails 0 previews;
  previewInsertError ← db_insert_previews env previewRecords;
  match previewInsertError with
  | Some m => throw (PostgrestError m)
  | None =>
      (* 10. Update the main DB record with R2 keys *)
      db_update_file env (Some pptId) (Some originalFileKey) (Some thumbnailKey);;
      (* 11. Success *)
      fs_rm env tempDir;;
      ret (JsonResponse 200
             (JObj ([("message",
                      JStr "File processed and all assets stored successfully.");
                     ("pptId", JStr pptId);
                     ("r2_original_key", JStr originalFileKey);
                     ("r2_thumbnail_key", JStr thumbnailKey);
                     ("r2_preview_keys",
                      JArr (map (fun record => JStr (pr_preview_url record))
                              previewRecords))]
                    ++ spread metadata)))
  end.

(** The row of step 6. *)
Definition initial_row (file : File) (metadata : Shaped Metadata) (pageCount : Z) : FileRow :=
  let uniqueSlug :=
    show (field md_slug metadata) +:+ "-"
      +:+ Js.slice_last 6 (Js.toString36 (Date_now env)) in
  {| fr_id := None;
     fr_title := field md_title metadata;
     fr_slug := Some uniqueSlug;
     fr_description := field md_description metadata;
     fr_category := field md_category metadata;
     fr_subcategory := field md_subcategory metadata;
     fr_tags := Some (default [] (field md_tags metadata));
     fr_file_name := f_name file;
     fr_file_size := f_size file;
     fr_file_type := Js.str (drop 1 (Js.chars (Js.extname (f_name file))));
     fr_page_count := pageCount;      (* "We already have the page count" *)
     fr_r2_file_key := None;
     fr_r2_thumbnail_key := None;
     fr_created_at := None |}.

(** Steps 4 to 6: extract the text, classify it, create the row; then the
    rest under the row's id. *)
Definition classify_and_store (file : File) (tempDir tempFilePath : string)
    (pageCount : Z) (previews : list string) (thumbnails : option (list string))
    : M Response :=
  extractedText ← runPythonScript "extract_text.py" [tempFilePath];
  metadata ← getAiMetadata extractedText (f_name file);
  match metadata with
  | Null => throw (JsError "TypeError" "Cannot read properties of null (reading 'title')")
  | _ =>
      (* 6. Create initial DB record to get an ID *)
      inserted ← db_insert_file env (initial_row file metadata pageCount);
      match inserted with
      | inl insertError => throw (PostgrestError insertError)
      | inr pptFileData =>
          upload_and_finalize file tempDir tempFilePath metadata pptFileData
            previews thumbnails
      end
  end.

(** [JSON.parse((await runPythonScript('convert.py', [...])).trim())], and the
    first property read of the result. *)
Definition convert (tempFilePath previewOutputDir : string) : M (Shaped ConversionOutput) :=
  convertOutputJson ← runPythonScript "convert.py" [tempFilePath; previewOutputDir];
  match JSON_parse_conversion env (Js.trim convertOutputJson) with
  | SyntaxErr m => throw (JsError "SyntaxError" m)
  | Parses Null =>
      throw (JsError "TypeError" "Cannot read properties of null (reading 'page_count')")
  | Parses previewData => ret previewData
  end.

(** Steps 1 and 2: stage the file, convert it and read the page count. *)
Definition stage_and_convert (file : File) (tempDir tempFilePath : string)
    : M (Shaped ConversionOutput) :=
  getS3Client;;
  getSupabaseClient;;
  if falsy (R2_BUCKET_NAME env)
  then throw (JsError "Error" "R2_BUCKET_NAME environment variable not set")
  else
    (* 1. Save file temporarily *)
    fs_writeFile env tempFilePath (f_bytes file);;
    (* 2. Generate Previews & Get Page Count FIRST *)
    let previewOutputDir := Js.join tempDir "previews" in
    fs_mkdir env true previewOutputDir;;
    convert tempFilePath previewOutputDir.

(** [previewData.page_count || 0] *)
Definition pageCount_of (previewData : Shaped ConversionOutput) : Z :=
  match previewData with
  | Value data => default 0 (co_page_count data)
  | _ => 0
  end.

Definition skipped (pageCount : Z) (file : File) : Json :=
  JObj [("skipped", JBool true);
        ("reason",
         JStr ("File skipped: Page count (" +:+ Js.decimal pageCount
                 +:+ ") is less than 10."));
        ("fileName", JStr (f_name file))].

(** The body of the inner [try]. *)
Definition process (file : File) (tempDir : string) : M Response :=
  let tempFilePath := Js.join tempDir (f_name file) in
  previewData ← stage_and_convert file tempDir tempFilePath;
  let pageCount := pageCount_of previewData in
  (* 3. Check Page Count: Skip if less than 10 *)
  if pageCount <? 10 then
    fs_rm env tempDir;;
    ret (JsonResponse 200 (skipped pageCount file))
  else
    match previewData with
    | Value {| co_previews := Some (previewPath :: paths); co_thumbnails := thumbnails |} =>
        classify_and_store file tempDir tempFilePath pageCount (previewPath :: paths) thumbnails
    | _ => throw (JsError "Error" "convert.py did not return any preview paths.")
    end.

(** The inner [finally] block. *)
Definition cleanup (tempDir : option string) : M unit :=
  match tempDir with
  | Some dir => try_catch (fs_rm env dir) (fun _ => ret tt)
  | None => ret tt
  end.

Definition POST (req : Request) : M Response :=
  try_catch
    (match req with
     | BadBody e => throw e
     | Form formData =>
         match fd_file formData with
         | None => ret (JsonResponse 400 (JObj [("error", JStr "No file provided")]))
         | Some file =>
             if f_size file >? maxSize then
               ret (JsonResponse 413
                      (JObj [("error", JStr "File too large");
                             ("message",
                              JStr ("File size exceeds limit. Maximum allowed: 100MB, Current file size: "
                                      +:+ Js.MiB_toFixed2 (f_size file) +:+ "MB"))]))
             else
               try_local
                 (fs_mkdtemp env (Js.join (os_tmpdir env) "ppt-process-"))
                 (process file)
                 (fun error =>
                    let errorMessage :=
                      if instanceof_Error env error then message_of error
                      else "An unknown error occurred" in
                    ret (JsonResponse 500
                           (JObj [("error", JStr "Processing failed");
                                  ("details", JStr errorMessage)])))
                 cleanup
         end
     end)
    (fun error =>
       ret (JsonResponse 500
              (JObj [("error", JStr "Request failed");
                     ("message",
                      JStr (if String.eqb (message_of error) ""
                            then "An unknown error occurred" else message_of error));
                     ("details", JStr (toString_of env error))]))).

End Handler.
End ProcessPpt.

(** ** A concrete environment, for examples

    One deck, a converter that writes [pages] page images and prints its
    result as the last line of standard output, and a classifier that
    answers with fixed metadata.  The parse oracles are tables: they know
    the documents of this environment and reject every other text. *)

Module Fixture.

Definition deck : File :=
  {| f_name := "deck.pptx";
     f_type := "application/vnd.openxmlformats-officedocument.presentationml.presentation";
     f_size := 2048;
     f_bytes := "<deck.pptx bytes>" |}.


Definition huge : File :=
  {| f_name := "huge.pptx"; f_type := f_type deck;
     f_size := 150 * 1024 * 1024; f_bytes := "<huge.pptx bytes>" |}.

Definition form (file : option File) (title category : option string) : FormData :=
  {| fd_file := file; fd_title := title; fd_description := Some "Quarterly numbers";
     fd_category := category; fd_subcategory := Some "Business reports";
     fd_tags := Some "q3, review"; fd_previews := None; fd_thumbnails := None |}.

Definition page_paths (dir : string) (pages : nat) : list string :=
  map (fun i => dir +:+ "/page-" +:+ Js.decimal (Z.of_nat i + 1) +:+ ".png") (seq 0 pages).

Definition thumb_paths (dir : string) (pages : nat) : list string :=
  map (fun i => dir +:+ "/page-" +:+ Js.decimal (Z.of_nat i + 1) +:+ "-thumb.png") (seq 0 pages).

(** What the converter reports for [pages] pages written below [dir]. *)
Definition conversion (reported : option Z) (pages : nat) (dir : string) : ConversionOutput :=
  {| co_page_count := reported;
     co_previews := Some (page_paths dir pages);
     co_thumbnails := Some (thumb_paths dir pages) |}.

Definition render_list (l : list string) : string :=
  "[" +:+ String.concat ", " (map Js.quoted l) +:+ "]".

(** The JSON text of a conversion result. *)
Definition render (c : ConversionOutput) : string :=
  "{" +:+ Js.quoted "page_count" +:+ ": "
    +:+ match co_page_count c with Some n => Js.decimal n | None => "null" end
    +:+ ", " +:+ Js.quoted "previews" +:+ ": " +:+ render_list (default [] (co_previews c))
    +:+ ", " +:+ Js.quoted "thumbnails" +:+ ": " +:+ render_list (default [] (co_thumbnails c))
    +:+ "}".

Definition table {A} (docs : list (string * A)) (text : string) : Parsed A :=
  match list_find (fun d => String.eqb d.1 text = true) docs with
  | Some (_, (_, v)) => Parses (Value v)
  | None => SyntaxErr "Unexpected token in JSON"
  end.

Definition metadata : Metadata :=
  {| md_title := Some "Q3 Review"; md_slug := Some "q3-review";
     md_description := Some "Quarterly business review";
     md_category := Some "Business & Corporate";
     md_subcategory := Some "Business reports"; md_tags := None |}.

Definition content : string :=
  "{" +:+ Js.quoted "title" +:+ ": " +:+ Js.quoted "Q3 Review" +:+ ", "
    +:+ Js.quoted "slug" +:+ ": " +:+ Js.quoted "q3-review" +:+ ", "
    +:+ Js.quoted "description" +:+ ": " +:+ Js.quoted "Quarterly business review" +:+ ", "
    +:+ Js.quoted "category" +:+ ": " +:+ Js.quoted "Business & Corporate" +:+ ", "
    +:+ Js.quoted "subcategory" +:+ ": " +:+ Js.quoted "Business reports" +:+ "}".

Definition completion : string := "<chat completion carrying the metadata>".

Definition upload_dir : string := "/tmp/ppt-upload-Ab12Cd".
Definition process_dir : string := "/tmp/ppt-process-Ab12Cd".

(** [env faults log reported pages]: the listed calls fail, the converter
    prints [log] before its result, reports [reported] as page count and
    writes [pages] pages. *)
Definition env (faults : list (nat * string)) (log : string) (reported : option Z)
    (pages : nat) : Env :=
  {| R2_ACCOUNT_ID := Some "account";
     R2_ACCESS_KEY_ID := Some "key-id";
     R2_SECRET_ACCESS_KEY := Some "secret";
     R2_BUCKET_NAME := Some "bucket";
     R2_PUBLIC_URL := Some "https://cdn.example";
     NEXT_PUBLIC_SUPABASE_URL := Some "https://db.example";
     NEXT_PUBLIC_SUPABASE_ANON_KEY := Some "anon";
     DOUBAO_API_KEY := Some "api-key";
     Date_now := 1700000000000;
     uuidv4 := "6f1c2a34-0000-4000-8000-000000000001";
     slugify := fun _ => "q3-review";
     os_tmpdir := "/tmp";
     mkdtemp_suffix := "Ab12Cd";
     Buffer_from_base64 := fun s => "<decoded " +:+ s +:+ ">";
     sharp_thumbnail := fun b => inr ("<thumbnail of " +:+ b +:+ ">");
     sharp_webp := fun _ b => inr ("<webp of " +:+ b +:+ ">");
     JSON_parse_array := fun text =>
       table [("[" +:+ Js.quoted "data:image/jpeg;base64,AAAA" +:+ "]",
               ["data:image/jpeg;base64,AAAA"]);
              ("[" +:+ Js.quoted "data:image/jpeg;base64,BBBB" +:+ "]",
               ["data:image/jpeg;base64,BBBB"])] text;
     JSON_parse_conversion := fun text =>
       table (map (fun dir => let c := conversion reported pages dir in (render c, c))
                [upload_dir +:+ "/output"; process_dir +:+ "/previews"]) text;
     JSON_parse_completion := table [(completion, Some content)];
     JSON_parse_metadata := table [(content, metadata)];
     PostgrestError_is_Error := false;
     fault := fun n => snd <$> list_find (fun f => Nat.eqb f.1 n = true) faults
                       ≫= fun f => Some f.2;
     spawn := fun script args =>
       match args with
       | [_; dir] =>
           Exits (Some 0) (log +:+ render (conversion reported pages dir) +:+ Js.nl) ""
             (map (fun p => (p, "<" +:+ p +:+ ">"))
                (page_paths dir pages ++ thumb_paths dir pages))
       | _ => Exits (Some 0) "Q3 review: revenue, costs, outlook" "" []
       end;
     db_new_id := "b7e2d9c0-1111-4111-8111-000000000002";
     db_created_at := "2023-11-14T22:13:20Z";
     fetch_completion := fun _ _ => {| http_ok := true; http_body := completion |} |}.

(** The world a request arrives in: only the scratch area exists. *)
Definition world : World :=
  {| w_calls := 0; w_dirs := {["/tmp"]}; w_disk := ∅; w_r2 := ∅;
     w_ppt_files := []; w_ppt_previews := []; w_trace := [];
     w_stream := Readable; w_queue := [] |}.

End Fixture.

(** ** The three pipelines side by side *)

Inductive Pipeline := Direct | Streamed | AiAssisted.

Definition handle (p : Pipeline) (env : Env) (request : Request) : M Response :=
  match p with
  | Direct => Upload.POST env request
  | Streamed => UploadStream.POST env request
  | AiAssisted => ProcessPpt.POST env request
  end.

(** The world as a request arrives: nothing logged yet. *)
Definition start (w : World) : World := set_trace [] w.


(** The checks each handler makes before its first call to a collaborator. *)
Definition rejects (p : Pipeline) (formData : FormData) : bool :=
  match fd_file formData with
  | None => true
  | Some file =>
      match p with
      | Direct =>
          falsy (fd_title formData)
          || String.eqb (Upload.fileType_of file) ""
          || negb (bool_decide (Upload.fileType_of file ∈ Upload.allowed))
      | Streamed =>
          (f_size file >? maxSize) || falsy (fd_title formData) || falsy (fd_category formData)
      | AiAssisted => f_size file >? maxSize
      end
  end.



(** ** The pages that call the handlers

    The two client pages are React components.  Their state is modelled by a
    record, and each event handler by a function on it; a handler runs from
    its first statement to its last without another event in between. *)

(** [String.prototype.endsWith] *)
Definition endsWith (s suffix : string) : bool :=
  match Js.strip (rev (Js.chars suffix)) (rev (Js.chars s)) with
  | Some _ => true
  | None => false
  end.

(** JavaScript's truthiness and [String(v)] on parsed JSON. *)
Definition truthy (v : Json) : bool :=
  match v with
  | JNull => false
  | JBool b => b
  | JNum n => negb (n =? 0)
  | JStr s => negb (String.eqb s "")
  | JArr _ | JObj _ => true
  end.

Fixpoint js_string (v : Json) : string :=
  match v with
  | JNull => "null"
  | JBool true => "true"
  | JBool false => "false"
  | JNum n => Js.decimal n
  | JStr s => s
  | JArr items =>
      String.concat ","
        (map (fun item => match item with JNull => "" | _ => js_string item end) items)
  | JObj _ => "[object Object]"
  end.

(** [body[key]] of a JSON object; of two fields with the same key the later
    one counts. *)
Definition json_field (key : string) (body : Json) : option Json :=
  match body with
  | JObj fields =>
      (fun found => found.2.2)
        <$> list_find (fun kv => String.eqb kv.1 key = true) (reverse fields)
  | _ => None
  end.

(** [data[key]] on a parsed JSON value: reading a property of [null] throws,
    a number, string or boolean has none of the properties read here. *)
Definition property (key : string) (data : Json) : string + option Json :=
  match data with
  | JNull => inl ("Cannot read properties of null (reading '" +:+ key +:+ "')")
  | JObj _ => inr (json_field key data)
  | _ => inr None
  end.

(** [a || b] on a property that may be absent. *)
Definition or_else (a : option Json) (b : option Json) : option Json :=
  match a with
  | Some v => if truthy v then a else b
  | None => b
  end.

(** [`${v}`] for a property that may be absent. *)
Definition shown (v : option Json) : string :=
  match v with
  | Some v => js_string v
  | None => "undefined"
  end.

(** *** [app/batch-upload/page.tsx] *)

Module BatchUpload.

Inductive FileStatus := Pending | Processing | Completed | Failed | Skipped.

#[global] Instance FileStatus_eq_dec : EqDecision FileStatus.
Proof. solve_decision. Defined.

(** A [File] picked in the browser, with its [lastModified]. *)
Record PickedFile := {
  pk_file : File;
  pk_lastModified : Z
}.

Record ProcessableFile := {
  pf_id : string;
  pf_file : PickedFile;
  pf_status : FileStatus;
  pf_result : option Json
}.

Inductive Toast := ToastError (message : string) | ToastSuccess (message : string).

(** The component's state, and the toasts shown so far. *)
Record Page := {
  pg_files : list ProcessableFile;
  pg_isProcessing : bool;
  pg_toasts : list Toast
}.

Definition setFiles (change : list ProcessableFile -> list ProcessableFile) (page : Page) : Page :=
  {| pg_files := change (pg_files page);
     pg_isProcessing := pg_isProcessing page;
     pg_toasts := pg_toasts page |}.

Definition setIsProcessing (b : bool) (page : Page) : Page :=
  {| pg_files := pg_files page; pg_isProcessing := b; pg_toasts := pg_toasts page |}.

Definition toast (t : Toast) (page : Page) : Page :=
  {| pg_files := pg_files page;
     pg_isProcessing := pg_isProcessing page;
     pg_toasts := pg_toasts page ++ [t] |}.

Definition accepted (file : PickedFile) : bool :=
  endsWith (f_name (pk_file file)) ".ppt" || endsWith (f_name (pk_file file)) ".pptx".

Definition queued (file : PickedFile) : ProcessableFile :=
  {| pf_id := f_name (pk_file file) +:+ "-" +:+ Js.decimal (pk_lastModified file);
     pf_file := file;
     pf_status := Pending;
     pf_result := None |}.

(** [onDrop(acceptedFiles)] *)
Definition onDrop (acceptedFiles : list PickedFile) (page : Page) : Page :=
  let newFiles := map queued (filter (fun file => accepted file = true) acceptedFiles) in
  (* Simple de-duplication *)
  setFiles (fun prev =>
    let existingIds := map pf_id prev in
    prev ++ filter (fun nf => pf_id nf ∉ existingIds) newFiles) page.

(** [{ ...f, status }] and [{ ...f, status, result }] on the entries whose
    id is [id]. *)
Definition mark (id : string) (status : FileStatus) (result : option (option Json))
    (prev : list ProcessableFile) : list ProcessableFile :=
  map (fun f =>
         if String.eqb (pf_id f) id then
           {| pf_id := pf_id f; pf_file := pf_file f; pf_status := status;
              pf_result := default (pf_result f) result |}
         else f) prev.

(** What [fetch('/api/process-ppt', ...)] followed by [response.json()]
    gives: the status and the parsed body, or the message of the error with
    which either of them rejects. *)
Definition Post := File -> World -> (string + Z * Json) * World.

(** The body of the [try] for one file, after the answer has arrived: the
    status to show and its text, or the message of the error thrown. *)
Definition outcome (status : Z) (data : Json) : string + FileStatus * option Json :=
  if negb ((200 <=? status) && (status <=? 299)) then
    (* throw new Error(data.details || data.error || 'Unknown error') *)
    match property "details" data with
    | inl m => inl m
    | inr details =>
        match property "error" data with
        | inl m => inl m
        | inr error =>
            inl (shown (or_else (or_else details error) (Some (JStr "Unknown error"))))
        end
    end
  else
    match property "skipped" data with
    | inl m => inl m
    | inr skipped =>
        if match skipped with Some v => truthy v | None => false end then
          match property "reason" data with
          | inl m => inl m
          | inr reason => inr (Skipped, reason)
          end
        else
          match property "title" data with
          | inl m => inl m
          | inr title => inr (Completed, Some (JStr ("Success! New Title: " +:+ shown title)))
          end
    end.

(** One round of the loop of [handleStartProcessing]. *)
Definition processOne (post : Post) (st : Page * World) (file : ProcessableFile)
    : Page * World :=
  let '(page, w) := st in
  let page := setFiles (mark (pf_id file) Processing None) page in
  let '(answer, w') := post (pk_file (pf_file file)) w in
  let thrown := fun errorMessage =>
    setFiles (mark (pf_id file) Failed (Some (Some (JStr errorMessage)))) page in
  match answer with
  | inl errorMessage => (thrown errorMessage, w')
  | inr (status, data) =>
      match outcome status data with
      | inl errorMessage => (thrown errorMessage, w')
      | inr (shownStatus, result) =>
          (setFiles (mark (pf_id file) shownStatus (Some result)) page, w')
      end
  end.

(** [handleStartProcessing()] *)
Definition handleStartProcessing (post : Post) (st : Page * World) : Page * World :=
  let '(page, w) := st in
  let filesToProcess :=
    filter (fun f => pf_status f = Pending) (pg_files page) in
  match filesToProcess with
  | [] => (toast (ToastError "No pending files to process.") page, w)
  | _ =>
      let page := setIsProcessing true page in
      let page :=
        toast (ToastSuccess ("Starting to process "
                               +:+ Js.decimal (Z.of_nat (length filesToProcess))
                               +:+ " files...")) page in
      let '(page, w) := foldl (processOne post) (page, w) filesToProcess in
      let page := setIsProcessing false page in
      (toast (ToastSuccess "All pending files have been processed.") page, w)
  end.

(** [clearList()] *)
Definition clearList (page : Page) : Page := setFiles (fun _ => []) page.

End BatchUpload.

(** *** The upload page ([TestUpload]) *)

Module TestUpload.

Inductive PreviewStatus := PreviewPending | PreviewGenerating | PreviewCompleted | PreviewFailed.

Record Page := {
  tu_file : option File;
  tu_title : string;
  tu_uploading : bool;
  tu_result : option Json;
  tu_error : option string;
  tu_previewStatus : PreviewStatus;
  tu_zipFile : option File;
  tu_previewImages : list string;
  tu_thumbnails : list string;
  tu_category : string;
  tu_subcategory : string
}.

(** [handleFileChange(e)], with [files] for [e.target.files]. *)
Definition handleFileChange (files : list File) (page : Page) : Page :=
  match files with
  | [] => page
  | selectedFile :: _ =>
      let fileType := Upload.fileType_of selectedFile in
      if String.eqb fileType "" || negb (bool_decide (fileType ∈ ["ppt"; "pptx"])) then
        {| tu_file := None;
           tu_title := tu_title page; tu_uploading := tu_uploading page;
           tu_result := tu_result page;
           tu_error := Some "Only PPT/PPTX files are allowed";
           tu_previewStatus := tu_previewStatus page; tu_zipFile := tu_zipFile page;
           tu_previewImages := tu_previewImages page; tu_thumbnails := tu_thumbnails page;
           tu_category := tu_category page; tu_subcategory := tu_subcategory page |}
      else
        {| tu_file := Some selectedFile;
           tu_title := tu_title page; tu_uploading := tu_uploading page;
           tu_result := None;
           tu_error := None;
           tu_previewStatus := PreviewPending; tu_zipFile := tu_zipFile page;
           tu_previewImages := tu_previewImages page; tu_thumbnails := tu_thumbnails page;
           tu_category := tu_category page; tu_subcategory := tu_subcategory page |}
  end.

Definition setError (message : string) (page : Page) : Page :=
  {| tu_file := tu_file page;
     tu_title := tu_title page; tu_uploading := tu_uploading page;
     tu_result := tu_result page;
     tu_error := Some message;
     tu_previewStatus := tu_previewStatus page; tu_zipFile := tu_zipFile page;
     tu_previewImages := tu_previewImages page; tu_thumbnails := tu_thumbnails page;
     tu_category := tu_category page; tu_subcategory := tu_subcategory page |}.

Section Upload.

(** [JSON.stringify] on a string; the brackets and commas of an array of
    strings are written out below. *)
Variable JSON_stringify_string : string -> string.

Definition JSON_stringify (items : list string) : string :=
  "[" +:+ String.concat "," (map JSON_stringify_string items) +:+ "]".

(** What [fetch('/api/upload', ...)] followed by [response.json()] gives. *)
Definition Post := FormData -> World -> (string + Z * Json) * World.

Variable post : Post.

(** The form of [handleUpload]; the [zip] field is not read by the
    handler. *)
Definition form (file : File) (page : Page) : FormData :=
  {| fd_file := Some file;
     fd_title := Some (tu_title page);
     fd_description := None;
     fd_category := Some (tu_category page);
     fd_subcategory := Some (tu_subcategory page);
     fd_tags := None;
     fd_previews := Some (JSON_stringify (tu_previewImages page));
     fd_thumbnails := Some (JSON_stringify (tu_thumbnails page)) |}.

(** [handleUpload()] *)
Definition handleUpload (st : Page * World) : Page * World :=
  let '(page, w) := st in
  match tu_file page, tu_zipFile page with
  | Some file, Some zipFile =>
      if String.eqb (Js.trim (tu_title page)) "" then
        (setError "Please enter a title" page, w)
      else
        let '(answer, w') := post (form file page) w in
        let failed := fun message =>
          {| tu_file := tu_file page;
             tu_title := tu_title page; tu_uploading := false;
             tu_result := None;
             tu_error := Some message;
             tu_previewStatus := tu_previewStatus page; tu_zipFile := tu_zipFile page;
             tu_previewImages := tu_previewImages page;
             tu_thumbnails := tu_thumbnails page;
             tu_category := tu_category page; tu_subcategory := tu_subcategory page |} in
        match answer with
        | inl message => (failed message, w')
        | inr (status, data) =>
            if negb ((200 <=? status) && (status <=? 299)) then
              (* throw new Error(data.message || 'Upload failed') *)
              match property "message" data with
              | inl message => (failed message, w')
              | inr message =>
                  (failed (shown (or_else message (Some (JStr "Upload failed")))), w')
              end
            else
              ({| tu_file := None;
                  tu_title := ""; tu_uploading := false;
                  tu_result := Some data;
                  tu_error := None;
                  tu_previewStatus := tu_previewStatus page; tu_zipFile := None;
                  tu_previewImages := []; tu_thumbnails := [];
                  tu_category := ""; tu_subcategory := "" |}, w')
        end
  | _, _ => (setError "Please select both PPT and ZIP files" page, w)
  end.

End Upload.

End TestUpload.

(** ** Vocabulary of the statements *)


(** An ASCII white-space character. *)
Definition blank (c : ascii) : bool :=
  let n := N_of_ascii c in ((9 <=? n)%N && (n <=? 13)%N) || (n =? 32)%N.





Definition direct_form : FormData :=
  {| fd_file := Some Fixture.deck;
     fd_title := Some "Q3 Review";
     fd_description := None;
     fd_category := Some "Business & Corporate";
     fd_subcategory := Some "Business reports";
     fd_tags := None;
     fd_previews := Some ("[" +:+ Js.quoted "data:image/jpeg;base64,AAAA" +:+ "]");
     fd_thumbnails := Some ("[" +:+ Js.quoted "data:image/jpeg;base64,BBBB" +:+ "]") |}.

Definition deck_form : FormData :=
  Fixture.form (Some Fixture.deck) (Some "Q3 Review") (Some "Business & Corporate").

Definition converting : string := "Converting deck.pptx" +:+ Js.nl.





(** ** Invariants of computations *)

(** [keeps I m]: whatever [m] does and however it ends, it leads from a world
    in [I] to a world in [I]. *)
Definition keeps (I : World -> Prop) {A} (m : M A) : Prop :=
  forall w, I w -> I (m w).2.

(** An invariant of the log: every entry satisfies [φ]. *)
Definition log_all (φ : Entry -> Prop) (w : World) : Prop := Forall φ (w_trace w).


Definition is_put (e : Effect) : bool :=
  match e with
  | R2Put _ _ _ => true
  | _ => false
  end.



(** [leads P m Q]: from a world in [P], [m] ends, however it ends, in a world
    in [Q]. *)
Definition leads (P : World -> Prop) {A} (m : M A) (Q : World -> Prop) : Prop :=
  forall w, P w -> Q (m w).2.

(** A progress event that does not end the stream's sequence. *)
Definition progress (ev : StreamEvent) : Prop :=
  ev_status ev = Info \/ ev_status ev = Processing.

(** The stream is open and has carried progress events only. *)
Definition streaming (w : World) : Prop :=
  w_stream w = Readable /\ Forall progress (w_queue w).

(** The stream is open (or already closed, when [st] is [Closed]) and either
    carried progress events only, or those followed by one [Done] event. *)
Definition stream_settled (st : StreamState) (w : World) : Prop :=
  w_stream w = st /\
  (Forall progress (w_queue w) \/
   exists q slug message,
     w_queue w = q ++ [{| ev_status := Done; ev_message := message; ev_slug := Some slug |}]
     /\ Forall progress q).

(** [returns m R]: whenever [m] returns a value, it satisfies [R]. *)
Definition returns {A} (m : M A) (R : A -> Prop) : Prop :=
  forall w a, (m w).1 = Val a -> R a.


(** ** The shape of each pipeline's log *)

Definition file_of (request : Request) : option File :=
  match request with
  | Form formData => fd_file formData
  | BadBody _ => None
  end.

(** The log of [w] is [base] followed by entries that satisfy [φ]. *)
Definition extends (base : list Entry) (φ : Entry -> Prop) (w : World) : Prop :=
  exists ext, w_trace w = base ++ ext /\ Forall φ ext.

Definition is_rm (a : Entry) : Prop :=
  match eff a with
  | FsRm _ => True
  | _ => False
  end.

(** *** The AI-assisted pipeline *)

(** The storage keys of a file with id [id] and original name [name]. *)
Definition ai_key (id name k : string) : Prop :=
  k = "ppt-files/" +:+ id +:+ "/original/" +:+ name \/
  k = "ppt-files/" +:+ id +:+ "/previews/thumbnail.webp" \/
  exists n : Z, 1 <= n /\ (k = ProcessPpt.page_key id n \/ k = ProcessPpt.page_thumb_key id n).

(** Before the row is written: staging, conversion, classification, and the
    removal of the workspace. *)
Definition ai_staging (a : Entry) : Prop :=
  match eff a with
  | FsMkdtemp _ | FsMkdir _ | FsWriteFile _ _ | FsRm _ | Spawn _ _ | Fetch _ _ => True
  | _ => False
  end.

(** Once the row exists: reads from the workspace, puts under the row's id,
    a failed insert of the page rows, and the removal of the workspace. *)
Definition ai_asset (id name : string) (a : Entry) : Prop :=
  match eff a with
  | FsReadFile _ | FsRm _ => True
  | R2Put k (Some _) (Some _) => ai_key id name k
  | DbInsertPreviews _ => ok a = false
  | _ => False
  end.

(** The converter exited with code 0 and its output parsed as [previewData]. *)
Definition converter_gave (env : Env) (previewData : Shaped ConversionOutput) : Prop :=
  exists input output stdout stderr written,
    spawn env "convert.py" [input; output] = Exits (Some 0) stdout stderr written
    /\ JSON_parse_conversion env (Js.trim stdout) = Parses previewData.

(** The converter reported [pageCount] pages, at least 10. *)
Definition ai_converted (env : Env) (pageCount : Z) : Prop :=
  exists input output stdout stderr written previewData,
    spawn env "convert.py" [input; output] = Exits (Some 0) stdout stderr written
    /\ JSON_parse_conversion env (Js.trim stdout) = Parses previewData
    /\ pageCount = ProcessPpt.pageCount_of previewData
    /\ 10 <= pageCount.

(** After the row insert: assets, then possibly the page rows, the update
    of the row with both keys, and removals. *)
Definition ai_rest (id name : string) (rest : list Entry) : Prop :=
  Forall (ai_asset id name) rest \/
  exists assets rows updated rms,
    rest = assets ++
      [ {| eff := DbInsertPreviews rows; ok := true |};
        {| eff := DbUpdateFile (Some id)
                    (Some ("ppt-files/" +:+ id +:+ "/original/" +:+ name))
                    (Some ("ppt-files/" +:+ id +:+ "/previews/thumbnail.webp"));
           ok := updated |} ] ++ rms
    /\ Forall (ai_asset id name) assets /\ Forall is_rm rms.

(** Either the run never reaches the row insert, or it inserts the row of
    step 6 with the converter's page count; a failed insert is followed by
    the removal of the workspace only. *)
Definition ai_shape (env : Env) (request : Request) (tr : list Entry) : Prop :=
  Forall ai_staging tr \/
  exists file metadata pageCount staging inserted rest,
    file_of request = Some file
    /\ ai_converted env pageCount
    /\ tr = staging ++
         {| eff := DbInsertFile (ProcessPpt.initial_row env file metadata pageCount);
            ok := inserted |} :: rest
    /\ Forall ai_staging staging
    /\ (if inserted then ai_rest (db_new_id env) (f_name file) rest else Forall is_rm rest).

(** *** The streamed pipeline *)

(** The storage keys of the streamed pipeline: rooted at the id the handler
    generated itself, page assets named after the converter's files. *)
Definition st_key (env : Env) (name k : string) : Prop :=
  k = "ppt-files/" +:+ uuidv4 env +:+ "/original/" +:+ name \/
  exists path, k = "ppt-files/" +:+ uuidv4 env +:+ "/previews/" +:+ Js.basename path.

(** Before the row is written: staging, conversion, reads and puts. *)
Definition st_pre (env : Env) (request : Request) (a : Entry) : Prop :=
  match eff a with
  | FsMkdtemp _ | FsMkdir _ | FsWriteFile _ _ | FsReadFile _ | FsRm _ | Spawn _ _ => True
  | R2Put k (Some _) (Some _) =>
      exists file, file_of request = Some file /\ st_key env (f_name file) k
  | _ => False
  end.

(** After the row insert: the page rows and the removal of the workspace. *)
Definition st_tail (a : Entry) : Prop :=
  match eff a with
  | DbInsertPreviews _ | FsRm _ => True
  | _ => False
  end.

(** The converter answered with [previews] and [thumbnails], and the handler's
    check of the lengths passed. *)
Definition st_converted (env : Env) (previews thumbnails : list string) : Prop :=
  exists input output stdout stderr written pages,
    spawn env "./convert.py" [input; output] = Exits (Some 0) stdout stderr written
    /\ JSON_parse_conversion env (Js.last_line stdout)
       = Parses (Value {| co_page_count := pages;
                          co_previews := Some previews;
                          co_thumbnails := Some thumbnails |})
    /\ length previews = length thumbnails.

Definition st_shape (env : Env) (request : Request) (tr : list Entry) : Prop :=
  Forall (st_pre env request) tr \/
  exists file title description category subcategory tags previews thumbnails
         records pre inserted tail,
    file_of request = Some file
    /\ st_converted env previews thumbnails
    /\ length records = length previews
    /\ tr = pre ++
         {| eff := DbInsertFile
                     (UploadStream.file_row env file title description category
                        subcategory tags records);
            ok := inserted |} :: tail
    /\ Forall (st_pre env request) pre
    /\ Forall st_tail tail.

(** *** The direct pipeline *)

(** The keys of the page assets: rooted at the time of the request. *)
Definition direct_key (timestamp : Z) (k : string) : Prop :=
  exists i : nat, k = Upload.previewKey_of timestamp i \/ k = Upload.thumbnailKey_of timestamp i.

(** After the row insert: puts of page assets and inserts of page rows. *)
Definition direct_page (env : Env) (a : Entry) : Prop :=
  match eff a with
  | R2Put k (Some _) (Some _) => direct_key (Date_now env) k
  | DbInsertPreviews _ => True
  | _ => False
  end.

(** A run that passes validation puts the original first.  With both page
    lists parsed it inserts the row, which carries the original's key and the
    number of previews; a failed insert is followed by a put of the same key
    without a body and nothing else. *)
Definition direct_shape (env : Env) (request : Request) (tr : list Entry) : Prop :=
  tr = [] \/
  exists formData file uploaded,
    request = Form formData /\ fd_file formData = Some file /\
    let pptKey := Upload.original_key (Date_now env) file in
    let put := {| eff := R2Put pptKey (Some (f_bytes file)) (Some (f_type file));
                  ok := uploaded |} in
    (tr = [put] \/
     exists previews,
       JSON_parse_array env (default "" (fd_previews formData)) = Parses (Value previews) /\
       uploaded = true /\
       let row := Upload.file_row formData file pptKey (Z.of_nat (length previews)) in
       ((exists undone,
           tr = [put; {| eff := DbInsertFile row; ok := false |};
                 {| eff := R2Put pptKey None None; ok := undone |}]) \/
        (exists pages,
           tr = put :: {| eff := DbInsertFile row; ok := true |} :: pages
           /\ Forall (direct_page env) pages))).

(** ** What each pipeline may log *)


(** The key under which each pipeline stores the original. *)
Definition original_key_of (p : Pipeline) (env : Env) (file : File) : string :=
  match p with
  | Direct => Upload.original_key (Date_now env) file
  | Streamed => UploadStream.original_key env file
  | AiAssisted => "ppt-files/" +:+ db_new_id env +:+ "/original/" +:+ f_name file
  end.

(** The keys each pipeline writes for [file]. *)
Definition key_shape (p : Pipeline) (env : Env) (file : File) (k : string) : Prop :=
  match p with
  | Direct => k = Upload.original_key (Date_now env) file \/ direct_key (Date_now env) k
  | Streamed => st_key env (f_name file) k
  | AiAssisted => ai_key (db_new_id env) (f_name file) k
  end.

(** The page count each converting pipeline writes on the row. *)
Definition page_count_source (p : Pipeline) (env : Env) (request : Request) (n : Z) : Prop :=
  match p with
  | Direct =>
      exists formData previews,
        request = Form formData
        /\ JSON_parse_array env (default "" (fd_previews formData)) = Parses (Value previews)
        /\ n = Z.of_nat (length previews)
  | Streamed =>
      exists previews thumbnails,
        st_converted env previews thumbnails /\ n = Z.of_nat (length previews)
  | AiAssisted => ai_converted env n
  end.

(** The row each pipeline hands to the insert: its id and the keys on it. *)
Definition row_keys (p : Pipeline) (env : Env) (file : File) (row : FileRow) : Prop :=
  match p with
  | Direct =>
      fr_id row = None
      /\ fr_r2_file_key row = Some (original_key_of Direct env file)
      /\ fr_r2_thumbnail_key row = None
  | Streamed =>
      fr_id row = Some (uuidv4 env)
      /\ fr_r2_file_key row = Some (original_key_of Streamed env file)
  | AiAssisted =>
      fr_id row = None /\ fr_r2_file_key row = None /\ fr_r2_thumbnail_key row = None
  end.

(** One logged call of pipeline [p]. *)
Definition entry_ok (p : Pipeline) (env : Env) (request : Request) (a : Entry) : Prop :=
  match eff a with
  | R2Put k body _ =>
      exists file, file_of request = Some file /\ key_shape p env file k
        /\ (body = None -> p = Direct /\ k = original_key_of Direct env file)
  | DbInsertFile row =>
      exists file, file_of request = Some file /\ row_keys p env file row
        /\ page_count_source p env request (fr_page_count row)
  | DbUpdateFile id file_key thumbnail_key =>
      p = AiAssisted /\ id = Some (db_new_id env)
      /\ exists file, file_of request = Some file
           /\ file_key = Some (original_key_of AiAssisted env file)
           /\ thumbnail_key = Some ("ppt-files/" +:+ db_new_id env +:+ "/previews/thumbnail.webp")
  | _ => True
  end.




(** ** What a successful run leaves behind *)

(** [grows w w']: every object, file row and page row stored at [w] is still
    there at [w'].  No handler deletes from a store. *)
Definition grows (w w' : World) : Prop :=
  (forall k, is_Some (w_r2 w !! k) -> is_Some (w_r2 w' !! k))
  /\ (forall id, id ∈ map fr_id (w_ppt_files w) -> id ∈ map fr_id (w_ppt_files w'))
  /\ (forall r, r ∈ w_ppt_previews w -> r ∈ w_ppt_previews w').

(** A computation that only adds to the stores. *)
Definition mono {A} (m : M A) : Prop := forall w, grows w (m w).2.

(** A property of the stores that later additions cannot undo. *)
Definition stable (F : World -> Prop) : Prop := forall w w', grows w w' -> F w -> F w'.

(** [hoare P m Q]: from a world in [P], a value returned by [m] and the world
    it is returned in satisfy [Q].  Nothing is said about a run that
    throws. *)
Definition hoare {A} (P : World -> Prop) (m : M A) (Q : A -> World -> Prop) : Prop :=
  forall w, P w -> forall a, (m w).1 = Val a -> Q a (m w).2.

(** The object store holds something under [k]. *)
Definition in_r2 (k : string) (w : World) : Prop := is_Some (w_r2 w !! k).

(** [ppt_files] holds a row with id [id]. *)
Definition has_row (id : string) (w : World) : Prop :=
  Some id ∈ map fr_id (w_ppt_files w).

(** The page rows [records] are in [ppt_previews] and both images of each
    are in the object store. *)
Definition pages_stored (records : list PreviewRow) (w : World) : Prop :=
  Forall (fun r => r ∈ w_ppt_previews w
                   /\ in_r2 (pr_preview_url r) w /\ in_r2 (pr_thumbnail_url r) w) records.




(** What a 200 answer of the direct upload guarantees: the row, the original
    and both images of every page the client sent.  The page rows are not
    among the guarantees. *)
Definition direct_stored (env : Env) (formData : FormData) (w : World) : Prop :=
  exists file previews,
    fd_file formData = Some file
    /\ JSON_parse_array env (default "" (fd_previews formData)) = Parses (Value previews)
    /\ has_row (db_new_id env) w
    /\ in_r2 (Upload.original_key (Date_now env) file) w
    /\ forall i, (i < length previews)%nat ->
         in_r2 (Upload.previewKey_of (Date_now env) i) w
         /\ in_r2 (Upload.thumbnailKey_of (Date_now env) i) w.

Definition direct_answer (env : Env) (formData : FormData) (r : Response) (w : World) : Prop :=
  forall body, r = JsonResponse 200 body -> direct_stored env formData w.

(** [hoare_exc P m Q E]: as [hoare], with [E] for the world a run that throws
    ends in. *)
Definition hoare_exc {A} (P : World -> Prop) (m : M A) (Q : A -> World -> Prop)
    (E : World -> Prop) : Prop :=
  forall w, P w ->
    match (m w).1 with
    | Val a => Q a (m w).2
    | Exc _ => E (m w).2
    end.

(** The page row the streamed pipeline records for the page at [index]. *)
Definition st_page_record (env : Env) (index : nat) (previewPath thumbnailPath : string)
    : PreviewRow :=
  {| pr_ppt_id := Some (uuidv4 env);
     pr_page_number := Z.of_nat index + 1;
     pr_preview_url :=
       "ppt-files/" +:+ uuidv4 env +:+ "/previews/" +:+ Js.basename previewPath;
     pr_thumbnail_url :=
       "ppt-files/" +:+ uuidv4 env +:+ "/previews/" +:+ Js.basename thumbnailPath |}.

(** What a [Done] event of the streamed pipeline guarantees: it carries the
    slug made of the title and the time, the row is in [ppt_files], the
    original is in the object store, and every page's images and row are
    stored. *)
Definition st_stored (env : Env) (formData : FormData) (ev : StreamEvent) (w : World)
    : Prop :=
  exists file previews thumbnails,
    fd_file formData = Some file
    /\ length previews = length thumbnails
    /\ ev_slug ev
       = Some (slugify env (default "" (fd_title formData)) +:+ "-"
                 +:+ Js.decimal (Date_now env))
    /\ has_row (uuidv4 env) w
    /\ in_r2 (UploadStream.original_key env file) w
    /\ pages_stored
         (imap (fun index paths => st_page_record env index paths.1 paths.2)
            (zip previews thumbnails)) w.

Definition st_done_means_stored (env : Env) (formData : FormData) (w : World) : Prop :=
  forall ev, ev ∈ w_queue w -> ev_status ev = Done -> st_stored env formData ev w.


(** One of the settings the AI-assisted handler needs is missing or empty. *)
Definition misconfigured (env : Env) : bool :=
  falsy (R2_ACCOUNT_ID env) || falsy (R2_ACCESS_KEY_ID env)
  || falsy (R2_SECRET_ACCESS_KEY env)
  || falsy (NEXT_PUBLIC_SUPABASE_URL env) || falsy (NEXT_PUBLIC_SUPABASE_ANON_KEY env)
  || falsy (R2_BUCKET_NAME env).

(** Neither store changed between [w] and [w']. *)
Definition stores_untouched (w w' : World) : Prop :=
  w_r2 w' = w_r2 w /\ w_ppt_files w' = w_ppt_files w /\ w_ppt_previews w' = w_ppt_previews w.

(** The tags on a row the streamed pipeline hands to the insert are the
    trimmed pieces of [raw]. *)
Definition tagged (raw : string) (a : Entry) : Prop :=
  match eff a with
  | DbInsertFile row => fr_tags row = Some (map Js.trim (Js.split Js.comma raw))
  | _ => True
  end.

(** ** Vocabulary for the batch page *)

(** A status that ends the processing of an entry. *)
Definition terminal (status : BatchUpload.FileStatus) : Prop :=
  status = BatchUpload.Completed \/ status = BatchUpload.Failed
  \/ status = BatchUpload.Skipped.

(** How an entry [f] of the queue looks after the files with the ids [ids]
    were processed. *)
Definition processed (ids : list string) (f f' : BatchUpload.ProcessableFile) : Prop :=
  BatchUpload.pf_id f' = BatchUpload.pf_id f
  /\ BatchUpload.pf_file f' = BatchUpload.pf_file f
  /\ (BatchUpload.pf_id f ∈ ids -> terminal (BatchUpload.pf_status f'))
  /\ (BatchUpload.pf_id f ∉ ids -> f' = f).





(** ** Vocabulary for the upload page *)

(** The upload page talking to the direct handler, over a transport that
    delivers the form and the answer as they are. *)
Definition direct_post (env : Env) : TestUpload.Post := fun formData w =>
  match Upload.POST env (Form formData) w with
  | (Val (JsonResponse status body), w') => (inr (status, body), w')
  | (_, w') => (inl "Failed to fetch", w')
  end.

(** The file the page holds, if any, has passed the page's extension check. *)
Definition file_checked (page : TestUpload.Page) : Prop :=
  forall file, TestUpload.tu_file page = Some file ->
    Upload.fileType_of file ∈ Upload.allowed.

(** The [k] lowest base-36 digits of [n], highest first. *)
Fixpoint low (k : nat) (n : N) : list ascii :=
  match k with
  | O => []
  | S k' => low k' (n / 36) ++ [Js.digit36 (n mod 36)]
  end.

(** ** Deployments and pages used in the samples *)

(** [env] with the bucket name unset. *)
Definition without_bucket (env : Env) : Env :=
  {| R2_ACCOUNT_ID := R2_ACCOUNT_ID env;
     R2_ACCESS_KEY_ID := R2_ACCESS_KEY_ID env;
     R2_SECRET_ACCESS_KEY := R2_SECRET_ACCESS_KEY env;
     R2_BUCKET_NAME := None;
     R2_PUBLIC_URL := R2_PUBLIC_URL env;
     NEXT_PUBLIC_SUPABASE_URL := NEXT_PUBLIC_SUPABASE_URL env;
     NEXT_PUBLIC_SUPABASE_ANON_KEY := NEXT_PUBLIC_SUPABASE_ANON_KEY env;
     DOUBAO_API_KEY := DOUBAO_API_KEY env;
     Date_now := Date_now env;
     uuidv4 := uuidv4 env;
     slugify := slugify env;
     os_tmpdir := os_tmpdir env;
     mkdtemp_suffix := mkdtemp_suffix env;
     Buffer_from_base64 := Buffer_from_base64 env;
     sharp_thumbnail := sharp_thumbnail env;
     sharp_webp := sharp_webp env;
     JSON_parse_array := JSON_parse_array env;
     JSON_parse_conversion := JSON_parse_conversion env;
     JSON_parse_completion := JSON_parse_completion env;
     JSON_parse_metadata := JSON_parse_metadata env;
     PostgrestError_is_Error := PostgrestError_is_Error env;
     fault := fault env;
     spawn := spawn env;
     db_new_id := db_new_id env;
     db_created_at := db_created_at env;
     fetch_completion := fetch_completion env |}.

(** [env] with the clock reading [now]. *)
Definition at_time (now : Z) (env : Env) : Env :=
  {| R2_ACCOUNT_ID := R2_ACCOUNT_ID env;
     R2_ACCESS_KEY_ID := R2_ACCESS_KEY_ID env;
     R2_SECRET_ACCESS_KEY := R2_SECRET_ACCESS_KEY env;
     R2_BUCKET_NAME := R2_BUCKET_NAME env;
     R2_PUBLIC_URL := R2_PUBLIC_URL env;
     NEXT_PUBLIC_SUPABASE_URL := NEXT_PUBLIC_SUPABASE_URL env;
     NEXT_PUBLIC_SUPABASE_ANON_KEY := NEXT_PUBLIC_SUPABASE_ANON_KEY env;
     DOUBAO_API_KEY := DOUBAO_API_KEY env;
     Date_now := now;
     uuidv4 := uuidv4 env;
     slugify := slugify env;
     os_tmpdir := os_tmpdir env;
     mkdtemp_suffix := mkdtemp_suffix env;
     Buffer_from_base64 := Buffer_from_base64 env;
     sharp_thumbnail := sharp_thumbnail env;
     sharp_webp := sharp_webp env;
     JSON_parse_array := JSON_parse_array env;
     JSON_parse_conversion := JSON_parse_conversion env;
     JSON_parse_completion := JSON_parse_completion env;
     JSON_parse_metadata := JSON_parse_metadata env;
     PostgrestError_is_Error := PostgrestError_is_Error env;
     fault := fault env;
     spawn := spawn env;
     db_new_id := db_new_id env;
     db_created_at := db_created_at env;
     fetch_completion := fetch_completion env |}.

(** The upload page holding a deck, its archive of page images and a title. *)
Definition filled_page : TestUpload.Page :=
  {| TestUpload.tu_file := Some Fixture.deck;
     TestUpload.tu_title := "Q3 Review";
     TestUpload.tu_uploading := false;
     TestUpload.tu_result := None;
     TestUpload.tu_error := None;
     TestUpload.tu_previewStatus := TestUpload.PreviewPending;
     TestUpload.tu_zipFile :=
       Some {| f_name := "pages.zip"; f_type := "application/zip"; f_size := 512;
               f_bytes := "<pages.zip bytes>" |};
     TestUpload.tu_previewImages := ["data:image/jpeg;base64,AAAA"];
     TestUpload.tu_thumbnails := ["data:image/jpeg;base64,BBBB"];
     TestUpload.tu_category := "Business & Corporate";
     TestUpload.tu_subcategory := "Business reports" |}.

(** ** What a run leaves behind, whatever its answer *)

(** [lasting env w a]: what the logged call [a] stored, if it went through,
    is in the stores at [w]: an object under the key of a put, a row under
    the id of an insert into [ppt_files], the rows of an insert into
    [ppt_previews]. *)
Definition lasting (env : Env) (w : World) (a : Entry) : Prop :=
  ok a = true ->
  match eff a with
  | R2Put key _ _ => in_r2 key w
  | DbInsertFile payload => has_row (default (db_new_id env) (fr_id payload)) w
  | DbInsertPreviews rows => forall r, r ∈ rows -> r ∈ w_ppt_previews w
  | _ => True
  end.

(** Since [w0], nothing was removed and every logged call is [lasting]. *)
Definition kept (env : Env) (w0 w : World) : Prop :=
  grows w0 w /\ Forall (lasting env w) (w_trace w).

(** [m] logs only calls that are [lasting] where it ends. *)
Definition logs_lasting (env : Env) {A} (m : M A) : Prop :=
  forall w, exists ext,
    w_trace (m w).2 = w_trace w ++ ext /\ Forall (lasting env (m w).2) ext.

(** ** Samples of the string functions *)

Example trim_sample :
  Js.trim (" log" +:+ Js.nl +:+ " [1] " +:+ Js.nl +:+ "  ") = "log" +:+ Js.nl +:+ " [1]".
Proof. reflexivity. Qed.

Example split_sample : Js.split Js.comma "a,,b" = ["a"; ""; "b"].
Proof. reflexivity. Qed.

Example extname_samples :
  map Js.extname ["deck.pptx"; "a.b/deck"; ".env"; "x."; ".."; "a/b.tar.gz/"]
  = [".pptx"; ""; ""; "."; ""; ".gz"].
Proof. reflexivity. Qed.

Example toString36_sample : Js.toString36 1700000000000 = "loyw3v28".
Proof. reflexivity. Qed.

Example toFixed_sample :
  map Js.MiB_toFixed2 [0; 157286400; 104857601; 5243] = ["0.00"; "150.00"; "100.00"; "0.01"].
Proof. reflexivity. Qed.


(** ** The rules for invariants *)

Section Keeps.

Context (I : World -> Prop).

Lemma keeps_ret {A} (a : A) : keeps I (ret a).
Proof. intros w H. exact H. Qed.

Lemma keeps_throw {A} (e : Exn) : keeps I (throw e : M A).
Proof. intros w H. exact H. Qed.

Lemma keeps_bind {A B} (m : M A) (k : A -> M B) :
  keeps I m -> (forall a, keeps I (k a)) -> keeps I (m ≫= k).
Proof.
  intros Hm Hk w H. unfold mbind, M_bind, bind.
  specialize (Hm w H). destruct (m w) as [[a|e] w']; cbn in *; [by apply Hk | done].
Qed.

Lemma keeps_try_catch {A} (m : M A) (h : Exn -> M A) :
  keeps I m -> (forall e, keeps I (h e)) -> keeps I (try_catch m h).
Proof.
  intros Hm Hh w H. unfold try_catch.
  specialize (Hm w H). destruct (m w) as [[a|e] w']; cbn in *; [done | by apply Hh].
Qed.

Lemma keeps_finally {A} (m : M A) (c : M unit) :
  keeps I m -> keeps I c -> keeps I (finally m c).
Proof.
  intros Hm Hc w H. unfold finally.
  specialize (Hm w H). destruct (m w) as [r w']; cbn in *.
  specialize (Hc w' Hm). by destruct (c w') as [[[]|e] w''].
Qed.

Lemma keeps_attempt {A} (m : M A) : keeps I m -> keeps I (attempt m).
Proof.
  intros Hm w H. unfold attempt. specialize (Hm w H). by destruct (m w).
Qed.

Lemma keeps_both (m1 m2 : M unit) : keeps I m1 -> keeps I m2 -> keeps I (both m1 m2).
Proof.
  intros H1 H2. unfold both.
  apply keeps_bind; [by apply keeps_attempt | intros r1].
  apply keeps_bind; [by apply keeps_attempt | intros r2].
  destruct r1, r2; (apply keeps_ret || apply keeps_throw).
Qed.

Lemma keeps_try_local {A B} (init : M A) (body : A -> M B) (handler : Exn -> M B)
    (cleanup : option A -> M unit) :
  keeps I init -> (forall a, keeps I (body a)) -> (forall e, keeps I (handler e)) ->
  (forall o, keeps I (cleanup o)) ->
  keeps I (try_local init body handler cleanup).
Proof.
  intros Hi Hb Hh Hc w H. unfold try_local.
  specialize (Hi w H). destruct (init w) as [[a|e] w']; cbn in *.
  - apply keeps_finally; [apply keeps_try_catch; auto | auto | exact Hi].
  - apply keeps_finally; auto.
Qed.

Lemma keeps_lift_sum {A} (r : Exn + A) : keeps I (lift_sum r).
Proof. destruct r; intros w H; exact H. Qed.

End Keeps.

Section Leads.

Context (P Q : World -> Prop).

Lemma leads_keeps {A} (m : M A) : (forall w, P w -> Q w) -> keeps P m -> leads P m Q.
Proof. intros HPQ Hm w H. apply HPQ. by apply Hm. Qed.

Lemma leads_bind {A B} (m : M A) (k : A -> M B) :
  keeps P m -> (forall a, leads P (k a) Q) -> (forall w, P w -> Q w) ->
  leads P (m ≫= k) Q.
Proof.
  intros Hm Hk HPQ w H. unfold mbind, M_bind, bind.
  specialize (Hm w H). destruct (m w) as [[a|e] w']; cbn in *; [by apply Hk | by apply HPQ].
Qed.

Lemma leads_ret {A} (a : A) : (forall w, P w -> Q w) -> leads P (ret a) Q.
Proof. intros HPQ w H. by apply HPQ. Qed.

Lemma leads_throw {A} (e : Exn) : (forall w, P w -> Q w) -> leads P (throw e : M A) Q.
Proof. intros HPQ w H. by apply HPQ. Qed.

End Leads.

Lemma keeps_or (I J : World -> Prop) {A} (m : M A) :
  keeps I m -> keeps J m -> keeps (fun w => I w \/ J w) m.
Proof. intros HI HJ w [H|H]; [left; by apply HI | right; by apply HJ]. Qed.

(** ** Rules for a computation that changes phase *)

Lemma returns_ret {A} (a : A) (R : A -> Prop) : R a -> returns (ret a) R.
Proof. intros H w a' [= <-]. exact H. Qed.

Lemma returns_throw {A} (e : Exn) (R : A -> Prop) : returns (throw e) R.
Proof. intros w a [=]. Qed.

Lemma returns_bind {A B} (m : M A) (k : A -> M B) (R : B -> Prop) :
  (forall a, returns (k a) R) -> returns (m ≫= k) R.
Proof.
  intros Hk w b. unfold mbind, M_bind, bind.
  destruct (m w) as [[a|e] w']; cbn; [apply Hk | discriminate].
Qed.

Lemma returns_bind_with {A B} (m : M A) (k : A -> M B) (S : A -> Prop) (R : B -> Prop) :
  returns m S -> (forall a, S a -> returns (k a) R) -> returns (m ≫= k) R.
Proof.
  intros Hm Hk w b. unfold mbind, M_bind, bind.
  specialize (Hm w). destruct (m w) as [[a|e] w']; cbn; [apply Hk; by apply Hm | discriminate].
Qed.

Section Phases.

Context (P Q : World -> Prop).

Lemma leads_bind_with {A B} (m : M A) (k : A -> M B) (R : A -> Prop) :
  keeps P m -> returns m R -> (forall a, R a -> leads P (k a) Q) -> (forall w, P w -> Q w) ->
  leads P (m ≫= k) Q.
Proof.
  intros Hm Hr Hk HPQ w H. unfold mbind, M_bind, bind.
  specialize (Hm w H). specialize (Hr w).
  destruct (m w) as [[a|e] w']; cbn in *; [apply Hk; auto | by apply HPQ].
Qed.

Lemma leads_try_catch {A} (m : M A) (h : Exn -> M A) :
  leads P m Q -> (forall e, keeps Q (h e)) -> leads P (try_catch m h) Q.
Proof.
  intros Hm Hh w H. unfold try_catch.
  specialize (Hm w H). destruct (m w) as [[a|e] w']; cbn in *; [done | by apply Hh].
Qed.

Lemma leads_finally {A} (m : M A) (c : M unit) :
  leads P m Q -> keeps Q c -> leads P (finally m c) Q.
Proof.
  intros Hm Hc w H. unfold finally.
  specialize (Hm w H). destruct (m w) as [r w']; cbn in *.
  specialize (Hc w' Hm). by destruct (c w') as [[[]|e] w''].
Qed.

Lemma leads_try_local {A B} (init : M A) (body : A -> M B) (handler : Exn -> M B)
    (cleanup : option A -> M unit) :
  keeps P init -> (forall a, leads P (body a) Q) -> (forall e, keeps Q (handler e)) ->
  (forall o, keeps Q (cleanup o)) -> (forall w, P w -> Q w) ->
  leads P (try_local init body handler cleanup) Q.
Proof.
  intros Hi Hb Hh Hc HPQ w H. unfold try_local.
  specialize (Hi w H). destruct (init w) as [[a|e] w']; cbn in *.
  - apply (leads_finally (try_catch (body a) handler) (cleanup (Some a)));
      [apply leads_try_catch; auto | auto | exact Hi].
  - apply (keeps_finally Q); auto.
Qed.

Lemma leads_try_local_with {A B} (init : M A) (body : A -> M B) (handler : Exn -> M B)
    (cleanup : option A -> M unit) (R : A -> Prop) :
  keeps P init -> returns init R -> (forall a, R a -> leads P (body a) Q) ->
  (forall e, keeps Q (handler e)) -> (forall o, keeps Q (cleanup o)) ->
  (forall w, P w -> Q w) ->
  leads P (try_local init body handler cleanup) Q.
Proof.
  intros Hi Hr Hb Hh Hc HPQ w H. unfold try_local.
  specialize (Hi w H). specialize (Hr w). destruct (init w) as [[a|e] w']; cbn in *.
  - apply (leads_finally (try_catch (body a) handler) (cleanup (Some a)));
      [apply leads_try_catch; auto | auto | exact Hi].
  - apply (keeps_finally Q); auto.
Qed.

End Phases.

Lemma leads_weaken (P Q Q' : World -> Prop) {A} (m : M A) :
  leads P m Q -> (forall w, Q w -> Q' w) -> leads P m Q'.
Proof. intros Hm HQ w H. apply HQ. by apply Hm. Qed.

(** The insert of the file row, by its two outcomes. *)
Lemma leads_db_insert_file (env : Env) (P Q : World -> Prop) (payload : FileRow) {B}
    (k : string + FileRow -> M B) :
  (forall msg,
     leads (fun w1 => exists w, P w /\
              w_trace w1 = w_trace w ++ [{| eff := DbInsertFile payload; ok := false |}])
       (k (inl msg)) Q) ->
  leads (fun w1 => exists w, P w /\
           w_trace w1 = w_trace w ++ [{| eff := DbInsertFile payload; ok := true |}])
    (k (inr (stored env payload))) Q ->
  leads P (db_insert_file env payload ≫= k) Q.
Proof.
  intros Hfail Hok w Hw. unfold mbind, M_bind, bind, db_insert_file.
  destruct (fault env (w_calls w)) as [msg|]; cbn [fst snd].
  - apply Hfail. by exists w.
  - apply Hok. by exists w.
Qed.

(** The same for a log that is known exactly, and for a put. *)
Lemma leads_db_insert_file_at (env : Env) (tr : list Entry) (Q : World -> Prop)
    (payload : FileRow) {B} (k : string + FileRow -> M B) :
  (forall msg,
     leads (fun w => w_trace w = tr ++ [{| eff := DbInsertFile payload; ok := false |}])
       (k (inl msg)) Q) ->
  leads (fun w => w_trace w = tr ++ [{| eff := DbInsertFile payload; ok := true |}])
    (k (inr (stored env payload))) Q ->
  leads (fun w => w_trace w = tr) (db_insert_file env payload ≫= k) Q.
Proof.
  intros Hfail Hok. apply leads_db_insert_file.
  - intros msg w1 (w & <- & Hw1). by apply Hfail.
  - intros w1 (w & <- & Hw1). by apply Hok.
Qed.

Lemma leads_r2_send_at (env : Env) (tr : list Entry) (Q : World -> Prop)
    (key : string) (body : option Bytes) (content_type : option string) {B}
    (k : unit -> M B) :
  (forall w, w_trace w = tr ++ [{| eff := R2Put key body content_type; ok := false |}] -> Q w) ->
  leads (fun w => w_trace w = tr ++ [{| eff := R2Put key body content_type; ok := true |}])
    (k tt) Q ->
  leads (fun w => w_trace w = tr) (r2_send env key body content_type ≫= k) Q.
Proof.
  intros Hfail Hok w Hw. unfold mbind, M_bind, bind, r2_send, external.
  destruct (fault env (w_calls w)) as [msg|]; cbn [fst snd].
  - apply Hfail. cbn. by rewrite Hw.
  - apply Hok. cbn. by rewrite Hw.
Qed.

(** ** Tactics for invariants *)

(** Walk a computation's structure, leaving its calls to [leaf]. *)
Ltac keeps_walk leaf :=
  repeat first
    [ apply keeps_ret
    | apply keeps_throw
    | apply keeps_lift_sum
    | assumption
    | match goal with
      | H : _ |- keeps _ _ => simple apply H
      end
    | match goal with
      | |- keeps _ (match ?x with _ => _ end) => destruct x
      | |- keeps _ (if ?x then _ else _) => destruct x
      | |- keeps _ (_ ≫= _) => apply keeps_bind; [|intros ?]
      | |- keeps _ (try_catch _ _) => apply keeps_try_catch; [|intros ?]
      | |- keeps _ (finally _ _) => apply keeps_finally
      | |- keeps _ (both _ _) => apply keeps_both
      | |- keeps _ (attempt _) => apply keeps_attempt
      | |- keeps _ (try_local _ _ _ _) =>
          apply keeps_try_local; [| intros ? | intros ? | intros ?]
      end
    | progress cbn zeta
    | leaf ].

(** Case analysis on an innermost [match] of the goal. *)
Ltac case_inner :=
  match goal with
  | |- context [match ?x with _ => _ end] =>
      lazymatch x with
      | context [match _ with _ => _ end] => fail
      | _ => destruct x eqn:?
      end
  end.

(** Open a call to a collaborator into its cases. *)
Ltac open_call :=
  let w := fresh "w" in
  let Hw := fresh "Hw" in
  intros w Hw;
  unfold fs_mkdtemp, fs_mkdir, fs_writeFile, fs_readFile, fs_rm, spawn_python, r2_send,
    db_insert_file, db_insert_previews, db_update_file, fetch_ai, sendEvent, close,
    external;
  repeat (case_inner; cbn);
  cbn.

(** Walk a computation whose steps keep [P] up to a last part that leads
    to [Q]; [leaf] proves the steps, [weaken] proves that [P] implies [Q]. *)
Ltac leads_walk leaf weaken :=
  repeat first
    [ apply leads_ret; [weaken]
    | apply leads_throw; [weaken]
    | match goal with
      | H : _ |- leads _ _ _ => simple apply H
      end
    | match goal with
      | |- leads _ (match ?x with _ => _ end) _ => destruct x
      | |- leads _ (if ?x then _ else _) _ => destruct x
      | |- leads _ (_ ≫= _) _ =>
          apply leads_bind; [solve [keeps_walk leaf] | intros ? | weaken]
      end
    | progress cbn zeta ].

(** A call that logs one entry keeps [extends base φ] when the entry
    satisfies [φ]; [tac] proves that. *)
Ltac extends_leaf tac :=
  solve [ open_call;
          match goal with
          | Hw : extends _ _ _ |- _ =>
              let ext := fresh "ext" in
              let Htr := fresh "Htr" in
              let Hext := fresh "Hext" in
              destruct Hw as (ext & Htr & Hext);
              first
                [ exists ext; split; [exact Htr | exact Hext]
                | eexists (ext ++ [_]); split;
                  [ cbn; rewrite Htr, <- app_assoc; reflexivity
                  | apply Forall_app; split; [exact Hext|];
                    apply Forall_singleton; tac ] ]
          end ].

(** ** Rules for what a computation returns *)

Lemma returns_try_catch {A} (m : M A) (h : Exn -> M A) (R : A -> Prop) :
  returns m R -> (forall e, returns (h e) R) -> returns (try_catch m h) R.
Proof.
  intros Hm Hh w a. unfold try_catch. specialize (Hm w).
  destruct (m w) as [[a'|e] w']; cbn in *; [apply Hm | apply Hh].
Qed.

Lemma returns_finally {A} (m : M A) (c : M unit) (R : A -> Prop) :
  returns m R -> returns (finally m c) R.
Proof.
  intros Hm w a. unfold finally. specialize (Hm w).
  destruct (m w) as [r w']. destruct (c w') as [[[]|e] w'']; cbn in *; [apply Hm | discriminate].
Qed.

Lemma returns_try_local {A B} (init : M A) (body : A -> M B) (handler : Exn -> M B)
    (cleanup : option A -> M unit) (R : B -> Prop) :
  (forall a, returns (body a) R) -> (forall e, returns (handler e) R) ->
  returns (try_local init body handler cleanup) R.
Proof.
  intros Hb Hh w b. unfold try_local. destruct (init w) as [[a|e] w'].
  - apply returns_finally, returns_try_catch; auto.
  - apply returns_finally; auto.
Qed.

(** Walk a computation's structure; [tac] proves the property of each
    returned value. *)
Ltac returns_walk tac :=
  repeat first
    [ apply returns_throw
    | apply returns_ret; solve [tac]
    | match goal with
      | |- returns (match ?x with _ => _ end) _ => destruct x
      | |- returns (if ?x then _ else _) _ => destruct x
      | |- returns (_ ≫= _) _ => apply returns_bind; intros ?
      | |- returns (try_catch _ _) _ => apply returns_try_catch; [|intros ?]
      | |- returns (try_local _ _ _ _) _ => apply returns_try_local; intros ?
      end
    | progress cbn zeta ].

(** A handler whose outer [catch] answers: it always returns. *)
Lemma answered_by_catch {A} (m : M A) (h : Exn -> A) (R : A -> Prop) (w : World) :
  returns m R -> (forall e, R (h e)) ->
  exists a, (try_catch m (fun e => ret (h e)) w).1 = Val a /\ R a.
Proof.
  intros Hm Hh. unfold try_catch. specialize (Hm w).
  destruct (m w) as [[a|e] w']; cbn in *; [exists a | exists (h e)]; split; auto.
Qed.


(** ** Rules for what a run leaves behind *)

Lemma grows_refl w : grows w w.
Proof. by repeat split. Qed.

Lemma grows_trans w1 w2 w3 : grows w1 w2 -> grows w2 w3 -> grows w1 w3.
Proof. intros (A1 & B1 & C1) (A2 & B2 & C2). repeat split; auto. Qed.

Lemma mono_of_keeps {A} (m : M A) : (forall w0, keeps (grows w0) m) -> mono m.
Proof. intros H w. apply H, grows_refl. Qed.

Lemma keeps_of_mono {A} (m : M A) w0 : mono m -> keeps (grows w0) m.
Proof. intros H w Hw. eapply grows_trans; [exact Hw | apply H]. Qed.

Lemma attach_keys_id id file_key thumbnail_key row :
  fr_id (attach_keys id file_key thumbnail_key row) = fr_id row.
Proof. unfold attach_keys. by case_bool_decide. Qed.

Lemma attach_keys_ids id file_key thumbnail_key rows :
  map fr_id (map (attach_keys id file_key thumbnail_key) rows) = map fr_id rows.
Proof. induction rows as [|row rows IH]; cbn; [done|]. by rewrite attach_keys_id, IH. Qed.

(** Every collaborator only adds to the stores. *)
Lemma grows_call (env : Env) (w0 : World) :
  (forall prefix, keeps (grows w0) (fs_mkdtemp env prefix))
  /\ (forall recursive path, keeps (grows w0) (fs_mkdir env recursive path))
  /\ (forall path data, keeps (grows w0) (fs_writeFile env path data))
  /\ (forall path, keeps (grows w0) (fs_readFile env path))
  /\ (forall path, keeps (grows w0) (fs_rm env path))
  /\ (forall script args, keeps (grows w0) (spawn_python env script args))
  /\ (forall key body content_type, keeps (grows w0) (r2_send env key body content_type))
  /\ (forall payload, keeps (grows w0) (db_insert_file env payload))
  /\ (forall rows, keeps (grows w0) (db_insert_previews env rows))
  /\ (forall id file_key thumbnail_key,
        keeps (grows w0) (db_update_file env id file_key thumbnail_key))
  /\ (forall filename text, keeps (grows w0) (fetch_ai env filename text))
  /\ (forall ev, keeps (grows w0) (sendEvent ev))
  /\ keeps (grows w0) close.
Proof.
  repeat match goal with |- _ /\ _ => split end; intros; open_call; try exact Hw.
  all: destruct Hw as (Hr2 & Hfiles & Hpreviews); repeat split; cbn; auto.
  - intros k Hk. apply lookup_insert_is_Some'. right. by apply Hr2.
  - intros id' Hid. rewrite map_app. apply elem_of_app. left. by apply Hfiles.
  - intros r Hr. apply elem_of_app. left. by apply Hpreviews.
  - intros id' Hid. rewrite attach_keys_ids. by apply Hfiles.
Qed.

Ltac grows_leaf :=
  idtac;
  match goal with
  | |- keeps (grows ?w0) (fs_mkdtemp ?env _) => apply (grows_call env w0)
  | |- keeps (grows ?w0) (fs_mkdir ?env _ _) => apply (grows_call env w0)
  | |- keeps (grows ?w0) (fs_writeFile ?env _ _) => apply (grows_call env w0)
  | |- keeps (grows ?w0) (fs_readFile ?env _) => apply (grows_call env w0)
  | |- keeps (grows ?w0) (fs_rm ?env _) => apply (grows_call env w0)
  | |- keeps (grows ?w0) (spawn_python ?env _ _) => apply (grows_call env w0)
  | |- keeps (grows ?w0) (r2_send ?env _ _ _) => apply (grows_call env w0)
  | |- keeps (grows ?w0) (db_insert_file ?env _) => apply (grows_call env w0)
  | |- keeps (grows ?w0) (db_insert_previews ?env _) => apply (grows_call env w0)
  | |- keeps (grows ?w0) (db_update_file ?env _ _ _) => apply (grows_call env w0)
  | |- keeps (grows ?w0) (fetch_ai ?env _ _) => apply (grows_call env w0)
  | env : Env |- keeps (grows ?w0) (sendEvent _) => apply (grows_call env w0)
  | env : Env |- keeps (grows ?w0) close => apply (grows_call env w0)
  end.

Section Hoare.

Context {A : Type}.

Lemma hoare_ret (P : World -> Prop) (a : A) (Q : A -> World -> Prop) :
  (forall w, P w -> Q a w) -> hoare P (ret a) Q.
Proof. intros H w Hw a' [= <-]. by apply H. Qed.

Lemma hoare_throw (P : World -> Prop) (e : Exn) (Q : A -> World -> Prop) :
  hoare P (throw e) Q.
Proof. intros w Hw a [=]. Qed.

Lemma hoare_bind {B} (P : World -> Prop) (m : M A) (R : A -> World -> Prop)
    (k : A -> M B) (Q : B -> World -> Prop) :
  hoare P m R -> (forall a, hoare (R a) (k a) Q) -> hoare P (m ≫= k) Q.
Proof.
  intros Hm Hk w Hw b. unfold mbind, M_bind, bind. specialize (Hm w Hw).
  destruct (m w) as [[a|e] w']; cbn in *; [|discriminate].
  apply Hk. by apply Hm.
Qed.

Lemma hoare_weaken (P P' : World -> Prop) (m : M A) (Q Q' : A -> World -> Prop) :
  hoare P' m Q' -> (forall w, P w -> P' w) -> (forall a w, Q' a w -> Q a w) -> hoare P m Q.
Proof. intros Hm HP HQ w Hw a Ha. apply HQ. by apply Hm; [apply HP|]. Qed.

Lemma hoare_and (P : World -> Prop) (m : M A) (Q1 Q2 : A -> World -> Prop) :
  hoare P m Q1 -> hoare P m Q2 -> hoare P m (fun a w => Q1 a w /\ Q2 a w).
Proof. intros H1 H2 w Hw a Ha. split; [by apply H1 | by apply H2]. Qed.

Lemma hoare_stable (F : World -> Prop) (m : M A) :
  stable F -> mono m -> hoare F m (fun _ => F).
Proof. intros HF Hm w Hw a _. eapply HF; [apply Hm | exact Hw]. Qed.

Lemma hoare_try_catch (P : World -> Prop) (m : M A) (h : Exn -> M A)
    (Q : A -> World -> Prop) :
  hoare P m Q -> (forall e, hoare (fun _ => True) (h e) Q) -> hoare P (try_catch m h) Q.
Proof.
  intros Hm Hh w Hw a. unfold try_catch. specialize (Hm w Hw).
  destruct (m w) as [[a'|e] w']; cbn in *; [apply Hm | by apply Hh].
Qed.


End Hoare.


(** Stable facts. *)
Lemma stable_in_r2 k : stable (in_r2 k).
Proof. intros w w' (H & _ & _). apply H. Qed.

Lemma stable_has_row id : stable (has_row id).
Proof. intros w w' (_ & H & _). apply H. Qed.


Lemma stable_and (F G : World -> Prop) : stable F -> stable G -> stable (fun w => F w /\ G w).
Proof. intros HF HG w w' Hw [? ?]. split; [by eapply HF | by eapply HG]. Qed.

Lemma stable_true : stable (fun _ => True).
Proof. done. Qed.

(** A step that adds a fact to the facts established so far. *)
Lemma hoare_step {A} (F : World -> Prop) (m : M A) (Q : A -> World -> Prop) :
  stable F -> mono m -> hoare (fun _ => True) m Q ->
  hoare F m (fun a w => F w /\ Q a w).
Proof.
  intros HF Hm HQ. apply hoare_and; [by apply hoare_stable|].
  eapply hoare_weaken; [exact HQ | done | done].
Qed.

Lemma hoare_true {A} (P : World -> Prop) (m : M A) : hoare P m (fun _ _ => True).
Proof. done. Qed.

Ltac mono_walk := apply mono_of_keeps; intros ?; keeps_walk grows_leaf.

(** What the stores hold after a call that succeeded. *)
Section Calls.

Context (env : Env).

Lemma r2_send_stores key body content_type :
  hoare (fun _ => True) (r2_send env key body content_type) (fun _ => in_r2 key).
Proof.
  intros w _ []. unfold r2_send, external, in_r2.
  destruct (fault env (w_calls w)); cbn; [discriminate|].
  intros _. by rewrite lookup_insert_eq.
Qed.

Lemma db_insert_file_stores payload :
  hoare (fun _ => True) (db_insert_file env payload)
    (fun inserted w =>
       forall row, inserted = inr row ->
         row = stored env payload
         /\ has_row (default (db_new_id env) (fr_id payload)) w).
Proof.
  intros w _ inserted. unfold db_insert_file, has_row.
  destruct (fault env (w_calls w)); cbn; intros [= <-] row [= <-].
  split; [done|]. rewrite map_app. apply elem_of_app. right. cbn. by left.
Qed.


End Calls.

(** ** The same with a postcondition for runs that throw *)

Section HoareExc.

Context {A : Type}.

Lemma hoare_exc_ret (P : World -> Prop) (a : A) (Q : A -> World -> Prop) (E : World -> Prop) :
  (forall w, P w -> Q a w) -> hoare_exc P (ret a) Q E.
Proof. intros H w Hw. by apply H. Qed.







End HoareExc.


(** ** Facts about the string functions *)

Section JsFacts.
Import Js.

Lemma str_chars s : str (chars s) = s.
Proof. apply string_of_list_ascii_of_string. Qed.

Lemma chars_str l : chars (str l) = l.
Proof. apply list_ascii_of_string_of_list_ascii. Qed.




Lemma blank_cases c :
  blank c = true ->
  c = ascii_of_N 9 \/ c = ascii_of_N 10 \/ c = ascii_of_N 11 \/ c = ascii_of_N 12
  \/ c = ascii_of_N 13 \/ c = ascii_of_N 32.
Proof.
  unfold blank. intros Hc. rewrite <- (ascii_N_embedding c).
  set (n := N_of_ascii c) in *. clearbody n.
  apply orb_true_iff in Hc as [Hc|Hc].
  - apply andb_true_iff in Hc as [H1 H2].
    apply N.leb_le in H1. apply N.leb_le in H2.
    assert (n = 9 \/ n = 10 \/ n = 11 \/ n = 12 \/ n = 13)%N as Hn by lia.
    destruct Hn as [->|[->|[->|[->| ->]]]]; auto 10.
  - apply N.eqb_eq in Hc as ->. auto 10.
Qed.

(** Every ASCII white-space character is a pattern of its own, tried before
    any pattern that could start with it. *)
Lemma strip_any_blank_start c l :
  blank c = true -> strip_any white_space (c :: l) = Some l.
Proof.
  intros Hc. destruct (blank_cases c Hc) as [->|[->|[->|[->|[->| ->]]]]]; reflexivity.
Qed.










Lemma split_l_nonempty sep l : split_l sep l <> [].
Proof.
  destruct l as [|c l]; cbn; [done|].
  destruct (Ascii.eqb c sep); [done|]. by destruct (split_l sep l).
Qed.

Lemma split_l_line sep l : sep ∉ l -> split_l sep l = [l].
Proof.
  induction l as [|c l IH]; cbn; [done|]. intros H.
  apply not_elem_of_cons in H as [Hc Hl].
  destruct (Ascii.eqb_spec c sep) as [->|]; [done|]. by rewrite IH.
Qed.

Lemma split_l_app sep x y :
  exists segs, segs <> [] /\ split_l sep (x ++ sep :: y) = segs ++ split_l sep y.
Proof.
  induction x as [|c x (segs & Hne & IH)]; cbn.
  - exists [[]]. by rewrite Ascii.eqb_refl.
  - destruct (Ascii.eqb c sep).
    + exists ([] :: segs). by rewrite IH.
    + rewrite IH. destruct segs as [|seg segs]; [done|]. cbn.
      by exists ((c :: seg) :: segs).
Qed.

Lemma last_of_app segs segs' : segs' <> [] -> last_of (segs ++ segs') = last_of segs'.
Proof.
  intros H. unfold last_of. induction segs as [|s segs IH]; cbn; [done|].
  rewrite <- IH. destruct (segs ++ segs') eqn:E; [|done].
  by apply app_eq_nil in E as [_ ->].
Qed.


End JsFacts.

(** ** Validation (C3) *)




(** ** The compensation of the direct upload (C10) *)

(** C10.  In the direct pipeline, when the row insert fails after the
    original was uploaded, the handler puts the original's key again with no
    body and answers 500 with [success: false]; the key is still in the store
    afterwards, holding an empty object if that second put went through, and
    no row was written. *)
Theorem direct_insert_failure_overwrites_original
    (env : Env) (formData : FormData) (file : File) (previews thumbnails : list string)
    (pptError : string) (w : World) :
  fd_file formData = Some file ->
  falsy (fd_title formData) = false ->
  Upload.fileType_of file ∈ Upload.allowed ->
  falsy (fd_previews formData) = false ->
  falsy (fd_thumbnails formData) = false ->
  JSON_parse_array env (default "" (fd_previews formData)) = Parses (Value previews) ->
  JSON_parse_array env (default "" (fd_thumbnails formData)) = Parses (Value thumbnails) ->
  fault env (w_calls w) = None ->
  fault env (S (w_calls w)) = Some pptError ->
  let out := Upload.POST env (Form formData) w in
  let pptKey := "ppt-files/" +:+ Js.decimal (Date_now env) +:+ "/original/" +:+ f_name file in
  (exists message,
     out.1 = Val (JsonResponse 500
                    (JObj [("success", JBool false);
                           ("message", JStr "Failed to upload file");
                           ("error", JStr message)]))) /\
  (exists row compensated,
     w_trace out.2 = w_trace w ++
       [ {| eff := R2Put pptKey (Some (f_bytes file)) (Some (f_type file)); ok := true |};
         {| eff := DbInsertFile row; ok := false |};
         {| eff := R2Put pptKey None None; ok := compensated |} ]) /\
  is_Some (w_r2 out.2 !! pptKey) /\
  (fault env (S (S (w_calls w))) = None -> w_r2 out.2 !! pptKey = Some "") /\
  w_ppt_files out.2 = w_ppt_files w.
Proof.
  intros Hfile Htitle Hext Hp Ht Hpp Hpt Hput Hins.
  unfold Upload.POST, try_catch. cbn.
  rewrite Hfile, Htitle. cbn.
  assert (Hty : String.eqb (Upload.fileType_of file) "" = false).
  { destruct (String.eqb_spec (Upload.fileType_of file) "") as [E|]; [|done].
    rewrite E in Hext. unfold Upload.allowed in Hext.
    repeat (apply elem_of_cons in Hext as [Hext|Hext]; [discriminate|]).
    by apply elem_of_nil in Hext. }
  rewrite Hty, bool_decide_eq_true_2 by done. cbn.
  unfold mbind, M_bind, bind, r2_send, external. cbn.
  rewrite Hput. cbn. rewrite Hp, Ht. cbn. rewrite Hpp, Hpt. cbn.
  unfold db_insert_file. cbn. rewrite Hins. cbn.
  destruct (fault env (S (S (w_calls w)))) as [m|] eqn:Hc; cbn.
  - repeat split; eauto.
    + rewrite <- !app_assoc. cbn. eauto.
    + rewrite lookup_insert_eq. eauto.
    + discriminate.
  - repeat split; eauto.
    + rewrite <- !app_assoc. cbn. eauto.
    + rewrite lookup_insert_eq. eauto.
    + intros _. rewrite lookup_insert_eq. done.
Qed.

(** The theorem at work: the unique-slug violation of a second upload. *)
Lemma direct_insert_failure_sample :
  let env := Fixture.env [(1%nat, "duplicate key value violates unique constraint")]
               "" None 0 in
  let out := Upload.POST env (Form direct_form) Fixture.world in
  w_r2 out.2 !! "ppt-files/1700000000000/original/deck.pptx" = Some "" /\
  w_ppt_files out.2 = [].
Proof.
  pose proof (direct_insert_failure_overwrites_original
    (Fixture.env [(1%nat, "duplicate key value violates unique constraint")] "" None 0)
    direct_form Fixture.deck
    ["data:image/jpeg;base64,AAAA"] ["data:image/jpeg;base64,BBBB"]
    "duplicate key value violates unique constraint" Fixture.world
    eq_refl eq_refl ltac:(apply (bool_decide_unpack _); vm_compute; exact I)
    eq_refl eq_refl eq_refl eq_refl
    eq_refl eq_refl) as (_ & _ & _ & Hempty & Hrows).
  split; [exact (Hempty eq_refl) | exact Hrows].
Defined.

(** ** The converter adapters (C5) *)





(** ** The temporary workspace (C9) *)





(** Only stream operations: the log and the file system stay as they are. *)
Lemma stream_tail_frame (err : Exn) w :
  let w' := (try_catch (throw err : M unit)
               (fun err => sendEvent (UploadStream.event Error (message_of err));; close) w).2 in
  w_trace w' = w_trace w /\ w_dirs w' = w_dirs w /\ w_disk w' = w_disk w.
Proof.
  unfold try_catch, throw, mbind, M_bind, bind, sendEvent, close. cbn.
  destruct (w_stream w); cbn; done.
Qed.





(** ** The page-count threshold (C4) *)







(** ** The event stream (C2) *)

Ltac streaming_leaf :=
  solve [ open_call;
          match goal with
          | Hw : streaming _ |- _ =>
              destruct Hw as [Hst Hq]; cbn in *;
              first [ by split
                    | congruence
                    | split; [done|];
                      apply Forall_app; split; [assumption|];
                      apply Forall_singleton; unfold progress; cbn; auto ]
          end ].

Lemma upload_and_record_streaming env pptId thumbnails index rest :
  keeps streaming (UploadStream.upload_and_record env pptId thumbnails index rest).
Proof.
  revert index. induction rest as [|previewPath rest IH]; intros index; cbn.
  - apply keeps_ret.
  - keeps_walk streaming_leaf.
Qed.

Lemma streaming_settled w : streaming w -> stream_settled Readable w.
Proof. intros [? ?]. split; [done | by left]. Qed.

Lemma persist_settles env file title description category subcategory tags previews thumbnails :
  leads streaming
    (UploadStream.persist env file title description category subcategory tags
       previews thumbnails)
    (stream_settled Readable).
Proof.
  unfold UploadStream.persist.
  pose proof upload_and_record_streaming.
  leads_walk streaming_leaf ltac:(apply streaming_settled).
  (* the last event *)
  intros w [Hst Hq]. unfold sendEvent. rewrite Hst. cbn.
  split; [done|]. right. eauto.
Qed.

Lemma convert_and_persist_settles env file title description category subcategory tags tempDir :
  leads streaming
    (UploadStream.convert_and_persist env file title description category subcategory tags
       tempDir)
    (stream_settled Readable).
Proof.
  unfold UploadStream.convert_and_persist, UploadStream.runPythonConverter.
  pose proof persist_settles.
  leads_walk streaming_leaf ltac:(apply streaming_settled).
Qed.

Lemma fs_rm_settled env dir st : keeps (stream_settled st) (fs_rm env dir).
Proof.
  open_call; match goal with Hw : stream_settled _ _ |- _ => exact Hw end.
Qed.

(** What the stream looks like once the [finally] block has run: the
    callback of [createStreamResponse] leaves it closed, and the [catch]
    block that was to report the error finds it closed. *)
Lemma closed_stream_stays st w :
  st <> Readable -> w_stream w = st ->
  forall err,
    (try_catch (throw err : M unit)
       (fun err => sendEvent (UploadStream.event Error (message_of err));; close) w)
    = (Exc not_readable, w).
Proof.
  intros Hst Hw err. unfold try_catch, throw, mbind, M_bind, bind, sendEvent.
  rewrite Hw. by destruct st.
Qed.

(** C2, what the code does.  The streamed handler always answers with the
    event stream and always closes it.  The stream carries progress events
    only, followed by one [Done] event with its slug when the pipeline
    succeeded.  An [Error] event is never delivered: on every failure the
    [finally] block has closed the stream before the [catch] block of
    [createStreamResponse] tries to send it. *)
Theorem stream_closes_without_error_event (env : Env) (formData : FormData) (w : World) :
  let out := UploadStream.POST env (Form formData) w in
  out.1 = Val EventStream /\ stream_settled Closed out.2.
Proof.
  cbn zeta. destruct (UploadStream.POST env (Form formData) w) as [r wf] eqn:E. cbn [fst snd].
  unfold UploadStream.POST in E. unfold try_catch at 1 in E.
  unfold UploadStream.createStreamResponse, UploadStream.callback, try_local in E.
  set (w0 := set_stream Readable [] w) in E.
  assert (H0 : streaming w0) by (split; [done | constructor]).
  unfold try_catch at 1 in E.
  match type of E with context [match ?init w0 with _ => _ end] =>
    assert (Hinit : keeps streaming init);
    [ keeps_walk streaming_leaf
    | specialize (Hinit w0 H0); destruct (init w0) as [[[file tempDir]|e] w1] ]
  end; cbn [snd] in Hinit.
  - (* staged *)
    unfold finally, UploadStream.cleanup, mbind, M_bind, bind in E.
    cbn [fmap option_fmap option_map snd] in E.
    match type of E with context [try_catch ?body ?h w1] =>
      assert (Hbody : stream_settled Readable (try_catch body h w1).2);
      [ unfold try_catch;
        pose proof (convert_and_persist_settles env file (default "" (fd_title formData))
                      (fd_description formData) (fd_category formData)
                      (fd_subcategory formData)
                      (if falsy (fd_tags formData) then "" else default "" (fd_tags formData))
                      tempDir w1 Hinit) as Hb;
        destruct (UploadStream.convert_and_persist _ _ _ _ _ _ _ _ w1) as [[[]|e] w2];
        exact Hb
      | destruct (try_catch body h w1) as [r2 w2] ]
    end.
    cbn [snd] in Hbody.
    pose proof (fs_rm_settled env tempDir Readable w2 Hbody) as Hrm.
    unfold try_catch at 1 in E.
    destruct (fs_rm env tempDir w2) as [[[]|e3] w3]; cbn in Hrm, E.
    all: destruct Hrm as [Hst Hq]; unfold close, sendEvent in E; rewrite Hst in E; cbn in E.
    all: destruct r2; cbn in E; injection E as <- <-; by repeat split.
  - (* not staged *)
    destruct Hinit as [Hst Hq].
    unfold finally, UploadStream.cleanup, mbind, M_bind, bind, throw, ret, close in E.
    cbn in E. rewrite Hst in E. cbn in E. unfold sendEvent in E. cbn in E.
    injection E as <- <-. split; [done|]. split; [done | by left].
Qed.

(** C2 fails on the code: a request without a file ends with a closed stream
    that carried no event at all, where the claim promises a terminal
    [Error] event before the close. *)
Lemma missing_file_ends_without_event :
  let out :=
    UploadStream.POST (Fixture.env [] converting (Some 2) 2)
      (Form (Fixture.form None (Some "Q3 Review") (Some "Business & Corporate")))
      Fixture.world in
  out.1 = Val EventStream /\ w_stream out.2 = Closed /\ w_queue out.2 = [].
Proof. by vm_compute. Qed.

(** The success path does end with [Done]: a two-page deck. *)
Lemma two_page_deck_ends_with_done :
  let out :=
    UploadStream.POST (Fixture.env [] converting (Some 2) 2) (Form deck_form)
      Fixture.world in
  w_stream out.2 = Closed /\
  last (w_queue out.2)
  = Some {| ev_status := Done; ev_message := "所有任务已成功完成！";
            ev_slug := Some "q3-review-1700000000000" |}.
Proof. by vm_compute. Qed.

(** ** Failing inserts (C6) *)

(** C6 fails on the code, in the direct pipeline: the result of the
    preview-row insert is never looked at.  Here the insert of the only
    preview row (the fifth call) fails; the handler still answers 200 with
    [success: true], and the file row stays without preview rows. *)
Lemma direct_upload_ignores_failed_preview_insert :
  let env := Fixture.env [(4%nat, "insert or update on table violates foreign key constraint")]
               "" None 0 in
  let out := Upload.POST env (Form direct_form) Fixture.world in
  (exists rows,
     w_trace out.2 !! 4%nat = Some {| eff := DbInsertPreviews rows; ok := false |})
  /\ (exists data,
        out.1 = Val (JsonResponse 200
                       (JObj [("success", JBool true);
                              ("message", JStr "File uploaded successfully");
                              ("data", data)])))
  /\ length (w_ppt_files out.2) = 1%nat
  /\ w_ppt_previews out.2 = [].
Proof. vm_compute. repeat split; eauto. Qed.

(** In the streamed pipeline a failing row insert does stop the pipeline,
    but nothing tells the caller: the stream just closes (the defect behind
    C2). *)
Lemma streamed_insert_failure_is_silent :
  let env := Fixture.env [(13%nat, "duplicate key value violates unique constraint")]
               converting (Some 2) 2 in
  let out := UploadStream.POST env (Form deck_form) Fixture.world in
  (exists row, w_trace out.2 !! 13%nat = Some {| eff := DbInsertFile row; ok := false |})
  /\ w_stream out.2 = Closed
  /\ Forall (fun ev => ev_status ev = Info \/ ev_status ev = Processing) (w_queue out.2).
Proof.
  vm_compute. split; [eauto | split; [done|]].
  repeat (constructor; [first [by left | by right] |]). constructor.
Qed.

(** The AI-assisted pipeline does surface it: whenever the insert of the
    page rows fails, the answer is a 500 that carries the message or says
    that the error is unknown. *)
Lemma ai_insert_failure_sample :
  let env := Fixture.env [(15%nat, "canceling statement due to statement timeout")]
               "" (Some 12) 1 in
  (ProcessPpt.POST env (Form deck_form) Fixture.world).1
  = Val (JsonResponse 500
           (JObj [("error", JStr "Processing failed");
                  ("details", JStr "An unknown error occurred")])).
Proof. by vm_compute. Qed.

(** ** The log of the AI-assisted pipeline *)

Section AiShape.

Context (env : Env).

Ltac staging_leaf := extends_leaf ltac:(by cbn).

Lemma log_all_extends φ w : log_all φ w <-> extends [] φ w.
Proof.
  unfold log_all, extends. split.
  - intros H. by exists (w_trace w).
  - intros (ext & -> & H). exact H.
Qed.

Lemma ai_stage_and_convert_staging file tempDir tempFilePath :
  keeps (extends [] ai_staging) (ProcessPpt.stage_and_convert env file tempDir tempFilePath).
Proof.
  unfold ProcessPpt.stage_and_convert, ProcessPpt.convert, ProcessPpt.runPythonScript,
    ProcessPpt.getS3Client, ProcessPpt.getSupabaseClient.
  keeps_walk staging_leaf.
Qed.

Lemma ai_classify_staging text name tempFilePath :
  keeps (extends [] ai_staging) (ProcessPpt.runPythonScript env "extract_text.py" [tempFilePath])
  /\ keeps (extends [] ai_staging) (ProcessPpt.getAiMetadata env text name).
Proof.
  unfold ProcessPpt.runPythonScript, ProcessPpt.getAiMetadata.
  split; keeps_walk staging_leaf.
Qed.

Lemma ai_key_page id name n : 1 <= n -> ai_key id name (ProcessPpt.page_key id n).
Proof. intros H. right. right. exists n. auto. Qed.

Lemma ai_key_page_thumb id name n : 1 <= n -> ai_key id name (ProcessPpt.page_thumb_key id n).
Proof. intros H. right. right. exists n. auto. Qed.

Lemma ai_upload_pages_assets base id name thumbnails i rest :
  keeps (extends base (ai_asset id name)) (ProcessPpt.upload_pages env id thumbnails i rest).
Proof.
  revert i. induction rest as [|previewPath rest IH]; intros i; cbn [ProcessPpt.upload_pages].
  - apply keeps_ret.
  - unfold ProcessPpt.uploadToR2.
    keeps_walk ltac:(extends_leaf ltac:(cbn; first [done | apply ai_key_page; lia
                                                   | apply ai_key_page_thumb; lia])).
Qed.


Lemma runPythonScript_returns script args :
  returns (ProcessPpt.runPythonScript env script args)
    (fun stdout => exists stderr written,
       spawn env script args = Exits (Some 0) stdout stderr written).
Proof.
  intros w stdout. unfold ProcessPpt.runPythonScript, spawn_python, mbind, M_bind, bind.
  destruct (spawn env script args) as [err|code out stderr written]; cbn; [discriminate|].
  case_bool_decide as Hcode; cbn; [|discriminate].
  intros [= <-]. subst code. eauto.
Qed.

Lemma stage_and_convert_returns file tempDir tempFilePath :
  returns (ProcessPpt.stage_and_convert env file tempDir tempFilePath) (converter_gave env).
Proof.
  unfold ProcessPpt.stage_and_convert, ProcessPpt.convert.
  apply returns_bind; intros _. apply returns_bind; intros _.
  destruct (falsy _); [apply returns_throw|].
  apply returns_bind; intros _. apply returns_bind; intros _.
  eapply returns_bind_with; [apply runPythonScript_returns|].
  intros stdout (stderr & written & Hrun).
  destruct (JSON_parse_conversion env (Js.trim stdout)) as [m|[| |data]] eqn:Hparse;
    first [apply returns_throw | apply returns_ret; by repeat eexists].
Qed.


Lemma uploadToR2_returns key body contentType :
  returns (ProcessPpt.uploadToR2 env key body contentType) (eq key).
Proof.
  unfold ProcessPpt.uploadToR2. apply returns_bind; intros _. by apply returns_ret.
Qed.

Lemma fs_rm_logs path w :
  exists b, w_trace (fs_rm env path w).2 = w_trace w ++ [{| eff := FsRm path; ok := b |}].
Proof.
  unfold fs_rm, external. destruct (on_disk path w); [destruct (fault env _)|]; cbn; eauto.
Qed.

Lemma fs_rm_extends base φ path :
  (forall b, φ {| eff := FsRm path; ok := b |}) -> keeps (extends base φ) (fs_rm env path).
Proof.
  intros Hφ w (ext & Htr & Hext). destruct (fs_rm_logs path w) as [b Hb].
  exists (ext ++ [{| eff := FsRm path; ok := b |}]). split.
  - by rewrite Hb, Htr, <- app_assoc.
  - apply Forall_app. split; [exact Hext | by apply Forall_singleton].
Qed.

Section Assets.

Context (file : File).
Let id := db_new_id env.
Let name := f_name file.

Ltac asset_leaf :=
  extends_leaf ltac:(cbn; first [done | by left | by (right; left)]).

Lemma ai_upload_and_finalize base tempDir tempFilePath metadata payload previews thumbnails :
  fr_id payload = None ->
  leads (extends base (ai_asset id name))
    (ProcessPpt.upload_and_finalize env file tempDir tempFilePath metadata
       (stored env payload) previews thumbnails)
    (fun w => exists rest, w_trace w = base ++ rest /\ ai_rest id name rest).
Proof.
  intros Hid.
  assert (Hweak : forall w, extends base (ai_asset id name) w ->
            exists rest, w_trace w = base ++ rest /\ ai_rest id name rest).
  { intros w (ext & Htr & Hext). exists ext. split; [done | by left]. }
  unfold ProcessPpt.upload_and_finalize. cbn zeta.
  replace (show (fr_id (stored env payload))) with id by (cbn; by rewrite Hid).
  apply leads_bind; [keeps_walk asset_leaf | intros original | exact Hweak].
  eapply leads_bind_with;
    [unfold ProcessPpt.uploadToR2; keeps_walk asset_leaf | apply uploadToR2_returns | | exact Hweak].
  intros originalFileKey <-.
  apply leads_bind; [keeps_walk asset_leaf | intros firstPreview | exact Hweak].
  apply leads_bind; [keeps_walk asset_leaf | intros thumbnailBuffer | exact Hweak].
  eapply leads_bind_with;
    [unfold ProcessPpt.uploadToR2; keeps_walk asset_leaf | apply uploadToR2_returns | | exact Hweak].
  intros thumbnailKey <-.
  apply leads_bind; [apply ai_upload_pages_assets | intros previewRecords | exact Hweak].
  intros w (ext & Htr & Hext).
  unfold mbind, M_bind, bind, db_insert_previews.
  destruct (fault env (w_calls w)) as [msg|] eqn:Hfault; cbn.
  - exists (ext ++ [{| eff := DbInsertPreviews previewRecords; ok := false |}]). split.
    + by rewrite Htr, <- app_assoc.
    + left. apply Forall_app. split; [exact Hext | by apply Forall_singleton].
  - unfold db_update_file. cbn.
    destruct (fault env (S (w_calls w))); cbn.
    all: match goal with
         | |- context [fs_rm _ ?dir ?w1] =>
             destruct (fs_rm_logs dir w1) as [b Hb]; revert Hb;
             destruct (fs_rm env dir w1) as [[[]|e] w2]
         end.
    all: cbn; intros ->; rewrite Htr.
    all: eexists; split; [rewrite <- !app_assoc; reflexivity|].
    all: right; exists ext; do 2 eexists; eexists [_].
    all: split; [reflexivity | split; [exact Hext | by apply Forall_singleton]].
Qed.


Lemma ai_staging_shape request w :
  extends [] ai_staging w -> ai_shape env request (w_trace w).
Proof. intros (ext & -> & Hext). by left. Qed.

Lemma ai_classify_and_store request tempDir tempFilePath pageCount previews thumbnails :
  file_of request = Some file -> ai_converted env pageCount ->
  leads (extends [] ai_staging)
    (ProcessPpt.classify_and_store env file tempDir tempFilePath pageCount previews thumbnails)
    (fun w => ai_shape env request (w_trace w)).
Proof.
  intros Hfile Hconv. unfold ProcessPpt.classify_and_store.
  destruct (ai_classify_staging "" (f_name file) tempFilePath) as [Hrun _].
  apply leads_bind; [exact Hrun | intros extractedText | apply ai_staging_shape].
  destruct (ai_classify_staging extractedText (f_name file) tempFilePath) as [_ Hai].
  apply leads_bind; [exact Hai | intros metadata | apply ai_staging_shape].
  assert (Hstore :
    leads (extends [] ai_staging)
      (db_insert_file env (ProcessPpt.initial_row env file metadata pageCount) ≫= λ inserted,
         match inserted with
         | inl insertError => throw (PostgrestError insertError)
         | inr pptFileData =>
             ProcessPpt.upload_and_finalize env file tempDir tempFilePath metadata pptFileData
               previews thumbnails
         end)
      (fun w => ai_shape env request (w_trace w))).
  { intros w (ext & Htr & Hext). cbn in Htr.
    unfold mbind, M_bind, bind, db_insert_file.
    destruct (fault env (w_calls w)) as [msg|]; cbn.
    - right. exists file, metadata, pageCount, ext, false, [].
      repeat split; [done | done | | done | constructor].
      cbn. by rewrite Htr.
    - match goal with
      | |- context [ProcessPpt.upload_and_finalize _ _ _ _ _ _ _ _ ?w1] =>
          destruct (ai_upload_and_finalize (w_trace w1) tempDir tempFilePath metadata
                      (ProcessPpt.initial_row env file metadata pageCount)
                      previews thumbnails eq_refl w1) as (rest & Hrest & Hshape);
            [exists []; split; [by rewrite app_nil_r | constructor] |]
      end.
      rewrite Hrest. right. exists file, metadata, pageCount, ext, true, rest.
      repeat split; [done | done | | done | done].
      cbn. by rewrite Htr, <- app_assoc. }
  destruct metadata; [apply leads_throw, ai_staging_shape | exact Hstore | exact Hstore].
Qed.

Lemma ai_process request tempDir :
  file_of request = Some file ->
  leads (extends [] ai_staging) (ProcessPpt.process env file tempDir)
    (fun w => ai_shape env request (w_trace w)).
Proof.
  intros Hfile. unfold ProcessPpt.process. cbn zeta.
  eapply leads_bind_with;
    [ apply ai_stage_and_convert_staging | apply stage_and_convert_returns |
    | apply ai_staging_shape ].
  intros previewData (input & output & stdout & stderr & written & Hrun & Hparse).
  destruct (ProcessPpt.pageCount_of previewData <? 10) eqn:Hcount.
  - apply leads_keeps; [apply ai_staging_shape|].
    apply keeps_bind; [by apply fs_rm_extends | intros _; apply keeps_ret].
  - assert (Hconv : ai_converted env (ProcessPpt.pageCount_of previewData)).
    { exists input, output, stdout, stderr, written, previewData.
      repeat split; [done | done | lia]. }
    destruct previewData as [| |[pages [[|previewPath paths]|] thumbnails]];
      first [ apply leads_throw, ai_staging_shape | by apply ai_classify_and_store ].
Qed.

End Assets.

Lemma ai_shape_rm request tr path b :
  ai_shape env request tr -> ai_shape env request (tr ++ [{| eff := FsRm path; ok := b |}]).
Proof.
  intros [H | (file & metadata & pageCount & staging & inserted & rest
               & Hfile & Hconv & -> & Hst & Hrest)].
  - left. apply Forall_app. split; [exact H | by apply Forall_singleton].
  - right.
    exists file, metadata, pageCount, staging, inserted,
      (rest ++ [{| eff := FsRm path; ok := b |}]).
    repeat split; [done | done | by rewrite <- app_assoc | done |].
    destruct inserted.
    + destruct Hrest as [H | (assets & rows & updated & rms & -> & Hassets & Hrms)].
      * left. apply Forall_app. split; [exact H | by apply Forall_singleton].
      * right. exists assets, rows, updated, (rms ++ [{| eff := FsRm path; ok := b |}]).
        split; [by rewrite <- !app_assoc | split; [done|]].
        apply Forall_app. split; [exact Hrms | by apply Forall_singleton].
    + apply Forall_app. split; [exact Hrest | by apply Forall_singleton].
Qed.

(** Every run of the AI-assisted handler logs a trace of the shape
    [ai_shape]. *)
Lemma ai_log_shape request w :
  ai_shape env request (w_trace (ProcessPpt.POST env request (start w)).2).
Proof.
  set (Q := fun w' => ai_shape env request (w_trace w')).
  assert (Hrm : forall path, keeps Q (fs_rm env path)).
  { intros path w' H. destruct (fs_rm_logs path w') as [b Hb]. unfold Q. rewrite Hb.
    by apply ai_shape_rm. }
  assert (H : leads (extends [] ai_staging) (ProcessPpt.POST env request) Q).
  { unfold ProcessPpt.POST. apply leads_try_catch; [|intros e; apply keeps_ret].
    destruct request as [e|formData]; [apply leads_throw, ai_staging_shape|].
    destruct (fd_file formData) as [file|] eqn:Hfile; [|apply leads_ret, ai_staging_shape].
    destruct (f_size file >? maxSize); [apply leads_ret, ai_staging_shape|].
    apply leads_try_local.
    - keeps_walk ltac:(extends_leaf ltac:(by cbn)).
    - intros tempDir. by apply ai_process.
    - intros e. apply keeps_ret.
    - intros [dir|]; cbn; [|apply keeps_ret].
      apply keeps_try_catch; [apply Hrm | intros e; apply keeps_ret].
    - apply ai_staging_shape. }
  apply H. exists []. split; [done | constructor].
Qed.

End AiShape.

(** ** The log of the streamed pipeline *)

Section StreamShape.

Context (env : Env).

(** Predicates of the log alone are kept by the stream's controller. *)
Section LogOnly.

Context (T : list Entry -> Prop).

Lemma keeps_log_sendEvent ev : keeps (fun w => T (w_trace w)) (sendEvent ev).
Proof. intros w H. unfold sendEvent. by destruct (w_stream w). Qed.

Lemma keeps_log_close : keeps (fun w => T (w_trace w)) close.
Proof. intros w H. unfold close. by destruct (w_stream w). Qed.

Lemma keeps_log_rm path :
  (forall tr b, T tr -> T (tr ++ [{| eff := FsRm path; ok := b |}])) ->
  keeps (fun w => T (w_trace w)) (fs_rm env path).
Proof. intros HT w H. destruct (fs_rm_logs env path w) as [b ->]. by apply HT. Qed.

Lemma leads_createStreamResponse (P : World -> Prop) cb :
  (forall w, P w -> P (set_stream Readable [] w)) ->
  leads P cb (fun w => T (w_trace w)) ->
  leads P (UploadStream.createStreamResponse cb) (fun w => T (w_trace w)).
Proof.
  intros HP Hcb w Hw. unfold UploadStream.createStreamResponse.
  match goal with
  | |- context [try_catch cb ?h ?w0] =>
      assert (H : T (w_trace (try_catch cb h w0).2));
      [ apply (leads_try_catch P (fun w' => T (w_trace w')) cb h Hcb); [|by apply HP];
        intros e; apply keeps_bind; [apply keeps_log_sendEvent | intros _; apply keeps_log_close]
      | destruct (try_catch cb h w0) as [[r|e] w'] ]
  end; cbn in *; [done | by destruct (w_stream w')].
Qed.

End LogOnly.

Lemma st_pre_shape request w :
  extends [] (st_pre env request) w -> st_shape env request (w_trace w).
Proof. intros (ext & -> & Hext). by left. Qed.

Lemma st_shape_rm request tr path b :
  st_shape env request tr -> st_shape env request (tr ++ [{| eff := FsRm path; ok := b |}]).
Proof.
  intros [H | (file & title & description & category & subcategory & tags & previews
               & thumbnails & records & pre & inserted & tail
               & Hfile & Hconv & Hlen & -> & Hpre & Htail)].
  - left. apply Forall_app. split; [exact H | by apply Forall_singleton].
  - right.
    exists file, title, description, category, subcategory, tags, previews, thumbnails,
      records, pre, inserted, (tail ++ [{| eff := FsRm path; ok := b |}]).
    repeat split; [done | done | done | by rewrite <- app_assoc | done |].
    apply Forall_app. split; [exact Htail | by apply Forall_singleton].
Qed.

Lemma runPythonConverter_returns inputPath outputPath :
  returns (UploadStream.runPythonConverter env inputPath outputPath)
    (fun result => exists stdout stderr written,
       spawn env "./convert.py" [inputPath; outputPath] = Exits (Some 0) stdout stderr written
       /\ JSON_parse_conversion env (Js.last_line stdout) = Parses result).
Proof.
  intros w result.
  unfold UploadStream.runPythonConverter, spawn_python, mbind, M_bind, bind.
  destruct (spawn env "./convert.py" [inputPath; outputPath])
    as [err|code out stderr written]; cbn; [discriminate|].
  case_bool_decide as Hcode; cbn; [|discriminate]. subst code.
  destruct (JSON_parse_conversion env (Js.last_line out)) eqn:Hparse; cbn; [discriminate|].
  intros [= <-]. eauto.
Qed.

Lemma upload_and_record_returns pptId thumbnails index rest :
  returns (UploadStream.upload_and_record env pptId thumbnails index rest)
    (fun records => length records = length rest).
Proof.
  revert index. induction rest as [|previewPath rest IH]; intros index;
    cbn [UploadStream.upload_and_record].
  - by apply returns_ret.
  - destruct (thumbnails !! index); [|apply returns_throw]. cbn zeta.
    do 4 (apply returns_bind; intros ?).
    eapply returns_bind_with; [apply IH|].
    intros records Hlen. apply returns_ret. cbn. by rewrite Hlen.
Qed.

Section Request.

Context (request : Request) (file : File) (Hfile : file_of request = Some file).

Ltac pre_leaf :=
  extends_leaf ltac:(cbn; first [done | exists file; split; [exact Hfile|];
                                        first [by left | right; by eexists]]).

Lemma st_upload_and_record base thumbnails index rest :
  keeps (extends base (st_pre env request))
    (UploadStream.upload_and_record env (uuidv4 env) thumbnails index rest).
Proof.
  revert index. induction rest as [|previewPath rest IH]; intros index;
    cbn [UploadStream.upload_and_record].
  - apply keeps_ret.
  - keeps_walk pre_leaf.
Qed.

Lemma st_persist title description category subcategory tags previews thumbnails :
  st_converted env previews thumbnails ->
  leads (extends [] (st_pre env request))
    (UploadStream.persist env file title description category subcategory tags
       previews thumbnails)
    (fun w => st_shape env request (w_trace w)).
Proof.
  intros Hconv. unfold UploadStream.persist. cbn zeta. unfold UploadStream.original_key at 1.
  do 4 (apply leads_bind; [keeps_walk pre_leaf | intros _ | apply st_pre_shape]).
  eapply leads_bind_with;
    [apply st_upload_and_record | apply upload_and_record_returns | | apply st_pre_shape].
  intros records Hlen.
  do 2 (apply leads_bind; [keeps_walk pre_leaf | intros _ | apply st_pre_shape]).
  set (row := UploadStream.file_row env file title description category subcategory tags
                records).
  assert (Htail : forall inserted (m : M unit),
            (forall pre,
               keeps (extends (pre ++ [{| eff := DbInsertFile row; ok := inserted |}]) st_tail)
                 m) ->
            leads (fun w1 => exists w, extends [] (st_pre env request) w /\
                     w_trace w1
                     = w_trace w ++ [{| eff := DbInsertFile row; ok := inserted |}])
              m (fun w => st_shape env request (w_trace w))).
  { intros inserted m Hm w1 (w & (pre & Htr & Hpre) & Hw1). cbn in Htr.
    destruct (Hm pre w1) as (tail & Htr1 & Htail);
      [exists []; by rewrite app_nil_r, Hw1, Htr|].
    right.
    exists file, title, description, category, subcategory, tags, previews, thumbnails,
      records, pre, inserted, tail.
    repeat split; [done | done | done | by rewrite Htr1, <- app_assoc | done | done]. }
  apply leads_db_insert_file; [intros msg|]; apply Htail; intros pre.
  - apply keeps_throw.
  - keeps_walk ltac:(extends_leaf ltac:(by cbn)).
Qed.

Lemma st_convert_and_persist title description category subcategory tags tempDir :
  leads (extends [] (st_pre env request))
    (UploadStream.convert_and_persist env file title description category subcategory tags
       tempDir)
    (fun w => st_shape env request (w_trace w)).
Proof.
  unfold UploadStream.convert_and_persist. cbn zeta.
  do 5 (apply leads_bind; [keeps_walk pre_leaf | intros _ | apply st_pre_shape]).
  eapply leads_bind_with;
    [ unfold UploadStream.runPythonConverter; keeps_walk pre_leaf
    | apply runPythonConverter_returns | | apply st_pre_shape ].
  intros result (stdout & stderr & written & Hrun & Hparse).
  destruct result as [| |[pages [previews|] [thumbnails|]]];
    try apply leads_throw, st_pre_shape.
  destruct (length previews =? length thumbnails)%nat eqn:Hlen; cbn [negb];
    [|apply leads_throw, st_pre_shape].
  apply leads_bind; [keeps_walk pre_leaf | intros _ | apply st_pre_shape].
  apply st_persist. repeat eexists; [exact Hrun | exact Hparse | by apply Nat.eqb_eq].
Qed.

End Request.

(** Every run of the streamed handler logs a trace of the shape
    [st_shape]. *)
Lemma st_log_shape request w :
  st_shape env request (w_trace (UploadStream.POST env request (start w)).2).
Proof.
  set (Q := fun w' => st_shape env request (w_trace w')).
  assert (H : leads (extends [] (st_pre env request)) (UploadStream.POST env request) Q).
  { unfold UploadStream.POST. apply leads_try_catch; [|intros e; apply keeps_ret].
    destruct request as [e|formData]; [apply leads_throw, st_pre_shape|].
    apply (leads_createStreamResponse (st_shape env (Form formData))); [by intros w' H|].
    unfold UploadStream.callback. cbn zeta.
    apply (leads_try_local_with _ _ _ _ _ _ (fun staged => fd_file formData = Some staged.1)).
    - keeps_walk ltac:(extends_leaf ltac:(by cbn)).
    - destruct (fd_file formData) as [file|]; [|apply returns_throw].
      repeat (match goal with |- returns (if ?b then _ else _) _ => destruct b end;
              [apply returns_throw|]).
      do 2 (apply returns_bind; intros ?). by apply returns_ret.
    - intros [file tempDir] Hfile. by apply st_convert_and_persist.
    - intros e. apply keeps_throw.
    - intros staged. unfold UploadStream.cleanup.
      apply keeps_bind; [|intros _; apply (keeps_log_close (st_shape env (Form formData)))].
      destruct staged as [[file dir]|]; cbn; [|apply keeps_ret].
      apply keeps_try_catch; [|intros e; apply keeps_ret].
      apply (keeps_log_rm (st_shape env (Form formData))). intros tr b. apply st_shape_rm.
    - apply st_pre_shape. }
  apply H. exists []. split; [done | constructor].
Qed.

End StreamShape.

(** ** The log of the direct pipeline *)

Section DirectShape.

Context (env : Env).

Lemma direct_upload_pages base pptData thumbnails i rest :
  keeps (extends base (direct_page env))
    (Upload.upload_pages env (Date_now env) pptData thumbnails i rest).
Proof.
  revert i. induction rest as [|preview rest IH]; intros i; cbn [Upload.upload_pages].
  - apply keeps_ret.
  - unfold Upload.data_url_body.
    keeps_walk ltac:(extends_leaf ltac:(cbn; first [done | exists i; by left
                                                   | exists i; by right])).
Qed.

(** Every run of the direct handler logs a trace of the shape
    [direct_shape]. *)
Lemma direct_log_shape request w :
  direct_shape env request (w_trace (Upload.POST env request (start w)).2).
Proof.
  set (Q := fun w' => direct_shape env request (w_trace w')).
  assert (Hnone : forall w', w_trace w' = [] -> Q w') by (intros w' H; by left).
  assert (H : leads (fun w' => w_trace w' = []) (Upload.POST env request) Q).
  { unfold Upload.POST. apply leads_try_catch; [|intros e; apply keeps_ret].
    destruct request as [e|formData] eqn:Hreq; [by apply leads_throw|]. cbn zeta.
    destruct (fd_file formData) as [file|] eqn:Hfile; [|by apply leads_ret].
    destruct (falsy (fd_title formData)); [by apply leads_ret|].
    destruct (_ || _); [by apply leads_ret|].
    set (pptKey := Upload.original_key (Date_now env) file).
    set (put := fun uploaded =>
           {| eff := R2Put pptKey (Some (f_bytes file)) (Some (f_type file));
              ok := uploaded |}).
    assert (Hput : forall uploaded w', w_trace w' = [put uploaded] -> Q w').
    { intros uploaded w' H. right. exists formData, file, uploaded.
      split; [done | split; [done | by left]]. }
    apply leads_r2_send_at; [apply Hput|].
    destruct (_ || _); [apply leads_ret, Hput|].
    destruct (JSON_parse_array env (default "" (fd_previews formData)))
      as [m|previews] eqn:Hpreviews; [apply leads_throw, Hput|].
    destruct (JSON_parse_array env (default "" (fd_thumbnails formData)))
      as [m|thumbnails]; [apply leads_throw, Hput|].
    destruct previews as [| |previews]; try apply leads_ret, Hput.
    destruct thumbnails as [| |thumbnails]; try apply leads_ret, Hput.
    cbn zeta.
    set (row := Upload.file_row formData file pptKey (Z.of_nat (length previews))).
    assert (Hrow : forall w',
              (exists undone,
                 w_trace w' = [put true; {| eff := DbInsertFile row; ok := false |};
                               {| eff := R2Put pptKey None None; ok := undone |}]) \/
              (exists pages,
                 w_trace w' = put true :: {| eff := DbInsertFile row; ok := true |} :: pages
                 /\ Forall (direct_page env) pages) -> Q w').
    { intros w' H. right. exists formData, file, true.
      split; [done | split; [done | right]]. exists previews.
      split; [done | split; [done | exact H]]. }
    apply leads_db_insert_file_at.
    - intros msg. apply leads_r2_send_at.
      + intros w' H. apply Hrow. left. eexists. by rewrite H.
      + apply leads_throw. intros w' H. apply Hrow. left. eexists. by rewrite H.
    - intros w' Hw'.
      match goal with
      | |- Q ((?m ≫= ?k) w').2 =>
          assert (Hm : keeps (extends (w_trace w') (direct_page env)) (m ≫= k))
      end.
      { apply keeps_bind; [apply direct_upload_pages | intros _; apply keeps_ret]. }
      destruct (Hm w') as (pages & Htr & Hpages); [exists []; by rewrite app_nil_r|].
      apply Hrow. right. exists pages. split; [|done].
      by rewrite Htr, Hw'. }
  by apply H.
Qed.

End DirectShape.

(** ** What the shapes say about each entry *)

Section Entries.

Context (env : Env) (request : Request).

Ltac by_effect a :=
  let e := fresh "e" in
  let b := fresh "b" in
  destruct a as [e b]; destruct e; cbn in *; try done.

Lemma is_rm_entry_ok p a : is_rm a -> entry_ok p env request a.
Proof. intros H. unfold entry_ok. by_effect a. Qed.

Lemma ai_staging_entry_ok a : ai_staging a -> entry_ok AiAssisted env request a.
Proof. intros H. unfold entry_ok. by_effect a. Qed.

Lemma ai_asset_entry_ok file a :
  file_of request = Some file ->
  ai_asset (db_new_id env) (f_name file) a -> entry_ok AiAssisted env request a.
Proof.
  intros Hfile H. unfold entry_ok. by_effect a.
  destruct body as [body|]; [|done]. destruct content_type; [|done].
  exists file. by repeat split.
Qed.

Lemma ai_entries tr : ai_shape env request tr -> Forall (entry_ok AiAssisted env request) tr.
Proof.
  intros [H | (file & metadata & pageCount & staging & inserted & rest
               & Hfile & Hconv & -> & Hst & Hrest)].
  { eapply Forall_impl; [exact H | apply ai_staging_entry_ok]. }
  apply Forall_app. split; [eapply Forall_impl; [exact Hst | apply ai_staging_entry_ok]|].
  constructor; [exists file; by repeat split|].
  destruct inserted; [|eapply Forall_impl; [exact Hrest | apply is_rm_entry_ok]].
  destruct Hrest as [H | (assets & rows & updated & rms & -> & Hassets & Hrms)].
  { eapply Forall_impl; [exact H | intros a; by apply (ai_asset_entry_ok file)]. }
  apply Forall_app. split; [eapply Forall_impl; [exact Hassets | intros a; by apply (ai_asset_entry_ok file)]|].
  constructor; [done|]. constructor; [|eapply Forall_impl; [exact Hrms | apply is_rm_entry_ok]].
  repeat split. by exists file.
Qed.

Lemma st_pre_entry_ok a : st_pre env request a -> entry_ok Streamed env request a.
Proof.
  intros H. unfold entry_ok. by_effect a.
  destruct body as [body|]; [|done]. destruct content_type; [|done].
  destruct H as (file & Hfile & Hkey). exists file. by repeat split.
Qed.

Lemma st_tail_entry_ok a : st_tail a -> entry_ok Streamed env request a.
Proof. intros H. unfold entry_ok. by_effect a. Qed.

Lemma st_entries tr : st_shape env request tr -> Forall (entry_ok Streamed env request) tr.
Proof.
  intros [H | (file & title & description & category & subcategory & tags & previews
               & thumbnails & records & pre & inserted & tail
               & Hfile & Hconv & Hlen & -> & Hpre & Htail)].
  { eapply Forall_impl; [exact H | apply st_pre_entry_ok]. }
  apply Forall_app. split; [eapply Forall_impl; [exact Hpre | apply st_pre_entry_ok]|].
  constructor; [|eapply Forall_impl; [exact Htail | apply st_tail_entry_ok]].
  exists file. split; [done|]. split; [done|].
  exists previews, thumbnails. split; [done|]. cbn. by rewrite Hlen.
Qed.

Lemma direct_page_entry_ok file a :
  file_of request = Some file -> direct_page env a -> entry_ok Direct env request a.
Proof.
  intros Hfile H. unfold entry_ok. by_effect a.
  destruct body as [body|]; [|done]. destruct content_type; [|done].
  exists file. split; [done|]. split; [by right | done].
Qed.

Lemma direct_entries tr : direct_shape env request tr -> Forall (entry_ok Direct env request) tr.
Proof.
  intros [-> | (formData & file & uploaded & Hreq & Hfile & H)]; [constructor|].
  assert (Hfile' : file_of request = Some file) by (by rewrite Hreq).
  assert (Hput : forall body content_type b,
            entry_ok Direct env request
              {| eff := R2Put (Upload.original_key (Date_now env) file) body content_type;
                 ok := b |}).
  { intros body content_type b. exists file. split; [done|]. split; [by left | done]. }
  cbn zeta in H.
  destruct H as [-> | (previews & Hparse & -> & [(undone & ->) | (pages & -> & Hpages)])].
  - constructor; [apply Hput | constructor].
  - assert (Hrow : entry_ok Direct env request
                     {| eff := DbInsertFile
                                 (Upload.file_row formData file
                                    (Upload.original_key (Date_now env) file)
                                    (Z.of_nat (length previews)));
                        ok := false |}).
    { exists file. split; [done|]. split; [done|]. by exists formData, previews. }
    repeat (constructor; [first [apply Hput | exact Hrow]|]). constructor.
  - constructor; [apply Hput|]. constructor.
    + exists file. split; [done|]. split; [done|]. by exists formData, previews.
    + eapply Forall_impl; [exact Hpages | intros a; by apply (direct_page_entry_ok file)].
Qed.

(** Every call logged by a run of pipeline [p] has the form [entry_ok]. *)
Lemma entries_ok p w :
  Forall (entry_ok p env request) (w_trace (handle p env request (start w)).2).
Proof.
  destruct p; cbn [handle].
  - apply direct_entries, direct_log_shape.
  - apply st_entries, st_log_shape.
  - apply ai_entries, ai_log_shape.
Qed.

End Entries.

(** ** The order of the row insert and the uploads (C1) *)




Section Order.

Context (env : Env) (request : Request).





End Order.

(** ** The claims on order, keys and page count *)







(** The AI-assisted pipeline writes a fourth kind of key, the deck's
    thumbnail. *)
Lemma ai_writes_a_deck_thumbnail :
  exists body,
    w_trace (ProcessPpt.POST (Fixture.env [] "" (Some 12) 1) (Form deck_form)
               Fixture.world).2 !! 10%nat
    = Some {| eff := R2Put
                       "ppt-files/b7e2d9c0-1111-4111-8111-000000000002/previews/thumbnail.webp"
                       body (Some "image/webp");
              ok := true |}.
Proof. vm_compute. eauto. Qed.

(** C8, as the code has it.  The page count on every row a pipeline hands to
    the insert is: in the streamed pipeline the number of previews of a
    conversion result whose previews and thumbnails have the same length; in
    the AI-assisted pipeline the [page_count] the converter reported, which
    is at least 10; in the direct pipeline the number of previews the client
    sent. *)
Theorem persisted_page_count_source (p : Pipeline) (env : Env) (request : Request)
    (w : World) (i : nat) (row : FileRow) (b : bool) :
  w_trace (handle p env request (start w)).2 !! i
  = Some {| eff := DbInsertFile row; ok := b |} ->
  page_count_source p env request (fr_page_count row).
Proof.
  intros Hi. apply (Forall_lookup_1 _ _ _ _ (entries_ok env request p w)) in Hi.
  by destruct Hi as (file & _ & _ & Hcount).
Qed.

(** C8 at the streamed upload of a two-page deck: the row handed to the
    insert counts two pages, the number of previews of the conversion. *)
Lemma persisted_page_count_sample :
  let env := Fixture.env [] converting (Some 2) 2 in
  exists row,
    w_trace (UploadStream.POST env (Form deck_form) (start Fixture.world)).2 !! 13%nat
    = Some {| eff := DbInsertFile row; ok := true |}
    /\ fr_page_count row = 2
    /\ page_count_source Streamed env (Form deck_form) (fr_page_count row).
Proof.
  cbn zeta. eexists. split; [vm_compute; reflexivity|]. split; [reflexivity|].
  eapply (persisted_page_count_source Streamed (Fixture.env [] converting (Some 2) 2)
            (Form deck_form) Fixture.world 13).
  vm_compute. reflexivity.
Defined.

(** C8 as stated fails on the AI-assisted pipeline: the converter reports
    twelve pages and one preview; the row is stored with a page count of 12
    next to a single page row. *)
Lemma ai_persists_the_reported_count :
  let env := Fixture.env [] "" (Some 12) 1 in
  let out := ProcessPpt.POST env (Form deck_form) Fixture.world in
  (exists stdout stderr written result,
     spawn env "convert.py"
       ["/tmp/ppt-process-Ab12Cd/deck.pptx"; "/tmp/ppt-process-Ab12Cd/previews"]
     = Exits (Some 0) stdout stderr written
     /\ JSON_parse_conversion env (Js.trim stdout) = Parses (Value result)
     /\ co_page_count result = Some 12
     /\ length <$> co_previews result = Some 1%nat)
  /\ (exists row, w_ppt_files out.2 = [row] /\ fr_page_count row = 12)
  /\ length (w_ppt_previews out.2) = 1%nat.
Proof.
  cbn zeta. split; [|vm_compute; split; [eauto | done]].
  do 4 eexists. split; [reflexivity|]. vm_compute. eauto.
Qed.

(** ** The extension check of the direct upload *)

Section Extension.

Import Js.

(** A text splits at its last dot, if it has one. *)
Lemma last_dot_split (l : list ascii) :
  (dot ∉ l) \/ exists stem ext, l = stem ++ dot :: ext /\ (dot ∉ ext).
Proof.
  induction l as [|c l [IH | (stem & ext & -> & Hext)]].
  - left. apply not_elem_of_nil.
  - destruct (Ascii.eqb_spec c dot) as [->|Hc].
    + right. by exists [], l.
    + left. by apply not_elem_of_cons.
  - right. by exists (c :: stem), ext.
Qed.

Lemma last_of_split_no_dot (l : list ascii) : dot ∉ l -> last_of (split_l dot l) = l.
Proof. intros H. by rewrite split_l_line. Qed.

Lemma last_of_split_last_dot (stem ext : list ascii) :
  dot ∉ ext -> last_of (split_l dot (stem ++ dot :: ext)) = ext.
Proof.
  intros H. destruct (split_l_app dot stem ext) as (segs & _ & ->).
  rewrite last_of_app by apply split_l_nonempty. by rewrite split_l_line.
Qed.

(** [file.name.split('.').pop()?.toLowerCase()] is the text after the last
    dot of the name, in lower case; a name without a dot is its own
    extension. *)
Lemma fileType_of_cases (file : File) :
  ((dot ∉ chars (f_name file))
   /\ Upload.fileType_of file = toLowerCase (f_name file))
  \/ (exists stem ext,
        chars (f_name file) = stem ++ dot :: ext /\ (dot ∉ ext)
        /\ Upload.fileType_of file = toLowerCase (str ext)).
Proof.
  unfold Upload.fileType_of.
  destruct (last_dot_split (chars (f_name file))) as [H | (stem & ext & E & H)].
  - left. split; [done|]. by rewrite last_of_split_no_dot, str_chars.
  - right. exists stem, ext. split; [done|]. split; [done|].
    by rewrite E, last_of_split_last_dot.
Qed.

End Extension.

(** The direct upload accepts a file exactly when the text after the last
    dot of its name, or the whole name if it has no dot, is [ppt] or [pptx]
    up to the case of ASCII letters.  A file named [PPTX], without any dot,
    passes. *)
Theorem direct_upload_accepts_by_last_dot (file : File) :
  (String.eqb (Upload.fileType_of file) ""
   || negb (bool_decide (Upload.fileType_of file ∈ Upload.allowed))) = false
  <-> exists ext : list ascii,
        (Js.dot ∉ ext)
        /\ (Js.chars (f_name file) = ext
            \/ exists stem, Js.chars (f_name file) = stem ++ Js.dot :: ext)
        /\ Js.toLowerCase (Js.str ext) ∈ ["ppt"; "pptx"].
Proof.
  assert (Hgo : forall t : string,
            (String.eqb t "" || negb (bool_decide (t ∈ Upload.allowed))) = false
            <-> t ∈ ["ppt"; "pptx"]).
  { intros t. unfold Upload.allowed. split.
    - intros H. apply orb_false_iff in H as [_ H].
      apply negb_false_iff in H. by apply bool_decide_eq_true_1 in H.
    - intros H. apply orb_false_iff. split.
      + destruct (String.eqb_spec t "") as [->|]; [|done].
        repeat (apply elem_of_cons in H as [H|H]; [discriminate|]).
        by apply elem_of_nil in H.
      + apply negb_false_iff. by apply bool_decide_eq_true_2. }
  rewrite Hgo. split.
  - intros H.
    destruct (fileType_of_cases file) as [[Hdot E] | (stem & ext & Hname & Hdot & E)].
    + exists (Js.chars (f_name file)). rewrite str_chars.
      split; [done|]. split; [by left | by rewrite <- E].
    + exists ext. split; [done|]. split; [right; by exists stem | by rewrite <- E].
  - intros (ext & Hdot & Hname & Hext).
    destruct (fileType_of_cases file) as [[Hdot' E] | (stem' & ext' & Hname' & Hdot' & E)];
      rewrite E; clear E.
    + destruct Hname as [Hname | (stem & Hname)].
      * by rewrite <- (str_chars (f_name file)), Hname.
      * exfalso. apply Hdot'. rewrite Hname. apply elem_of_app. right. by left.
    + destruct Hname as [Hname | (stem & Hname)].
      * exfalso. apply Hdot. rewrite <- Hname, Hname'. apply elem_of_app. right. by left.
      * enough (ext' = ext) as -> by done.
        pose proof (last_of_split_last_dot stem' ext' Hdot') as E1.
        pose proof (last_of_split_last_dot stem ext Hdot) as E2.
        rewrite <- Hname' in E1. rewrite <- Hname in E2. congruence.
Qed.

(** ** Every request is answered *)

Lemma ai_always_answers (env : Env) (request : Request) (w : World) :
  exists response,
    (ProcessPpt.POST env request w).1 = Val response /\
    exists status body,
      response = JsonResponse status body
      /\ (status = 200 \/ status = 400 \/ status = 413 \/ status = 500).
Proof.
  unfold ProcessPpt.POST. apply answered_by_catch; [|intros e; eexists _, _; eauto 6].
  unfold ProcessPpt.process, ProcessPpt.classify_and_store, ProcessPpt.upload_and_finalize.
  returns_walk ltac:(eexists _, _; eauto 6).
Qed.

(** No handler lets an exception escape.  The direct upload answers with
    status 200, 400 or 500; the AI-assisted one with 200, 400, 413 or 500;
    the streamed one with the event stream, except when the request body
    cannot be read, which it answers with 500. *)
Theorem every_request_is_answered (p : Pipeline) (env : Env) (request : Request) (w : World) :
  exists response,
    (handle p env request w).1 = Val response /\
    match p with
    | Direct =>
        exists status body,
          response = JsonResponse status body /\ (status = 200 \/ status = 400 \/ status = 500)
    | AiAssisted =>
        exists status body,
          response = JsonResponse status body
          /\ (status = 200 \/ status = 400 \/ status = 413 \/ status = 500)
    | Streamed =>
        response = EventStream
        \/ exists e body, request = BadBody e /\ response = JsonResponse 500 body
    end.
Proof.
  destruct p; cbn [handle].
  - unfold Upload.POST. apply answered_by_catch; [|intros e; eexists _, _; eauto].
    returns_walk ltac:(eexists _, _; eauto).
  - unfold UploadStream.POST. destruct request as [e|formData].
    + eexists. split; [reflexivity|]. right. eauto.
    + exists EventStream. split; [|by left].
      unfold try_catch, UploadStream.createStreamResponse.
      by destruct (try_catch _ _ _) as [[[]|e] w'].
  - apply ai_always_answers.
Qed.

(** ** What a successful run leaves behind *)

Section AiStored.

Context (env : Env).





Section File.

Context (file : File).






End File.

End AiStored.



Section DirectStored.

Context (env : Env).

Lemma direct_upload_pages_mono timestamp pptData thumbnails i rest :
  mono (Upload.upload_pages env timestamp pptData thumbnails i rest).
Proof.
  apply mono_of_keeps. intros w0. revert i.
  induction rest as [|preview rest IH]; intros i; cbn [Upload.upload_pages].
  - apply keeps_ret.
  - unfold Upload.data_url_body. keeps_walk grows_leaf.
Qed.

Lemma direct_upload_pages_stores timestamp pptData thumbnails i rest :
  hoare (fun _ => True) (Upload.upload_pages env timestamp pptData thumbnails i rest)
    (fun _ w =>
       forall j, (i <= j < i + length rest)%nat ->
         in_r2 (Upload.previewKey_of timestamp j) w
         /\ in_r2 (Upload.thumbnailKey_of timestamp j) w).
Proof.
  revert i. induction rest as [|preview rest IH]; intros i; cbn [Upload.upload_pages].
  - apply hoare_ret. intros w _ j Hj. cbn in Hj. lia.
  - cbn zeta.
    eapply hoare_bind; [apply hoare_true | intros body].
    eapply hoare_bind; [apply r2_send_stores | intros ?]. cbn beta.
    destruct (thumbnails !! i) as [thumbnail|]; [|apply hoare_throw].
    set (F1 := in_r2 (Upload.previewKey_of timestamp i)).
    assert (HF1 : stable F1) by apply stable_in_r2.
    eapply hoare_bind;
      [apply (hoare_stable F1); [done | unfold Upload.data_url_body; mono_walk] | intros body'].
    eapply hoare_bind;
      [apply (hoare_step F1); [done | mono_walk | apply r2_send_stores] | intros ?].
    cbn beta.
    match goal with |- hoare ?P _ _ => set (F2 := P); assert (HF2 : stable F2) end.
    { intros w w' Hw [? ?]. split; by eapply stable_in_r2. }
    eapply hoare_bind; [apply (hoare_stable F2); [done | mono_walk] | intros ?].
    eapply hoare_weaken;
      [apply (hoare_step F2); [done | apply direct_upload_pages_mono | apply IH] | done |].
    intros [] w [[H1 H2] Hrest] j Hj. cbn in Hj.
    destruct (decide (j = i)) as [->|Hne]; [by split|]. apply Hrest. lia.
Qed.

Lemma direct_answer_other formData status body w :
  status <> 200 -> direct_answer env formData (JsonResponse status body) w.
Proof. intros H body' [= E _]. done. Qed.

End DirectStored.

(** A 200 answer of the direct upload means that the row is in [ppt_files]
    and that the original and both images of every page are in the object
    store. *)
Theorem direct_success_means_stored (env : Env) (formData : FormData) (w : World)
    (body : Json) :
  (Upload.POST env (Form formData) w).1 = Val (JsonResponse 200 body) ->
  direct_stored env formData (Upload.POST env (Form formData) w).2.
Proof.
  intros Hout.
  assert (H : hoare (fun _ => True) (Upload.POST env (Form formData))
                (direct_answer env formData)).
  { unfold Upload.POST.
    apply hoare_try_catch;
      [|intros e; apply hoare_ret; intros; by apply direct_answer_other].
    cbn zeta.
    destruct (fd_file formData) as [file|] eqn:Hfile;
      [|apply hoare_ret; intros; by apply direct_answer_other].
    destruct (falsy (fd_title formData));
      [apply hoare_ret; intros; by apply direct_answer_other|].
    destruct (_ || _); [apply hoare_ret; intros; by apply direct_answer_other|].
    eapply hoare_bind; [apply r2_send_stores | intros ?]. cbn beta.
    destruct (_ || _); [apply hoare_ret; intros; by apply direct_answer_other|].
    destruct (JSON_parse_array env (default "" (fd_previews formData)))
      as [m|[| |previews]] eqn:Hpreviews; try apply hoare_throw.
    all: destruct (JSON_parse_array env (default "" (fd_thumbnails formData)))
      as [m|[| |thumbnails]]; try apply hoare_throw.
    all: try (apply hoare_ret; intros; by apply direct_answer_other).
    cbn zeta.
    set (F1 := in_r2 (Upload.original_key (Date_now env) file)).
    assert (HF1 : stable F1) by apply stable_in_r2.
    eapply hoare_bind;
      [apply (hoare_step F1); [done | mono_walk | apply db_insert_file_stores]
      | intros inserted].
    cbn beta. destruct inserted as [pptError|pptData].
    { eapply hoare_bind; [apply hoare_true | intros ?]. apply hoare_throw. }
    match goal with |- hoare ?P _ _ => set (F2 := P); assert (HF2 : stable F2) end.
    { intros w1 w2 Hw [? Hrow]. split; [by eapply HF1|]. intros row E.
      destruct (Hrow row E) as [? ?]. split; [done | by eapply stable_has_row]. }
    eapply hoare_bind;
      [apply (hoare_step F2);
         [done | apply direct_upload_pages_mono | apply direct_upload_pages_stores]
      | intros ?].
    apply hoare_ret. intros w1 [[Horiginal Hrow] Hpages] body' _.
    destruct (Hrow _ eq_refl) as [_ Hrow'].
    exists file, previews. do 4 (split; [done|]).
    intros i Hi. apply Hpages. lia. }
  by apply (H w I _ Hout body).
Qed.

Section StreamStored.

Context (env : Env) (formData : FormData).

Let J := st_done_means_stored env formData.









Section Persist.

Context (file : File) (Hfile : fd_file formData = Some file).



End Persist.


End StreamStored.


(** ** The batch page *)

Section BatchPage.

Import BatchUpload.

Lemma filter_none {A} (P : A -> Prop) `{forall x, Decision (P x)} (l : list A) :
  Forall (fun x => ~ P x) l -> filter P l = [].
Proof.
  induction 1 as [|x l Hx _ IH]; [done|]. by rewrite filter_cons_False.
Qed.

(** Dropping files appends, for each dropped file whose name ends in [.ppt]
    or [.pptx] and whose id is not yet in the queue, one pending entry; the
    entries already queued stay as they are.  Dropping the same files again
    changes nothing. *)
Theorem onDrop_queues_each_new_deck (acceptedFiles : list PickedFile) (page : Page) :
  (exists added,
     pg_files (onDrop acceptedFiles page) = pg_files page ++ added
     /\ Forall (fun f =>
                  pf_status f = Pending /\ pf_result f = None
                  /\ pf_file f ∈ acceptedFiles /\ accepted (pf_file f) = true
                  /\ pf_id f = f_name (pk_file (pf_file f)) +:+ "-"
                                 +:+ Js.decimal (pk_lastModified (pf_file f))
                  /\ (pf_id f ∉ map pf_id (pg_files page))) added
     /\ forall file, file ∈ acceptedFiles -> accepted file = true ->
          pf_id (queued file) ∈ map pf_id (pg_files page ++ added))
  /\ onDrop acceptedFiles (onDrop acceptedFiles page) = onDrop acceptedFiles page.
Proof.
  set (newFiles := map queued (filter (fun file => accepted file = true) acceptedFiles)).
  set (added := filter (fun nf => pf_id nf ∉ map pf_id (pg_files page)) newFiles).
  assert (Hnew : forall file, file ∈ acceptedFiles -> accepted file = true ->
            pf_id (queued file) ∈ map pf_id (pg_files page ++ added)).
  { intros file Hin Hacc. rewrite map_app, elem_of_app.
    destruct (decide (pf_id (queued file) ∈ map pf_id (pg_files page))) as [|Hnot];
      [by left | right].
    apply (list_elem_of_fmap_2 pf_id). apply list_elem_of_filter. split; [done|].
    apply (list_elem_of_fmap_2 queued). by apply list_elem_of_filter. }
  split.
  - exists added. split; [done|]. split; [|exact Hnew].
    apply Forall_forall. intros f Hf.
    apply list_elem_of_filter in Hf as [Hid Hf].
    apply list_elem_of_fmap in Hf as (file & -> & Hfile).
    apply list_elem_of_filter in Hfile as [Hacc Hin]. by repeat split.
  - unfold onDrop, setFiles. cbn. f_equal.
    fold newFiles. fold added. rewrite <- app_assoc. f_equal.
    rewrite (filter_none _ newFiles); [by rewrite app_nil_r|].
    apply Forall_forall. intros nf Hnf Hnot. apply Hnot.
    apply list_elem_of_fmap in Hnf as (file & -> & Hfile).
    apply list_elem_of_filter in Hfile as [Hacc Hin]. by apply Hnew.
Qed.


Lemma mark_again id status result (l : list ProcessableFile) :
  mark id status (Some result) (mark id Processing None l) = mark id status (Some result) l.
Proof.
  unfold mark. rewrite map_map. apply map_ext. intros f.
  destruct (String.eqb (pf_id f) id) eqn:E; cbn; by rewrite E.
Qed.

(** Each round of the loop ends with a terminal status on the entries of the
    file's id, and changes nothing else on the page. *)
Lemma processOne_marks (post : Post) (page : Page) (w : World) (file : ProcessableFile) :
  exists status result,
    terminal status
    /\ pg_files (processOne post (page, w) file).1
       = mark (pf_id file) status (Some result) (pg_files page)
    /\ pg_isProcessing (processOne post (page, w) file).1 = pg_isProcessing page
    /\ pg_toasts (processOne post (page, w) file).1 = pg_toasts page.
Proof.
  unfold processOne. destruct (post (pk_file (pf_file file)) w) as [[m|[status data]] w'].
  - exists Failed, (Some (JStr m)). cbn -[mark]. rewrite mark_again. unfold terminal. auto.
  - destruct (outcome status data) as [m|[shownStatus result]] eqn:E.
    + exists Failed, (Some (JStr m)). cbn -[mark]. rewrite mark_again. unfold terminal. auto.
    + exists shownStatus, result. cbn -[mark]. rewrite mark_again. split; [|done].
      revert E. unfold outcome.
      repeat (match goal with |- context [match ?x with _ => _ end] => destruct x end;
              try discriminate);
        intros [= <- _]; unfold terminal; auto.
Qed.

Lemma processed_mark ids id status result f f' :
  terminal status -> processed ids f f' ->
  processed (ids ++ [id]) f
    (if String.eqb (pf_id f') id then
       {| pf_id := pf_id f'; pf_file := pf_file f'; pf_status := status;
          pf_result := default (pf_result f') (Some result) |}
     else f').
Proof.
  intros Hs (Hid & Hfile & Hin & Hout).
  destruct (String.eqb_spec (pf_id f') id) as [E|E]; cbn.
  - repeat split; [done | done | done|].
    intros Hnot. exfalso. apply Hnot. apply elem_of_app. right. rewrite <- Hid, E. by left.
  - repeat split; [done | done | |].
    + intros H. apply elem_of_app in H as [H|H]; [by apply Hin|].
      apply elem_of_cons in H as [H|H]; [congruence | by apply elem_of_nil in H].
    + intros H. apply Hout. intros H'. apply H. apply elem_of_app. by left.
Qed.

Lemma processed_none (l : list ProcessableFile) : Forall2 (processed []) l l.
Proof.
  apply Forall2_same_length_lookup. split; [done|].
  intros i f f' Hf Hf'. assert (f' = f) as -> by congruence.
  split; [done|]. split; [done|]. split; [|done].
  intros H. by apply elem_of_nil in H.
Qed.

Lemma foldl_processOne (post : Post) (queue : list ProcessableFile) (page : Page) (w : World) :
  Forall2 (processed (map pf_id queue)) (pg_files page)
    (pg_files (foldl (processOne post) (page, w) queue).1)
  /\ pg_isProcessing (foldl (processOne post) (page, w) queue).1 = pg_isProcessing page
  /\ pg_toasts (foldl (processOne post) (page, w) queue).1 = pg_toasts page.
Proof.
  induction queue as [|file queue IH] using rev_ind.
  - cbn. split; [apply processed_none | done].
  - rewrite foldl_app. cbn [foldl].
    destruct (foldl (processOne post) (page, w) queue) as [page1 w1]. cbn [fst] in IH.
    destruct IH as (IH & Hbusy & Htoasts).
    destruct (processOne_marks post page1 w1 file)
      as (status & result & Hs & -> & -> & ->).
    split; [|done]. rewrite map_app. cbn [map]. unfold mark.
    apply Forall2_fmap_r. eapply Forall2_impl; [exact IH|].
    intros f f' H. by apply processed_mark.
Qed.

(** A run of the batch leaves no file pending.  Every entry whose id was
    pending ends as completed, failed or skipped; every other entry, and the
    order of the queue, stay as they were. *)
Theorem batch_run_settles_every_pending_file (post : Post) (page : Page) (w : World) :
  let pending := filter (fun f => pf_status f = Pending) (pg_files page) in
  let after := (handleStartProcessing post (page, w)).1 in
  Forall2 (processed (map pf_id pending)) (pg_files page) (pg_files after)
  /\ (forall i f f',
        pg_files page !! i = Some f -> pg_files after !! i = Some f' ->
        pf_status f = Pending -> terminal (pf_status f'))
  /\ (pending <> [] -> pg_isProcessing after = false).
Proof.
  cbn zeta. unfold handleStartProcessing.
  set (pending := filter (fun f => pf_status f = Pending) (pg_files page)).
  assert (H : Forall2 (processed (map pf_id pending)) (pg_files page)
                (pg_files
                   (match pending with
                    | [] => (toast (ToastError "No pending files to process.") page, w)
                    | _ :: _ =>
                        let page0 := setIsProcessing true page in
                        let page1 :=
                          toast (ToastSuccess ("Starting to process "
                                   +:+ Js.decimal (Z.of_nat (length pending))
                                   +:+ " files...")) page0 in
                        let '(page2, w0) := foldl (processOne post) (page1, w) pending in
                        let page3 := setIsProcessing false page2 in
                        (toast (ToastSuccess "All pending files have been processed.") page3,
                         w0)
                    end).1)).
  { destruct pending as [|file rest] eqn:E.
    - cbn. apply processed_none.
    - cbn zeta.
      match goal with
      | |- context [foldl (processOne post) (?p, w) ?q] =>
          destruct (foldl_processOne post q p w) as (H & _);
          destruct (foldl (processOne post) (p, w) q) as [page2 w2]
      end.
      exact H. }
  split; [exact H|]. split.
  - intros i f f' Hf Hf' Hpending.
    destruct (Forall2_lookup_lr _ _ _ _ _ _ H Hf Hf') as (_ & _ & Hin & _).
    apply Hin. apply (list_elem_of_fmap_2 pf_id). apply list_elem_of_filter.
    split; [done | by eapply list_elem_of_lookup_2].
  - destruct pending as [|file rest]; [done|]. intros _. cbn zeta.
    by destruct (foldl _ _ _) as [page2 w2].
Qed.







End BatchPage.

(** ** Edges of the handlers *)

(** The direct upload checks the page lists only after it has stored the
    original.  A request that passes validation and is still answered with
    400 (a page list is missing or is not an array) has made one call, the
    put of the original: the object stays in the store and no row refers to
    it. *)
Theorem direct_400_leaves_the_original (env : Env) (formData : FormData) (w : World)
    (body : Json) :
  rejects Direct formData = false ->
  (Upload.POST env (Form formData) w).1 = Val (JsonResponse 400 body) ->
  exists file,
    fd_file formData = Some file
    /\ w_trace (Upload.POST env (Form formData) w).2
       = w_trace w ++
         [{| eff := R2Put (Upload.original_key (Date_now env) file)
                      (Some (f_bytes file)) (Some (f_type file));
             ok := true |}]
    /\ w_r2 (Upload.POST env (Form formData) w).2 !! Upload.original_key (Date_now env) file
       = Some (f_bytes file)
    /\ w_ppt_files (Upload.POST env (Form formData) w).2 = w_ppt_files w
    /\ w_ppt_previews (Upload.POST env (Form formData) w).2 = w_ppt_previews w.
Proof.
  unfold rejects. destruct (fd_file formData) as [file|] eqn:Hfile; [|done].
  intros Hok. apply orb_false_iff in Hok as [Hok Hallowed].
  apply orb_false_iff in Hok as [Htitle Hempty].
  destruct (Upload.POST env (Form formData) w) as [r wf] eqn:E. cbn [fst snd]. intros ->.
  exists file. split; [done|].
  revert E. unfold Upload.POST, try_catch. cbn zeta.
  rewrite Hfile, Htitle, Hempty, Hallowed. cbn [orb].
  unfold mbind at 1, M_bind at 1, bind at 1, r2_send, external.
  destruct (fault env (w_calls w)) as [msg|]; cbn [fst snd]; [cbn; discriminate|].
  match goal with |- context [logged ?e true ?w1] => set (w2 := logged e true w1) end.
  assert (Hw2 : w_trace w2 = w_trace w ++
                  [{| eff := R2Put (Upload.original_key (Date_now env) file)
                               (Some (f_bytes file)) (Some (f_type file));
                      ok := true |}]
                /\ w_r2 w2 !! Upload.original_key (Date_now env) file = Some (f_bytes file)
                /\ w_ppt_files w2 = w_ppt_files w /\ w_ppt_previews w2 = w_ppt_previews w).
  { subst w2. cbn. by rewrite lookup_insert_eq. }
  clearbody w2.
  destruct (_ || _); cbn; [by intros [= _ <-]|].
  destruct (JSON_parse_array env (default "" (fd_previews formData)))
    as [m|previews]; cbn; [discriminate|].
  destruct (JSON_parse_array env (default "" (fd_thumbnails formData)))
    as [m|thumbnails]; cbn; [discriminate|].
  destruct previews as [| |previews]; cbn; try (by intros [= _ <-]).
  all: destruct thumbnails as [| |thumbnails]; cbn; try (by intros [= _ <-]).
  (* both lists are arrays: the answer is 200 or 500 *)
  intros Hout. exfalso. revert Hout.
  match goal with
  | |- context [(?m ≫= ?k) w2] =>
      assert (Hr : returns (m ≫= k) (fun r => forall body', r <> JsonResponse 400 body'));
      [ returns_walk ltac:(intros ? [= ? ?]; discriminate)
      | specialize (Hr w2); destruct ((m ≫= k) w2) as [[r|e] w3] ]
  end; cbn in *; intros [= E _]; by eapply Hr.
Qed.

(** Removing a directory touches neither store and adds no file. *)
Lemma fs_rm_frame (env : Env) (path : string) (w : World) :
  stores_untouched w (fs_rm env path w).2 /\ w_disk (fs_rm env path w).2 ⊆ w_disk w.
Proof.
  unfold fs_rm, external. destruct (on_disk path w); [destruct (fault env (w_calls w))|]; cbn.
  - by repeat split.
  - split; [by repeat split|]. apply map_filter_subseteq.
  - by repeat split.
Qed.

(** A missing setting is noticed only inside the workspace.  When one of
    the R2 or Supabase settings is missing or empty, a request with a file of
    admissible size is answered with 500 [Processing failed]; the handler
    has created the workspace and removed it again, or failed to create it,
    and has done nothing else: no file is written, no converter is started
    and neither store is touched. *)
Theorem misconfigured_handler_only_stages (env : Env) (formData : FormData) (file : File)
    (w : World) :
  misconfigured env = true ->
  fd_file formData = Some file ->
  (f_size file >? maxSize) = false ->
  let out := ProcessPpt.POST env (Form formData) w in
  (exists details,
     out.1 = Val (JsonResponse 500
                    (JObj [("error", JStr "Processing failed");
                           ("details", JStr details)])))
  /\ (w_trace out.2
      = w_trace w ++ [{| eff := FsMkdtemp (Js.join (os_tmpdir env) "ppt-process-");
                         ok := false |}]
      \/ exists removed,
           w_trace out.2
           = w_trace w ++
             [{| eff := FsMkdtemp (Js.join (os_tmpdir env) "ppt-process-"); ok := true |};
              {| eff := FsRm (Js.join (os_tmpdir env) "ppt-process-" +:+ mkdtemp_suffix env);
                 ok := removed |}])
  /\ stores_untouched w out.2
  /\ w_disk out.2 ⊆ w_disk w.
Proof.
  intros Hcfg Hfile Hsize. cbn zeta.
  destruct (ProcessPpt.POST env (Form formData) w) as [r wf] eqn:E. cbn [fst snd].
  revert E. unfold ProcessPpt.POST, try_catch at 1. rewrite Hfile, Hsize.
  unfold try_local, fs_mkdtemp, external.
  destruct (fault env (w_calls w)) as [msg|] eqn:Hmk.
  { cbn. intros [= <- <-]. split; [eauto|]. split; [by left|]. by repeat split. }
  destruct (on_disk _ w) eqn:Hdisk.
  { cbn. intros [= <- <-]. split; [eauto|]. split; [by left|]. by repeat split. }
  cbn [fst snd].
  match goal with |- context [logged ?e true ?w1] => set (w2 := logged e true w1) end.
  assert (Hprocess : exists e, ProcessPpt.process env file
                       (Js.join (os_tmpdir env) "ppt-process-" +:+ mkdtemp_suffix env) w2
                     = (Exc (JsError "Error" e), w2)).
  { unfold ProcessPpt.process, ProcessPpt.stage_and_convert, ProcessPpt.getS3Client,
      ProcessPpt.getSupabaseClient, misconfigured in *.
    cbn zeta. unfold mbind, M_bind, bind.
    destruct (falsy (R2_ACCOUNT_ID env) || falsy (R2_ACCESS_KEY_ID env)
              || falsy (R2_SECRET_ACCESS_KEY env)) eqn:H1; cbn; [eauto|].
    destruct (falsy (NEXT_PUBLIC_SUPABASE_URL env)) eqn:H2; cbn; [eauto|].
    destruct (falsy (NEXT_PUBLIC_SUPABASE_ANON_KEY env)) eqn:H3; cbn; [eauto|].
    cbn [orb] in Hcfg. rewrite Hcfg. cbn. eauto. }
  destruct Hprocess as [e He].
  unfold finally, try_catch. rewrite He. cbn [fst snd instanceof_Error message_of ret].
  unfold ProcessPpt.cleanup, try_catch.
  destruct (fs_rm_logs env (Js.join (os_tmpdir env) "ppt-process-" +:+ mkdtemp_suffix env) w2)
    as [removed Hrm].
  pose proof (fs_rm_frame env
                (Js.join (os_tmpdir env) "ppt-process-" +:+ mkdtemp_suffix env) w2) as Hframe.
  destruct (fs_rm env _ w2) as [[[]|e'] w3]; cbn in *; intros [= <- <-].
  all: split; [eauto|]; split; [right; exists removed; by rewrite Hrm, <- app_assoc|].
  all: by destruct Hframe as [? ?].
Qed.

Section Tags.

Context (env : Env) (formData : FormData).

Let raw : string := if falsy (fd_tags formData) then "" else default "" (fd_tags formData).

Ltac tag_leaf := extends_leaf ltac:(by cbn).

Lemma st_upload_and_record_tagged base pptId thumbnails index rest :
  keeps (extends base (tagged raw))
    (UploadStream.upload_and_record env pptId thumbnails index rest).
Proof.
  revert index. induction rest as [|previewPath rest IH]; intros index;
    cbn [UploadStream.upload_and_record].
  - apply keeps_ret.
  - keeps_walk tag_leaf.
Qed.

Lemma st_callback_tagged : keeps (extends [] (tagged raw)) (UploadStream.callback env formData).
Proof.
  pose proof st_upload_and_record_tagged as Hpages.
  unfold UploadStream.callback, UploadStream.convert_and_persist, UploadStream.persist,
    UploadStream.runPythonConverter, UploadStream.cleanup.
  keeps_walk tag_leaf.
Qed.

End Tags.

(** The streamed pipeline never stores an empty list of tags.  The tags on
    the row it inserts are the comma-separated pieces of the [tags] field,
    each trimmed; a request without tags, or with an empty field, stores the
    list holding one empty tag. *)
Theorem streamed_tags_are_never_empty (env : Env) (formData : FormData) (w : World)
    (i : nat) (row : FileRow) (b : bool) :
  w_trace (UploadStream.POST env (Form formData) (start w)).2 !! i
  = Some {| eff := DbInsertFile row; ok := b |} ->
  exists tags,
    fr_tags row = Some tags /\ tags <> []
    /\ (falsy (fd_tags formData) = true -> tags = [""])
    /\ (forall given, fd_tags formData = Some given -> given <> "" ->
          tags = map Js.trim (Js.split Js.comma given)).
Proof.
  intros Hi.
  set (raw := if falsy (fd_tags formData) then "" else default "" (fd_tags formData)).
  assert (H : Forall (tagged raw)
                (w_trace (UploadStream.POST env (Form formData) (start w)).2)).
  { assert (Hpost : leads (extends [] (tagged raw)) (UploadStream.POST env (Form formData))
                      (fun w' => Forall (tagged raw) (w_trace w'))).
    { unfold UploadStream.POST. apply leads_try_catch; [|intros e; apply keeps_ret].
      apply (leads_createStreamResponse (Forall (tagged raw))); [by intros w' H|].
      apply leads_keeps; [by intros w' (ext & -> & H) | apply st_callback_tagged]. }
    apply Hpost. exists []. split; [done | constructor]. }
  apply (Forall_lookup_1 _ _ _ _ H) in Hi. cbn in Hi.
  exists (map Js.trim (Js.split Js.comma raw)). split; [done|]. split; [|split].
  - unfold Js.split. intros E. apply map_eq_nil in E. apply map_eq_nil in E.
    by apply split_l_nonempty in E.
  - intros Hnone. unfold raw. by rewrite Hnone.
  - intros given Hgiven Hne. unfold raw. rewrite Hgiven. cbn.
    by destruct (String.eqb_spec given "").
Qed.

(** ** Nothing is rolled back *)

Section NoRollback.

Context (env : Env) (w0 : World).

Lemma lasting_grows w w' a : grows w w' -> lasting env w a -> lasting env w' a.
Proof.
  intros (Hr2 & Hfiles & Hpreviews) Ha Hok. specialize (Ha Hok).
  destruct (eff a); try done.
  - by apply Hr2.
  - by apply Hfiles.
  - intros r Hr. by apply Hpreviews, Ha.
Qed.

Lemma kept_of_call {A} (m : M A) :
  (forall w1, keeps (grows w1) m) -> logs_lasting env m -> keeps (kept env w0) m.
Proof.
  intros Hgrows Hlogs w [Hw Htrace]. split; [by apply Hgrows|].
  destruct (Hlogs w) as (ext & -> & Hext). apply Forall_app. split; [|done].
  eapply Forall_impl; [exact Htrace|]. intros a. apply lasting_grows.
  apply Hgrows, grows_refl.
Qed.

Lemma lasting_call :
  (forall prefix, logs_lasting env (fs_mkdtemp env prefix))
  /\ (forall recursive path, logs_lasting env (fs_mkdir env recursive path))
  /\ (forall path data, logs_lasting env (fs_writeFile env path data))
  /\ (forall path, logs_lasting env (fs_readFile env path))
  /\ (forall path, logs_lasting env (fs_rm env path))
  /\ (forall script args, logs_lasting env (spawn_python env script args))
  /\ (forall key body content_type, logs_lasting env (r2_send env key body content_type))
  /\ (forall payload, logs_lasting env (db_insert_file env payload))
  /\ (forall rows, logs_lasting env (db_insert_previews env rows))
  /\ (forall id file_key thumbnail_key,
        logs_lasting env (db_update_file env id file_key thumbnail_key))
  /\ (forall filename text, logs_lasting env (fetch_ai env filename text))
  /\ (forall ev, logs_lasting env (sendEvent ev))
  /\ logs_lasting env close.
Proof.
  repeat match goal with |- _ /\ _ => split end; intros; intros w;
    unfold fs_mkdtemp, fs_mkdir, fs_writeFile, fs_readFile, fs_rm, spawn_python, r2_send,
      db_insert_file, db_insert_previews, db_update_file, fetch_ai, sendEvent, close,
      external;
    repeat (case_inner; cbn);
    first [ by (exists []; rewrite app_nil_r)
          | eexists [_]; split; [reflexivity|]; apply Forall_singleton; intros Hok; cbn in * ];
    try done.
  - apply lookup_insert_is_Some'. by left.
  - unfold has_row. cbn. rewrite map_app. apply elem_of_app. right. cbn. left.
  - intros r Hr. apply elem_of_app. by right.
Qed.

Ltac kept_leaf :=
  idtac;
  match goal with
  | |- keeps (kept _ _) _ =>
      apply kept_of_call; [intros ?; grows_leaf | apply lasting_call]
  end.

Lemma kept_direct_pages timestamp pptData thumbnails i rest :
  keeps (kept env w0) (Upload.upload_pages env timestamp pptData thumbnails i rest).
Proof.
  revert i. induction rest as [|preview rest IH]; intros i; cbn [Upload.upload_pages].
  - apply keeps_ret.
  - unfold Upload.data_url_body. keeps_walk kept_leaf.
Qed.

Lemma kept_streamed_pages pptId thumbnails index rest :
  keeps (kept env w0) (UploadStream.upload_and_record env pptId thumbnails index rest).
Proof.
  revert index. induction rest as [|previewPath rest IH]; intros index;
    cbn [UploadStream.upload_and_record].
  - apply keeps_ret.
  - keeps_walk kept_leaf.
Qed.

Lemma kept_ai_pages pptId thumbnails i rest :
  keeps (kept env w0) (ProcessPpt.upload_pages env pptId thumbnails i rest).
Proof.
  revert i. induction rest as [|previewPath rest IH]; intros i; cbn [ProcessPpt.upload_pages].
  - apply keeps_ret.
  - unfold ProcessPpt.uploadToR2. keeps_walk kept_leaf.
Qed.

Lemma kept_direct request : keeps (kept env w0) (Upload.POST env request).
Proof.
  pose proof kept_direct_pages as Hpages.
  unfold Upload.POST. keeps_walk kept_leaf.
Qed.

Lemma kept_streamed request : keeps (kept env w0) (UploadStream.POST env request).
Proof.
  pose proof kept_streamed_pages as Hpages.
  unfold UploadStream.POST. apply keeps_try_catch; [|intros e; apply keeps_ret].
  destruct request as [e|formData]; [apply keeps_throw|].
  intros w Hw. unfold UploadStream.createStreamResponse.
  match goal with
  | |- context [try_catch ?cb ?h ?w1] =>
      assert (H : kept env w0 (try_catch cb h w1).2);
      [ assert (Hcb : keeps (kept env w0) (try_catch cb h));
        [ unfold UploadStream.callback, UploadStream.convert_and_persist,
            UploadStream.persist, UploadStream.runPythonConverter, UploadStream.cleanup;
          keeps_walk kept_leaf
        | by apply Hcb ]
      | destruct (try_catch cb h w1) as [[r|e] w'] ]
  end; cbn in *; [done | by destruct (w_stream w')].
Qed.

Lemma kept_ai request : keeps (kept env w0) (ProcessPpt.POST env request).
Proof.
  pose proof kept_ai_pages as Hpages.
  unfold ProcessPpt.POST, ProcessPpt.process, ProcessPpt.stage_and_convert,
    ProcessPpt.getS3Client, ProcessPpt.getSupabaseClient, ProcessPpt.convert,
    ProcessPpt.classify_and_store, ProcessPpt.upload_and_finalize,
    ProcessPpt.getAiMetadata, ProcessPpt.runPythonScript, ProcessPpt.uploadToR2,
    ProcessPpt.cleanup.
  keeps_walk kept_leaf.
Qed.

End NoRollback.

(** No pipeline rolls anything back.  When a handler has answered, with
    success or with an error, everything that was in the stores before the
    request is still there, and so is what the request itself stored: an
    object under the key of every put that went through, a row under the id
    of every insert into [ppt_files] that went through, and the rows of
    every insert into [ppt_previews] that went through.  A run that fails
    half way leaves its objects and rows behind. *)
Theorem nothing_is_rolled_back (p : Pipeline) (env : Env) (request : Request) (w : World) :
  let out := handle p env request (start w) in
  grows w out.2 /\ Forall (lasting env out.2) (w_trace out.2).
Proof.
  cbn zeta.
  assert (H : kept env w (start w)) by (split; [by repeat split | constructor]).
  destruct p; cbn [handle].
  - by apply kept_direct.
  - by apply kept_streamed.
  - by apply kept_ai.
Qed.

(** ** The slug of the AI pipeline

    [process-ppt] names a row [`${metadata.slug}-${Date.now().toString(36).slice(-6)}`]:
    the suffix keeps the six lowest base-36 digits of the clock and drops
    the rest. *)

Section Slug.
Import Js.

Lemma base36_acc fuel n acc : base36 fuel n acc = base36 fuel n [] ++ acc.
Proof.
  revert n acc. induction fuel as [|f IH]; intros n acc; cbn [base36]; [done|].
  destruct (n / 36 =? 0)%N; [done|].
  rewrite (IH _ (_ :: acc)), (IH _ [_]), <- app_assoc. done.
Qed.

Lemma base36_low k fuel n acc :
  (k <= fuel)%nat -> (k = 0%nat \/ 36 ^ N.of_nat (k - 1) <= n)%N ->
  exists pre, base36 fuel n acc = pre ++ low k n ++ acc.
Proof.
  revert fuel n acc. induction k as [|k IH]; intros fuel n acc Hf Hn.
  - exists (base36 fuel n []). apply base36_acc.
  - destruct Hn as [|Hn]; [done|]. destruct fuel as [|f]; [lia|].
    cbn [base36 low]. replace (S k - 1)%nat with k in Hn by lia.
    destruct k as [|k].
    + cbn [low app]. destruct (n / 36 =? 0)%N; [by exists []|].
      exists (base36 f (n / 36) []). by rewrite base36_acc.
    + assert (H36 : (36 * 36 ^ N.of_nat k <= n)%N).
      { replace (N.of_nat (S k)) with (N.succ (N.of_nat k)) in Hn by lia.
        by rewrite N.pow_succ_r' in Hn. }
      assert (Hq : (36 ^ N.of_nat k <= n / 36)%N).
      { apply N.div_le_lower_bound; [done | lia]. }
      assert (Hpos : (0 < 36 ^ N.of_nat k)%N) by (apply N.neq_0_lt_0, N.pow_nonzero; lia).
      destruct (N.eqb_spec (n / 36) 0) as [E|_]; [lia|].
      destruct (IH f (n / 36)%N (digit36 (n mod 36) :: acc)) as [pre E].
      * lia.
      * right. by replace (S k - 1)%nat with k by lia.
      * exists pre. rewrite E, <- !app_assoc. done.
Qed.

Lemma low_length k n : length (low k n) = k.
Proof.
  revert n. induction k as [|k IH]; intros n; cbn [low]; [done|].
  rewrite length_app, IH. cbn. lia.
Qed.

Lemma low_periodic k n c : low k (n + c * 36 ^ N.of_nat k) = low k n.
Proof.
  revert n c. induction k as [|k IH]; intros n c; cbn [low]; [done|].
  replace (N.of_nat (S k)) with (N.succ (N.of_nat k)) by lia.
  rewrite N.pow_succ_r'.
  replace (n + c * (36 * 36 ^ N.of_nat k))%N
    with (n + (c * 36 ^ N.of_nat k) * 36)%N by lia.
  rewrite N.Div0.mod_add, N.div_add by lia. by rewrite IH.
Qed.

Lemma size_nat_from_32 n : (32 <= n)%N -> (5 <= N.size_nat n)%nat.
Proof.
  destruct n as [|p]; [lia|]. intros H. cbn [N.size_nat].
  destruct (decide (p = 32%positive)) as [->|Hp]; [cbn; lia|].
  assert (Hlt : (32 < p)%positive) by lia.
  apply Pos.size_nat_monotone in Hlt. cbn in Hlt. lia.
Qed.

(** [toString(36).slice(-6)] is the six lowest digits once the clock has six
    digits, which it has from 1970-01-01T16:47:46Z on. *)
Lemma suffix_is_low_digits now :
  36 ^ 5 <= now ->
  slice_last 6 (toString36 now) = str (low 6 (Z.abs_N now)).
Proof.
  intros Hnow. unfold slice_last, toString36.
  destruct (Z.ltb_spec now 0) as [|_]; [lia|].
  rewrite chars_str.
  destruct (base36_low 6 (S (N.size_nat (Z.abs_N now))) (Z.abs_N now) []) as [pre E].
  - pose proof (size_nat_from_32 (Z.abs_N now)). lia.
  - right. cbn. lia.
  - rewrite E, app_nil_r, length_app, low_length.
    replace (length pre + 6 - 6)%nat with (length pre) by lia.
    by rewrite drop_app_length.
Qed.

End Slug.

(** The slug of a row repeats with the clock: two uploads whose classifier
    slug agrees and whose [Date.now()] differ by a multiple of [36^6] ms
    (2 176 782 336 ms, a little over 25 days) are given the same slug. *)
Theorem slug_repeats_with_the_clock (env env' : Env) (file file' : File)
    (metadata metadata' : Shaped Metadata) (pageCount pageCount' c : Z) :
  36 ^ 5 <= Date_now env ->
  0 <= c ->
  Date_now env' = Date_now env + c * 36 ^ 6 ->
  ProcessPpt.field md_slug metadata' = ProcessPpt.field md_slug metadata ->
  fr_slug (ProcessPpt.initial_row env' file' metadata' pageCount')
  = fr_slug (ProcessPpt.initial_row env file metadata pageCount).
Proof.
  intros Hnow Hc Hlater Hslug. unfold ProcessPpt.initial_row. cbn [fr_slug].
  rewrite Hslug. do 3 f_equal.
  rewrite !suffix_is_low_digits by nia. f_equal.
  rewrite Hlater.
  rewrite Zabs2N.inj_add, Zabs2N.inj_mul by nia.
  change (Z.abs_N (36 ^ 6)) with (36 ^ N.of_nat 6)%N.
  apply low_periodic.
Qed.

(** ** The upload page *)

Section UploadPage.

Import TestUpload.

Lemma handleFileChange_checked (files : list File) (page : Page) :
  file_checked page -> file_checked (handleFileChange files page).
Proof.
  intros H. unfold handleFileChange. destruct files as [|selectedFile files]; [done|].
  destruct (String.eqb _ "" || _) eqn:E; intros file; cbn; [done|].
  intros [= <-]. apply orb_false_iff in E as [_ E].
  apply negb_false_iff in E. by apply bool_decide_eq_true_1 in E.
Qed.

Lemma trim_empty : Js.trim "" = "".
Proof. reflexivity. Qed.

Lemma direct_upload_pages_logs env base timestamp pptData thumbnails i rest :
  keeps (extends base (fun _ => True))
    (Upload.upload_pages env timestamp pptData thumbnails i rest).
Proof.
  revert i. induction rest as [|preview rest IH]; intros i; cbn [Upload.upload_pages].
  - apply keeps_ret.
  - unfold Upload.data_url_body. keeps_walk ltac:(extends_leaf ltac:(done)).
Qed.

(** A request that passes the direct handler's validation reaches the put of
    the original. *)
Lemma direct_reaches_the_put (env : Env) (formData : FormData) (file : File) (w : World) :
  fd_file formData = Some file -> rejects Direct formData = false ->
  exists uploaded rest,
    w_trace (Upload.POST env (Form formData) w).2
    = w_trace w ++
      {| eff := R2Put (Upload.original_key (Date_now env) file)
                  (Some (f_bytes file)) (Some (f_type file));
         ok := uploaded |} :: rest.
Proof.
  intros Hfile Hok. unfold rejects in Hok. rewrite Hfile in Hok.
  apply orb_false_iff in Hok as [Hok Hallowed].
  apply orb_false_iff in Hok as [Htitle Hempty].
  set (put := fun uploaded =>
         {| eff := R2Put (Upload.original_key (Date_now env) file)
                     (Some (f_bytes file)) (Some (f_type file));
            ok := uploaded |}).
  assert (H : leads (fun w' => w_trace w' = w_trace w) (Upload.POST env (Form formData))
                (fun w' => exists uploaded rest,
                   w_trace w' = w_trace w ++ put uploaded :: rest)).
  { unfold Upload.POST.
    apply leads_try_catch; [|intros e; apply keeps_ret]. cbn zeta.
    rewrite Hfile, Htitle, Hempty, Hallowed. cbn [orb].
    apply leads_r2_send_at; [intros w' ->; by exists false, []|].
    match goal with
    | |- leads _ ?m _ =>
        assert (Hm : keeps (extends (w_trace w ++ [put true]) (fun _ => True)) m)
    end.
    { pose proof (direct_upload_pages_logs env) as Hpages.
      keeps_walk ltac:(extends_leaf ltac:(done)). }
    intros w' Hw'.
    destruct (Hm w') as (rest & -> & _); [exists []; by rewrite app_nil_r|].
    exists true, rest. by rewrite <- app_assoc. }
  by apply H.
Qed.

(** Every request the upload page sends gets past the validation of the
    direct handler.  The page keeps a file only if it passed the extension
    check; and then [handleUpload] either refuses on the page, without
    contacting the handler, or the handler goes on to put the original. *)
Theorem upload_page_requests_pass_validation (JSON_stringify_string : string -> string)
    (env : Env) (page : Page) (w : World) :
  file_checked page ->
  (forall files, file_checked (handleFileChange files page))
  /\ let out := handleUpload JSON_stringify_string (direct_post env) (page, w) in
     (out.2 = w
      /\ (tu_error out.1 = Some "Please select both PPT and ZIP files"
          \/ tu_error out.1 = Some "Please enter a title"))
     \/ exists file uploaded rest,
          tu_file page = Some file
          /\ w_trace out.2
             = w_trace w ++
               {| eff := R2Put (Upload.original_key (Date_now env) file)
                           (Some (f_bytes file)) (Some (f_type file));
                  ok := uploaded |} :: rest.
Proof.
  intros Hchecked. split; [intros files; by apply handleFileChange_checked|].
  cbn zeta. unfold handleUpload.
  destruct (tu_file page) as [file|] eqn:Hfile; [|left; split; [done | by left]].
  destruct (tu_zipFile page) as [zipFile|]; [|left; split; [done | by left]].
  destruct (String.eqb_spec (Js.trim (tu_title page)) "") as [Hblank|Htitle];
    [left; split; [done | by right]|].
  right. exists file.
  pose proof (Hchecked file Hfile) as Hallowed.
  assert (Hpass : rejects Direct (form JSON_stringify_string file page) = false).
  { unfold rejects. cbn. apply orb_false_iff. split; [apply orb_false_iff; split|].
    - destruct (String.eqb_spec (tu_title page) "") as [E|]; [|done].
      exfalso. apply Htitle. by rewrite E.
    - destruct (String.eqb_spec (Upload.fileType_of file) "") as [E|]; [|done].
      specialize (Hchecked file Hfile). rewrite E in Hchecked. unfold Upload.allowed in Hchecked.
      repeat (apply elem_of_cons in Hchecked as [Hchecked|Hchecked]; [discriminate|]).
      by apply elem_of_nil in Hchecked.
    - apply negb_false_iff, bool_decide_eq_true_2. by apply Hchecked. }
  destruct (direct_reaches_the_put env (form JSON_stringify_string file page) file w eq_refl
              Hpass) as (uploaded & rest & Htrace).
  exists uploaded, rest. split; [done|].
  unfold direct_post.
  destruct (Upload.POST env (Form (form JSON_stringify_string file page)) w) as [[r|e] w'];
    cbn [snd] in Htrace.
  - destruct r as [status data|]; cbn; [|done].
    destruct (negb _); [destruct (property "message" data)|]; done.
  - done.
Qed.

End UploadPage.

(** ** The properties at sample requests *)


(** A one-page deck stored by the direct upload. *)
Lemma direct_success_sample :
  let env := Fixture.env [] "" None 0 in
  direct_stored env direct_form (Upload.POST env (Form direct_form) Fixture.world).2.
Proof.
  cbn zeta.
  eapply (direct_success_means_stored (Fixture.env [] "" None 0) direct_form Fixture.world).
  vm_compute. reflexivity.
Defined.


(** A deck sent to the direct upload without its page lists: answered with
    400 after the original has been put. *)
Lemma direct_400_sample :
  let env := Fixture.env [] "" None 0 in
  let out := Upload.POST env (Form deck_form) Fixture.world in
  exists file,
    fd_file deck_form = Some file
    /\ w_trace out.2
       = w_trace Fixture.world ++
         [{| eff := R2Put (Upload.original_key (Date_now env) file)
                      (Some (f_bytes file)) (Some (f_type file));
             ok := true |}]
    /\ w_r2 out.2 !! Upload.original_key (Date_now env) file = Some (f_bytes file)
    /\ w_ppt_files out.2 = w_ppt_files Fixture.world
    /\ w_ppt_previews out.2 = w_ppt_previews Fixture.world.
Proof.
  cbn zeta.
  eapply (direct_400_leaves_the_original (Fixture.env [] "" None 0) deck_form Fixture.world).
  - vm_compute. reflexivity.
  - vm_compute. reflexivity.
Defined.

(** A deployment without a bucket name: the AI-assisted handler answers 500
    and leaves the stores alone. *)
Lemma misconfigured_sample :
  let env := without_bucket (Fixture.env [] "" (Some 12) 1) in
  let out := ProcessPpt.POST env (Form deck_form) Fixture.world in
  (exists details,
     out.1 = Val (JsonResponse 500
                    (JObj [("error", JStr "Processing failed");
                           ("details", JStr details)])))
  /\ stores_untouched Fixture.world out.2.
Proof.
  cbn zeta.
  pose proof (misconfigured_handler_only_stages
                (without_bucket (Fixture.env [] "" (Some 12) 1)) deck_form Fixture.deck
                Fixture.world eq_refl eq_refl eq_refl) as H.
  cbn zeta in H. destruct H as (Hanswer & _ & Hstores & _). by split.
Defined.

(** The row of the streamed sample carries the two tags of the request. *)
Lemma streamed_tags_sample :
  let env := Fixture.env [] converting (Some 2) 2 in
  exists row b tags,
    w_trace (UploadStream.POST env (Form deck_form) (start Fixture.world)).2 !! 13%nat
    = Some {| eff := DbInsertFile row; ok := b |}
    /\ fr_tags row = Some tags /\ tags <> [].
Proof.
  cbn zeta. eexists _, _.
  assert (Hi : w_trace (UploadStream.POST (Fixture.env [] converting (Some 2) 2)
                          (Form deck_form) (start Fixture.world)).2 !! 13%nat
               = Some {| eff := DbInsertFile _; ok := _ |})
    by (vm_compute; reflexivity).
  destruct (streamed_tags_are_never_empty _ _ _ _ _ _ Hi) as (tags & Htags & Hne & _).
  exists tags. split; [exact Hi | by split].
Defined.

(** Two deployments whose clocks are [36^6] ms apart give the sample deck
    the same slug. *)
Lemma slug_repeats_sample :
  let env := Fixture.env [] "" (Some 12) 1 in
  let later := at_time (1700000000000 + 36 ^ 6) env in
  fr_slug (ProcessPpt.initial_row later Fixture.deck (Value Fixture.metadata) 12)
  = fr_slug (ProcessPpt.initial_row env Fixture.deck (Value Fixture.metadata) 12).
Proof.
  cbn zeta.
  apply (slug_repeats_with_the_clock (Fixture.env [] "" (Some 12) 1)
           (at_time (1700000000000 + 36 ^ 6) (Fixture.env [] "" (Some 12) 1))
           Fixture.deck Fixture.deck (Value Fixture.metadata) (Value Fixture.metadata)
           12 12 1).
  - vm_compute. discriminate.
  - lia.
  - reflexivity.
  - reflexivity.
Defined.

(** The filled upload page sends a request that reaches the put of the
    original. *)
Lemma upload_page_sample :
  let env := Fixture.env [] "" None 0 in
  let out := TestUpload.handleUpload Js.quoted (direct_post env) (filled_page, Fixture.world) in
  exists uploaded rest,
    w_trace out.2
    = {| eff := R2Put (Upload.original_key (Date_now env) Fixture.deck)
                  (Some (f_bytes Fixture.deck)) (Some (f_type Fixture.deck));
         ok := uploaded |} :: rest.
Proof.
  cbn zeta.
  assert (Hchecked : file_checked filled_page).
  { intros file [= <-]. vm_compute. repeat (first [by left | right]). }
  destruct (upload_page_requests_pass_validation Js.quoted (Fixture.env [] "" None 0)
              filled_page Fixture.world Hchecked) as [_ H].
  cbn zeta in H.
  destruct H as [[_ [H|H]]|(file & uploaded & rest & [= <-] & H)].
  - vm_compute in H. discriminate.
  - vm_compute in H. discriminate.
  - exists uploaded, rest. exact H.
Defined.
